(** * Odoo / Magento synchronisation bridge: a shallow embedding

    The development follows the layout of the repository:

    - [Py]            the Python values the code manipulates (parsed JSON,
                      [None], truthiness, [dict.get], [str.strip], ...);
    - [MagentoClient] [app/magento/client.py]: token caching and the
                      order listing, over an explicit HTTP world;
    - [OdooClient]    [app/odoo/client.py]: connection handling and
                      [create_sale_order], over an explicit RPC world;
    - [Sync]          [app/middleware/sync.py]: [ProductSynchronizer] and
                      [OrderSynchronizer], over arbitrary client objects.

    Remote systems are modelled as stateful oracles: a world state and a
    handler that answers each call and moves the world on.  Every model
    function returns, besides its result, the list of calls it issued (in
    program order), so that statements such as "no remote create call is
    issued" are statements about that list. *)

From Stdlib Require Import String Ascii List ZArith QArith Bool Lia.
From Stdlib Require Import Sorting.Permutation.
Import ListNotations.

Close Scope Q_scope.
Local Open Scope list_scope.
Local Open Scope string_scope.

Set Warnings "-register-all".

(* ===================================================================== *)
(** * Python values *)
(* ===================================================================== *)

Module Py.

(** What [response.json()] yields, and what the dictionaries built by the
    code contain.  Python's [None] is [JNull], [True]/[False] are [JBool].
    A [dict] keeps its items in insertion order with distinct keys; it is
    an association list, and a lookup takes the first binding.  A [str] is
    a sequence of code points, here restricted to 0..255.  A float is
    represented by the rational it denotes. *)
Inductive value : Type :=
| JNull
| JBool (b : bool)
| JInt (z : Z)
| JFloat (q : Q)
| JStr (s : string)
| JArr (l : list value)
| JObj (kvs : list (string * value)).

Definition dict : Type := list (string * value).

(** Exceptions, by class, with the text [str(e)] gives. *)
Inductive exn : Type :=
| AttributeError (msg : string)
| TypeError (msg : string)
| IndexError (msg : string)
| KeyError (msg : string)
| RequestException (msg : string)
| OtherException (msg : string).

Definition exn_str (e : exn) : string :=
  match e with
  | AttributeError m | TypeError m | IndexError m | KeyError m
  | RequestException m | OtherException m => m
  end.

(** The outcome of a Python expression or call: a value, or a raised
    exception. *)
Inductive outcome (A : Type) : Type :=
| Ok (a : A)
| Raise (e : exn).
Arguments Ok {A} a.
Arguments Raise {A} e.

Definition obind {A B} (o : outcome A) (f : A -> outcome B) : outcome B :=
  match o with
  | Ok a => f a
  | Raise e => Raise e
  end.

Definition Qlt_bool (a b : Q) : bool := negb (Qle_bool b a).

(** [bool(v)]: the truth value of a Python object. *)
Definition truthy (v : value) : bool :=
  match v with
  | JNull => false
  | JBool b => b
  | JInt z => negb (Z.eqb z 0)
  | JFloat q => negb (Qeq_bool q 0)
  | JStr s => negb (String.eqb s "")
  | JArr l => match l with [] => false | _ => true end
  | JObj kvs => match kvs with [] => false | _ => true end
  end.

(** [type(v).__name__] *)
Definition type_name (v : value) : string :=
  match v with
  | JNull => "NoneType"
  | JBool _ => "bool"
  | JInt _ => "int"
  | JFloat _ => "float"
  | JStr _ => "str"
  | JArr _ => "list"
  | JObj _ => "dict"
  end.

Fixpoint lookup (k : string) (d : dict) : option value :=
  match d with
  | [] => None
  | (k', v) :: d' => if String.eqb k k' then Some v else lookup k d'
  end.

(** [d.get(k, default)] on a dict. *)
Definition dict_get (d : dict) (k : string) (default : value) : value :=
  match lookup k d with
  | Some v => v
  | None => default
  end.

(** [v.get(k, default)] on an arbitrary object: only a dict has [get]. *)
Definition py_get (v : value) (k : string) (default : value) : outcome value :=
  match v with
  | JObj d => Ok (dict_get d k default)
  | _ => Raise (AttributeError
                  ("'" ++ type_name v ++ "' object has no attribute 'get'"))
  end.

(** [v[k]] for a string key [k]. *)
Definition py_getitem (v : value) (k : string) : outcome value :=
  match v with
  | JObj d => match lookup k d with
              | Some x => Ok x
              | None => Raise (KeyError ("'" ++ k ++ "'"))
              end
  | JArr _ => Raise (TypeError "list indices must be integers or slices, not str")
  | JStr _ => Raise (TypeError "string indices must be integers, not 'str'")
  | _ => Raise (TypeError
                  ("'" ++ type_name v ++ "' object is not subscriptable"))
  end.

(** [v[0]] on a list. *)
Definition py_first (l : list value) : outcome value :=
  match l with
  | x :: _ => Ok x
  | [] => Raise (IndexError "list index out of range")
  end.

(** [v[0]] on an arbitrary object. *)
Definition py_item0 (v : value) : outcome value :=
  match v with
  | JArr l => py_first l
  | JStr (String c _) => Ok (JStr (String c EmptyString))
  | JStr EmptyString => Raise (IndexError "string index out of range")
  | JObj d => Raise (KeyError "0")
  | _ => Raise (TypeError
                  ("'" ++ type_name v ++ "' object is not subscriptable"))
  end.

(** [isinstance(v, list)] *)
Definition is_list (v : value) : bool :=
  match v with
  | JArr _ => true
  | _ => false
  end.

Fixpoint prefix_of (p s : string) : bool :=
  match p, s with
  | EmptyString, _ => true
  | String a p', String b s' => Ascii.eqb a b && prefix_of p' s'
  | String _ _, EmptyString => false
  end.

Fixpoint substring_of (p s : string) : bool :=
  prefix_of p s ||
  match s with
  | EmptyString => false
  | String _ s' => substring_of p s'
  end.

(** [k in v] for a string [k]: key membership in a dict, element
    membership in a list, substring test on a string. *)
Definition py_contains (k : string) (v : value) : outcome bool :=
  match v with
  | JObj d => Ok (match lookup k d with Some _ => true | None => false end)
  | JArr l => Ok (existsb (fun x => match x with
                                    | JStr s => String.eqb s k
                                    | _ => false
                                    end) l)
  | JStr s => Ok (substring_of k s)
  | _ => Raise (TypeError
                  ("argument of type '" ++ type_name v ++ "' is not iterable"))
  end.

(** The characters of a string, each as a one-character [str]. *)
Fixpoint chars (s : string) : list value :=
  match s with
  | EmptyString => []
  | String c s' => JStr (String c EmptyString) :: chars s'
  end.

(** [iter(v)]: the items a [for] loop or [list.extend] takes from [v]. *)
Definition py_iter (v : value) : outcome (list value) :=
  match v with
  | JArr l => Ok l
  | JObj d => Ok (map (fun kv => JStr (fst kv)) d)
  | JStr s => Ok (chars s)
  | _ => Raise (TypeError ("'" ++ type_name v ++ "' object is not iterable"))
  end.

(** [isspace] on the code points below 256: TAB..CR, FS..US, space, NEL
    and the no-break space. *)
Definition is_space (c : ascii) : bool :=
  let n := nat_of_ascii c in
  ((9 <=? n)%nat && (n <=? 13)%nat) || ((28 <=? n)%nat && (n <=? 32)%nat)
  || (n =? 133)%nat || (n =? 160)%nat.

(** [s.lstrip(...)], [s.rstrip(...)] for the characters satisfying [p]. *)
Fixpoint lstrip_by (p : ascii -> bool) (s : string) : string :=
  match s with
  | EmptyString => EmptyString
  | String c s' => if p c then lstrip_by p s' else s
  end.

Fixpoint rstrip_by (p : ascii -> bool) (s : string) : string :=
  match s with
  | EmptyString => EmptyString
  | String c s' =>
      match rstrip_by p s' with
      | EmptyString => if p c then EmptyString else String c EmptyString
      | r => String c r
      end
  end.

(** [s.strip()] *)
Definition strip (s : string) : string :=
  lstrip_by is_space (rstrip_by is_space s).

(** A string with no white space at its left (right) end. *)
Definition clean_left (s : string) : bool :=
  match s with
  | EmptyString => true
  | String c _ => negb (is_space c)
  end.

Fixpoint clean_right (s : string) : bool :=
  match s with
  | EmptyString => true
  | String c EmptyString => negb (is_space c)
  | String _ s' => clean_right s'
  end.

(** Whether every character of [s] satisfies [p]; the last character. *)
Fixpoint all_chars (p : ascii -> bool) (s : string) : bool :=
  match s with
  | EmptyString => true
  | String c s' => p c && all_chars p s'
  end.

Fixpoint last_char (s : string) : option ascii :=
  match s with
  | EmptyString => None
  | String c EmptyString => Some c
  | String _ s' => last_char s'
  end.

(** Decimal text of an integer, as [str(n)] prints an [int]. *)
Fixpoint digits (fuel : nat) (n : nat) (acc : string) : string :=
  match fuel with
  | O => acc
  | S fuel' =>
      let d := String (ascii_of_nat (48 + n mod 10)%nat) acc in
      match (n / 10)%nat with
      | O => d
      | m => digits fuel' m d
      end
  end.

Definition str_nat (n : nat) : string := digits (S n) n "".

Definition str_int (z : Z) : string :=
  if (z <? 0)%Z then "-" ++ str_nat (Z.to_nat (- z)) else str_nat (Z.to_nat z).

End Py.

(* ===================================================================== *)
(** * Effects: state, raised exceptions and the log of issued calls *)
(* ===================================================================== *)

Module Eff.
Import Py.

(** A computation over a state [S] that logs events [E]: it yields a value
    or raises, the state it leaves, and the events it issued, oldest
    first. *)
Definition M (S E A : Type) : Type := S -> outcome A * S * list E.

Definition ret {S E A} (a : A) : M S E A := fun s => (Ok a, s, []).

Definition raise {S E A} (e : exn) : M S E A := fun s => (Raise e, s, []).

Definition lift {S E A} (o : outcome A) : M S E A := fun s => (o, s, []).

Definition bind {S E A B} (m : M S E A) (f : A -> M S E B) : M S E B :=
  fun s =>
    match m s with
    | (Ok a, s1, t1) => let '(r, s2, t2) := f a s1 in (r, s2, (t1 ++ t2)%list)
    | (Raise e, s1, t1) => (Raise e, s1, t1)
    end.

(** [try: m  except <classes accepted by catches> as e: h e] *)
Definition try_except {S E A} (m : M S E A) (catches : exn -> bool)
  (h : exn -> M S E A) : M S E A :=
  fun s =>
    match m s with
    | (Ok a, s1, t1) => (Ok a, s1, t1)
    | (Raise e, s1, t1) =>
        if catches e
        then let '(r, s2, t2) := h e s1 in (r, s2, (t1 ++ t2)%list)
        else (Raise e, s1, t1)
    end.

Definition get {S E} : M S E S := fun s => (Ok s, s, []).

Definition put {S E} (s : S) : M S E unit := fun _ => (Ok tt, s, []).

(** [except Exception] *)
Definition any_exception (e : exn) : bool := true.

(** [except requests.exceptions.RequestException] *)
Definition is_RequestException (e : exn) : bool :=
  match e with
  | RequestException _ => true
  | _ => false
  end.

Declare Scope eff_scope.
Delimit Scope eff_scope with eff.
Notation "x <- m ;; k" := (bind m (fun x => k))
  (at level 61, m at next level, right associativity) : eff_scope.
Notation "m ;;; k" := (bind m (fun _ => k))
  (at level 61, right associativity) : eff_scope.

End Eff.

(* ===================================================================== *)
(** * app/magento/client.py *)
(* ===================================================================== *)

Module MagentoClient.
Import Py Eff.
Local Open Scope eff_scope.

(** The fields of a [MagentoClient] instance. *)
Record client : Type := {
  base_url : string;
  username : string;
  password : string;
  token : value;
  token_expiry : Q;
  token_lifetime : Q
}.

(** [MagentoClient.__init__] *)
Definition init (url user pass : string) : client :=
  {| base_url := rstrip_by (Ascii.eqb "/") url;
     username := user;
     password := pass;
     token := JNull;
     token_expiry := 0%Q;
     token_lifetime := 3600%Q |}.

Definition with_token (c : client) (t : value) : client :=
  {| base_url := base_url c; username := username c; password := password c;
     token := t;
     token_expiry := token_expiry c; token_lifetime := token_lifetime c |}.

Definition with_token_expiry (c : client) (t : Q) : client :=
  {| base_url := base_url c; username := username c; password := password c;
     token := token c;
     token_expiry := t; token_lifetime := token_lifetime c |}.

(** The body of an HTTP response: empty, JSON text (given parsed), or
    text [response.json()] cannot decode. *)
Inductive body : Type :=
| Empty
| Json (v : value)
| Malformed.

Record response : Type := {
  status_code : Z;
  content : body
}.

(** What the client asks of the outside: the clock and the [requests]
    library. *)
Inductive call : Type -> Type :=
| time_time : call Q
| requests_post (url : string) (json : dict)
    (headers : list (string * string)) : call response
| requests_request (method url : string) (json : value)
    (params : option dict) (headers : list (string * string)) : call response.

Inductive event : Type :=
| Event {X : Type} (c : call X) (r : outcome X).

(** A credential exchange is a POST to the token endpoint. *)
Definition is_token_exchange (e : event) : bool :=
  match e with
  | Event (requests_post _ _ _) _ => true
  | Event _ _ => false
  end.

Definition token_exchanges (t : list event) : nat :=
  length (filter is_token_exchange t).

(** [response.raise_for_status()]: an HTTPError, which is a
    RequestException, for a 4xx or 5xx status. *)
Definition raise_for_status {S} (r : response) : M S event unit :=
  if ((400 <=? status_code r) && (status_code r <? 600))%Z
  then raise (RequestException "HTTPError")
  else ret tt.

(** [response.json()]: the decode error of [requests] is a
    RequestException. *)
Definition response_json {S} (r : response) : M S event value :=
  match content r with
  | Json v => ret v
  | Empty | Malformed => raise (RequestException "JSONDecodeError")
  end.

(** [bool(response.content)] *)
Definition has_content (r : response) : bool :=
  match content r with
  | Empty => false
  | Json _ | Malformed => true
  end.

(** The token endpoint and what is posted to it. *)
Definition token_url (c : client) : string :=
  base_url c ++ "/rest/V1/integration/admin/token".

Definition token_payload (c : client) : dict :=
  [("username", JStr (username c)); ("password", JStr (password c))].

Definition token_headers : list (string * string) :=
  [("Content-Type", "application/json")].

(** [True] when [raise_for_status] lets the response through. *)
Definition status_ok (r : response) : bool :=
  negb ((400 <=? status_code r) && (status_code r <? 600))%Z.

(** The specification's side of [get_new_orders]: the items a result
    page of [get_orders] contributes are those of its ["items"] list;
    [None] (a failed query) and a page without items contribute nothing. *)
Definition page_items (page : value) : list value :=
  match page with
  | JObj d => match lookup "items" d with
              | Some (JArr l) => l
              | _ => []
              end
  | _ => []
  end.

(** A result page: [None], or an object whose ["items"], if any, is a
    list. *)
Definition is_page (page : value) : bool :=
  match page with
  | JNull => true
  | JObj d => match lookup "items" d with
              | Some (JArr _) | None => true
              | Some _ => false
              end
  | _ => false
  end.

(** [v is not None] *)
Definition is_not_none (v : value) : bool :=
  match v with
  | JNull => false
  | _ => true
  end.

(** [bool(s)] for an optional string argument. *)
Definition given (s : option string) : bool :=
  match s with
  | Some s => negb (String.eqb s "")
  | None => false
  end.

(** The body [update_product_stock] puts. *)
Definition stock_data (quantity : Q) : value :=
  JObj [("stockItem",
         JObj [("qty", JFloat quantity);
               ("is_in_stock", JBool (Qlt_bool 0 quantity))])].

(** The body [update_product_price] puts. *)
Definition price_data (price : Q) : value :=
  JObj [("product", JObj [("price", JFloat price)])].

(** One entry of [custom_attributes]. *)
Definition attribute (code text : string) : value :=
  JObj [("attribute_code", JStr code); ("value", JStr text)].

(** The resource requests of a trace, as (method, url, body), oldest
    first; and those among them that were answered with a status
    [raise_for_status] accepts. *)
Definition requests_sent (t : list event) : list (string * string * value) :=
  flat_map (fun e => match e with
                     | Event (requests_request m u d _ _) _ => [(m, u, d)]
                     | Event _ _ => []
                     end) t.

Definition acknowledged (t : list event) : list (string * string * value) :=
  flat_map (fun e => match e with
                     | Event (requests_request m u d _ _) (Ok r) =>
                         if status_ok r then [(m, u, d)] else []
                     | Event _ _ => []
                     end) t.

(** The [Authorization] headers of the resource requests of a trace. *)
Definition authorizations (t : list event) : list (option string) :=
  flat_map (fun e => match e with
                     | Event (requests_request _ _ _ _ h) _ =>
                         [option_map snd
                            (find (fun kv => String.eqb (fst kv) "Authorization")
                               h)]
                     | Event _ _ => []
                     end) t.

(** A token exchange that yields no token: the post raised a
    RequestException, or answered with an error status or with a body
    that is not JSON. *)
Definition exchange_fails (r : outcome response) : bool :=
  match r with
  | Ok resp =>
      negb (status_ok resp) ||
      match content resp with
      | Json _ => false
      | Empty | Malformed => true
      end
  | Raise e => is_RequestException e
  end.

(** The status filter [get_orders] adds for a status. *)
Definition status_params (st : string) : dict :=
  [("searchCriteria[pageSize]", JInt 10);
   ("searchCriteria[currentPage]", JInt 1);
   ("searchCriteria[filterGroups][0][filters][0][field]", JStr "status");
   ("searchCriteria[filterGroups][0][filters][0][value]", JStr st);
   ("searchCriteria[filterGroups][0][filters][0][conditionType]", JStr "eq")].

(** The dates [special_price_data] adds for an optional date. *)
Definition date_attribute (code : string) (d : option string) : list value :=
  match d with
  | Some s => if String.eqb s "" then [] else [attribute code s]
  | None => []
  end.

(** The status each order query of a trace filters on. *)
Definition status_filters (t : list event) : list (option value) :=
  flat_map (fun e => match e with
                     | Event (requests_request _ _ _ (Some params) _) _ =>
                         [lookup
                            "searchCriteria[filterGroups][0][filters][0][value]"
                            params]
                     | Event (requests_request _ _ _ None _) _ => [None]
                     | Event _ _ => []
                     end) t.

(** An answer [_make_api_request] copes with: a response, or a
    RequestException. *)
Definition no_other_exception (r : outcome response) : bool :=
  match r with
  | Ok _ => true
  | Raise e => is_RequestException e
  end.

(** What [_make_api_request] makes of the answer to its request: the
    parsed body, [True] for an empty one, [None] for a RequestException,
    an error status or an undecodable body. *)
Definition api_result (r : outcome response) : outcome value :=
  match r with
  | Ok resp =>
      if status_ok resp
      then match content resp with
           | Empty => Ok (JBool true)
           | Json v => Ok v
           | Malformed => Ok JNull
           end
      else Ok JNull
  | Raise e => if is_RequestException e then Ok JNull else Raise e
  end.

(** The headers [_make_api_request] sends with token [tok]. *)
Definition api_headers (bearer : string) : list (string * string) :=
  [("Content-Type", "application/json");
   ("Authorization", "Bearer " ++ bearer)].

Section Client.

(** The world the client talks to, and how it answers. *)
Variable World : Type.
Variable handle : forall X, call X -> World -> outcome X * World.

(** [str(v)], used where a value is interpolated into an f-string. *)
Variable py_str : value -> string.

Definition Mc : Type -> Type := M (client * World) event.

Definition perform {X} (c : call X) : Mc X :=
  fun s =>
    let '(r, w) := handle X c (snd s) in
    (r, (fst s, w), [Event c r]).

Definition self : Mc client :=
  fun s => (Ok (fst s), s, []).

Definition set_self (f : client -> client) : Mc unit :=
  fun s => (Ok tt, (f (fst s), snd s), []).

(** [MagentoClient._get_token] *)
Definition _get_token : Mc value :=
  current_time <- perform time_time ;;
  c <- self ;;
  if truthy (token c) && Qlt_bool current_time (token_expiry c)
  then ret (token c)
  else
    try_except
      (let url := token_url c in
       let headers := token_headers in
       let payload := token_payload c in
       response <- perform (requests_post url payload headers) ;;
       raise_for_status response ;;;
       tok <- response_json response ;;
       set_self (fun c => with_token c tok) ;;;
       set_self (fun c =>
         with_token_expiry c (current_time + token_lifetime c)%Q) ;;;
       ret tok)
      is_RequestException
      (fun _ => set_self (fun c => with_token c JNull) ;;; ret JNull).

(** [MagentoClient._make_api_request] *)
Definition _make_api_request (method endpoint : string) (data : value)
  (params : option dict) : Mc value :=
  tok <- _get_token ;;
  if negb (truthy tok)
  then ret JNull
  else
    try_except
      (c <- self ;;
       let url := base_url c ++ endpoint in
       let headers := [("Content-Type", "application/json");
                       ("Authorization", "Bearer " ++ py_str tok)] in
       response <- perform (requests_request method url data params headers) ;;
       raise_for_status response ;;;
       if has_content response
       then response_json response
       else ret (JBool true))
      is_RequestException
      (fun _ => ret JNull).

(** [MagentoClient.get_orders]; [status] is [None] or a string. *)
Definition get_orders (page_size current_page : Z) (status : option string)
  : Mc value :=
  let endpoint := "/rest/V1/orders" in
  let params := [("searchCriteria[pageSize]", JInt page_size);
                 ("searchCriteria[currentPage]", JInt current_page)] in
  let params :=
    match status with
    | Some st =>
        if negb (String.eqb st "")
        then (params ++
          [("searchCriteria[filterGroups][0][filters][0][field]",
            JStr "status");
           ("searchCriteria[filterGroups][0][filters][0][value]", JStr st);
           ("searchCriteria[filterGroups][0][filters][0][conditionType]",
            JStr "eq")])%list
        else params
    | None => params
    end in
  _make_api_request "GET" endpoint JNull (Some params).

(** [if page and 'items' in page: orders.extend(page['items'])] *)
Definition extend_with_items (orders : list value) (page : value)
  : outcome (list value) :=
  if truthy page
  then obind (py_contains "items" page) (fun present =>
         if present
         then obind (py_getitem page "items") (fun items =>
                obind (py_iter items) (fun l => Ok (orders ++ l)%list))
         else Ok orders)
  else Ok orders.

(** [MagentoClient.get_new_orders] *)
Definition get_new_orders : Mc (list value) :=
  pending_orders <- get_orders 10 1 (Some "pending") ;;
  processing_orders <- get_orders 10 1 (Some "processing") ;;
  let orders := [] in
  orders <- lift (extend_with_items orders pending_orders) ;;
  orders <- lift (extend_with_items orders processing_orders) ;;
  ret orders.

(** [MagentoClient.get_product_by_sku] *)
Definition get_product_by_sku (sku : string) : Mc value :=
  let endpoint := "/rest/V1/products/" ++ sku in
  _make_api_request "GET" endpoint JNull None.

(** [MagentoClient.update_product_stock] *)
Definition update_product_stock (sku : string) (quantity : Q) : Mc bool :=
  let endpoint := "/rest/V1/products/" ++ sku ++ "/stockItems/1" in
  let data := stock_data quantity in
  result <- _make_api_request "PUT" endpoint data None ;;
  ret (is_not_none result).

(** [MagentoClient.update_product_price] *)
Definition update_product_price (sku : string) (price : Q) : Mc bool :=
  let endpoint := "/rest/V1/products/" ++ sku in
  let data := price_data price in
  result <- _make_api_request "PUT" endpoint data None ;;
  ret (is_not_none result).

(** The body [update_product_special_price] puts: the special price,
    then the two dates that are given. *)
Definition special_price_data (special_price : Q)
  (from_date to_date : option string) : value :=
  let custom_attributes :=
    [attribute "special_price" (py_str (JFloat special_price))] in
  let custom_attributes :=
    match from_date with
    | Some d =>
        if given from_date
        then (custom_attributes ++ [attribute "special_from_date" d])%list
        else custom_attributes
    | None => custom_attributes
    end in
  let custom_attributes :=
    match to_date with
    | Some d =>
        if given to_date
        then (custom_attributes ++ [attribute "special_to_date" d])%list
        else custom_attributes
    | None => custom_attributes
    end in
  JObj [("product", JObj [("custom_attributes", JArr custom_attributes)])].

(** [MagentoClient.update_product_special_price] *)
Definition update_product_special_price (sku : string) (special_price : Q)
  (from_date to_date : option string) : Mc bool :=
  let endpoint := "/rest/V1/products/" ++ sku in
  let data := special_price_data special_price from_date to_date in
  result <- _make_api_request "PUT" endpoint data None ;;
  ret (is_not_none result).

(** [MagentoClient.get_order_by_id] *)
Definition get_order_by_id (order_id : value) : Mc value :=
  let endpoint := "/rest/V1/orders/" ++ py_str order_id in
  _make_api_request "GET" endpoint JNull None.

End Client.

End MagentoClient.

(* ===================================================================== *)
(** * app/odoo/client.py *)
(* ===================================================================== *)

Module OdooClient.
Import Py Eff.
Local Open Scope eff_scope.

(** The canonical product record the client hands out (the dictionary
    built by [get_product_by_sku] and [get_all_products]).  [sku] is
    [None] for an unset [default_code] (which Odoo reports as [False]);
    [promo_price] is [None] when the record has no [lst_price]. *)
Record product : Type := {
  id : Z;
  name : string;
  sku : option string;
  retail_price : Q;
  promo_price : option Q;
  quantity : Q;
  type : string
}.

(** A [product.product] record as the server exposes it. *)
Record product_record : Type := {
  rec_id : Z;
  rec_name : string;
  default_code : option string;
  list_price : Q;
  lst_price : option Q;
  qty_available : Q;
  rec_type : string
}.

Definition product_of_record (r : product_record) : product :=
  {| id := rec_id r;
     name := rec_name r;
     sku := default_code r;
     retail_price := list_price r;
     promo_price := lst_price r;
     quantity := qty_available r;
     type := rec_type r |}.

(** The fields of an [OdooClient] instance; [odoo] tells whether
    [self.odoo] holds a session object. *)
Record client : Type := {
  host : string;
  port : Z;
  database : string;
  username : string;
  password : string;
  odoo : bool;
  connected : bool
}.

(** [OdooClient.__init__] *)
Definition init (h : string) (p : Z) (db user pass : string) : client :=
  {| host := h; port := p; database := db; username := user;
     password := pass; odoo := false; connected := false |}.

Definition with_odoo (c : client) (b : bool) : client :=
  {| host := host c; port := port c; database := database c;
     username := username c; password := password c;
     odoo := b; connected := connected c |}.

Definition with_connected (c : client) (b : bool) : client :=
  {| host := host c; port := port c; database := database c;
     username := username c; password := password c;
     odoo := odoo c; connected := b |}.

(** A search domain: a list of [(field, operator, value)] triples. *)
Definition domain : Type := list (string * string * value).

(** The remote calls made through [odoorpc]. *)
Inductive call : Type -> Type :=
| ODOO (h : string) (p : Z) : call unit
| login (db user pass : string) : call unit
| search (model : string) (d : domain) : call (list Z)
| browse (model : string) (rid : Z) : call product_record
| browse_ids (model : string) (ids : list Z) : call (list product_record)
| create (model : string) (vals : dict) : call Z.

Inductive event : Type :=
| Event {X : Type} (c : call X) (r : outcome X).

(** The events that ask the server to create a record of [model]. *)
Definition is_create (model : string) (e : event) : bool :=
  match e with
  | Event (create m _) _ => String.eqb m model
  | Event _ _ => false
  end.

(** The record creations the server carried out: the call returned the
    new identifier. *)
Definition is_created (model : string) (e : event) : bool :=
  match e with
  | Event (create m _) (Ok _) => String.eqb m model
  | Event _ _ => false
  end.

(** The records the server created during a run, oldest first. *)
Definition created (t : list event) : list (string * Z) :=
  flat_map (fun e => match e with
                     | Event (create m _) (Ok rid) => [(m, rid)]
                     | Event _ _ => []
                     end) t.

(** A trace in which the server is asked to create nothing. *)
Definition quiet (t : list event) : Prop :=
  (forall m, existsb (is_create m) t = false) /\ created t = [].

(** A search that resolves nothing: it returns no identifier, or fails. *)
Definition no_match (r : outcome (list Z)) : bool :=
  match r with
  | Ok [] => true
  | Ok (_ :: _) => false
  | Raise _ => true
  end.

(** The search [create_sale_order] issues for an order line. *)
Definition line_search (line : dict) : call (list Z) :=
  search "product.product"
    [("default_code", "=", dict_get line "sku" JNull)].

(** The trace of resolving lines of which none resolves: one search per
    line, each answered by the empty list. *)
Definition unresolved_searches (order_lines : list dict) : list event :=
  map (fun line => Event (line_search line) (Ok [])) order_lines.

(** [ids[:limit]] *)
Definition slice_to (ids : list Z) (limit : Z) : list Z :=
  if (limit <? 0)%Z
  then firstn (length ids - Z.to_nat (- limit)) ids
  else firstn (Z.to_nat limit) ids.

Section Client.

Variable World : Type.
Variable handle : forall X, call X -> World -> outcome X * World.

(** [s.upper()] *)
Variable py_upper : string -> string.

Definition Mo : Type -> Type := M (client * World) event.

Definition perform {X} (c : call X) : Mo X :=
  fun s =>
    let '(r, w) := handle X c (snd s) in
    (r, (fst s, w), [Event c r]).

Definition self : Mo client :=
  fun s => (Ok (fst s), s, []).

Definition set_self (f : client -> client) : Mo unit :=
  fun s => (Ok tt, (f (fst s), snd s), []).

(** [OdooClient.connect] *)
Definition connect : Mo bool :=
  try_except
    (c <- self ;;
     perform (ODOO (host c) (port c)) ;;;
     set_self (fun c => with_odoo c true) ;;;
     perform (login (database c) (username c) (password c)) ;;;
     set_self (fun c => with_connected c true) ;;;
     ret true)
    any_exception
    (fun _ => set_self (fun c => with_connected c false) ;;; ret false).

(** [OdooClient.ensure_connection] *)
Definition ensure_connection : Mo bool :=
  c <- self ;;
  if negb (connected c) || negb (odoo c)
  then connect
  else ret true.

(** [OdooClient.get_product_by_sku] *)
Definition get_product_by_sku (sku : string) : Mo (option product) :=
  ok <- ensure_connection ;;
  if negb ok then ret None
  else
    try_except
      (product_ids <- perform (search "product.product"
                                 [("default_code", "=", JStr sku)]) ;;
       match product_ids with
       | [] => ret None
       | pid :: _ =>
           r <- perform (browse "product.product" pid) ;;
           ret (Some (product_of_record r))
       end)
      any_exception
      (fun _ => ret None).

(** [OdooClient.get_all_products]; [limit] is [None] or an integer. *)
Definition get_all_products (limit : option Z) : Mo (list product) :=
  ok <- ensure_connection ;;
  if negb ok then ret []
  else
    try_except
      (product_ids <- perform (search "product.product" []) ;;
       let product_ids :=
         match limit with
         | Some n => if negb (n =? 0)%Z then slice_to product_ids n
                     else product_ids
         | None => product_ids
         end in
       records <- perform (browse_ids "product.product" product_ids) ;;
       ret (map product_of_record records))
      any_exception
      (fun _ => ret []).

(** [OdooClient._get_country_id]: [None] or the identifier. *)
Definition _get_country_id (country_code : value) : Mo value :=
  ok <- ensure_connection ;;
  if negb ok then ret JNull
  else
    try_except
      (code <- match country_code with
               | JStr s => ret (py_upper s)
               | _ => raise (AttributeError
                        ("'" ++ type_name country_code
                             ++ "' object has no attribute 'upper'"))
               end ;;
       country_ids <- perform (search "res.country"
                                 [("code", "=", JStr code)]) ;;
       match country_ids with
       | cid :: _ => ret (JInt cid)
       | [] => ret JNull
       end)
      any_exception
      (fun _ => ret JNull).

(** The order line [(0, 0, {...})] sent for a resolved product. *)
Definition sale_order_line (product_id : Z) (line : dict) : value :=
  JArr [JInt 0; JInt 0;
        JObj [("product_id", JInt product_id);
              ("product_uom_qty", dict_get line "quantity" (JInt 1));
              ("price_unit", dict_get line "price_unit" JNull)]].

(** The loop of [create_sale_order] that resolves each line's sku. *)
Fixpoint resolve_lines (order_lines : list dict) (sale_order_lines : list value)
  : Mo (list value) :=
  match order_lines with
  | [] => ret sale_order_lines
  | line :: rest =>
      product_ids <- perform (line_search line) ;;
      match product_ids with
      | [] => resolve_lines rest sale_order_lines
      | pid :: _ =>
          resolve_lines rest
            (sale_order_lines ++ [sale_order_line pid line])%list
      end
  end.

(** The values of the partner created for an unknown customer. *)
Definition partner_vals (customer_data : dict) (country_id : value) : dict :=
  [("name", dict_get customer_data "name" JNull);
   ("email", dict_get customer_data "email" JNull);
   ("phone", dict_get customer_data "phone" JNull);
   ("street", dict_get customer_data "street" JNull);
   ("city", dict_get customer_data "city" JNull);
   ("zip", dict_get customer_data "zip" JNull);
   ("country_id", country_id)].

(** [OdooClient.create_sale_order]: the new identifier, or [None]. *)
Definition create_sale_order (customer_data : dict) (order_lines : list dict)
  (external_order_id : value) : Mo (option Z) :=
  ok <- ensure_connection ;;
  if negb ok then ret None
  else
    try_except
      (partner_ids <- perform (search "res.partner"
                                 [("email", "=",
                                   dict_get customer_data "email" JNull)]) ;;
       partner_id <-
         match partner_ids with
         | pid :: _ => ret pid
         | [] =>
             country_id <- _get_country_id
                             (dict_get customer_data "country_code" JNull) ;;
             perform (create "res.partner"
                        (partner_vals customer_data country_id))
         end ;;
       sale_order_lines <- resolve_lines order_lines [] ;;
       match sale_order_lines with
       | [] => ret None
       | _ =>
           let sale_order_vals :=
             [("partner_id", JInt partner_id);
              ("client_order_ref", external_order_id);
              ("order_line", JArr sale_order_lines)] in
           sale_order_id <- perform (create "sale.order" sale_order_vals) ;;
           ret (Some sale_order_id)
       end)
      any_exception
      (fun _ => ret None).

End Client.

(** The [sale_order_lines] built from the order lines when the search of
    a line answers [found line]: the line of the first product found, and
    nothing for a line that finds none. *)
Definition found_lines (found : dict -> list Z) (order_lines : list dict)
  : list value :=
  flat_map (fun line => match found line with
                        | pid :: _ => [sale_order_line pid line]
                        | [] => []
                        end) order_lines.

(** The searches of the order lines, each with its answer. *)
Definition line_searches (found : dict -> list Z) (order_lines : list dict)
  : list event :=
  map (fun line => Event (line_search line) (Ok (found line))) order_lines.

(** The calls that read or write data, as opposed to those that open
    the session. *)
Definition is_data_call (e : event) : bool :=
  match e with
  | Event (ODOO _ _) _ | Event (login _ _ _) _ => false
  | Event _ _ => true
  end.

End OdooClient.

(* ===================================================================== *)
(** * app/middleware/sync.py *)
(* ===================================================================== *)

(** The synchronizers receive two client objects and only call their
    methods.  They are modelled over arbitrary such objects: a state [St]
    standing for both clients and the systems behind them, and a handler
    answering each method call, typed by the methods' signatures in
    [client.py].  A handler may raise: the synchronizers guard every call
    with [except Exception]. *)
Module Sync.
Import Py Eff.
Local Open Scope eff_scope.

Inductive call : Type -> Type :=
| odoo_get_product_by_sku (sku : string) : call (option OdooClient.product)
| odoo_get_all_products : call (list OdooClient.product)
| odoo_create_sale_order (customer_data : dict) (order_lines : list dict)
    (external_order_id : value) : call (option Z)
| magento_get_product_by_sku (sku : string) : call (option dict)
| magento_update_product_stock (sku : string) (quantity : Q) : call bool
| magento_update_product_price (sku : string) (price : Q) : call bool
| magento_update_product_special_price (sku : string) (special_price : Q)
    : call bool
| magento_get_order_by_id (order_id : value) : call (option dict)
| magento_get_new_orders : call (list dict).

(** What a synchronizer does that is visible from outside: a method call
    on a client with its outcome, or [time.sleep(seconds)]. *)
Inductive event : Type :=
| Event {X : Type} (c : call X) (r : outcome X)
| Sleep (seconds : Q).

(** The calls that go to the storefront client. *)
Definition is_magento_call (e : event) : bool :=
  match e with
  | Event (magento_get_product_by_sku _) _
  | Event (magento_update_product_stock _ _) _
  | Event (magento_update_product_price _ _) _
  | Event (magento_update_product_special_price _ _) _
  | Event (magento_get_order_by_id _) _
  | Event magento_get_new_orders _ => true
  | _ => false
  end.

(** The three update calls of the storefront client. *)
Definition is_update_call (e : event) : bool :=
  match e with
  | Event (magento_update_product_stock _ _) _
  | Event (magento_update_product_price _ _) _
  | Event (magento_update_product_special_price _ _) _ => true
  | _ => false
  end.

Definition is_special_price_call (e : event) : bool :=
  match e with
  | Event (magento_update_product_special_price _ _) _ => true
  | _ => false
  end.

(** The skus ([sync_product]) and the order identifiers ([sync_order])
    a trace fetches, oldest first: each run of these methods starts with
    one such fetch. *)
Definition fetched_skus (t : list event) : list string :=
  flat_map (fun e => match e with
                     | Event (odoo_get_product_by_sku sku) _ => [sku]
                     | _ => []
                     end) t.

Definition fetched_orders (t : list event) : list value :=
  flat_map (fun e => match e with
                     | Event (magento_get_order_by_id order_id) _ => [order_id]
                     | _ => []
                     end) t.

(** [bool(d)] for an optional dict: [None] and [{}] are false. *)
Definition truthy_dict (d : option dict) : bool :=
  match d with
  | Some (_ :: _) => true
  | _ => false
  end.

(** [bool(s)] for a sku, which is a string or unset. *)
Definition truthy_sku (s : option string) : bool :=
  match s with
  | Some s => negb (String.eqb s "")
  | None => false
  end.

(** [bool(n)] for an optional integer. *)
Definition truthy_id (n : option Z) : bool :=
  match n with
  | Some z => negb (z =? 0)%Z
  | None => false
  end.

(** The dictionary [sync_product] returns. *)
Record product_result : Type := {
  success : bool;
  message : string;
  sku : string
}.

(** The [results] dictionary of [sync_all_products]. *)
Record product_counts : Type := {
  total : nat;
  successful : nat;
  failed : nat;
  failed_skus : list string
}.

(** The dictionary [sync_all_products] returns; [all_results] is [None]
    when the key is absent. *)
Record all_products_result : Type := {
  all_success : bool;
  all_message : string;
  all_results : option product_counts
}.

(** The dictionary [sync_order] returns. *)
Record order_result : Type := {
  order_success : bool;
  order_message : string;
  orders_synced : list value
}.

(** The [results] dictionary of [sync_new_orders]. *)
Record order_counts : Type := {
  o_total : nat;
  o_successful : nat;
  o_failed : nat;
  failed_orders : list value;
  synced_orders : list value
}.

(** The dictionary [sync_new_orders] returns. *)
Record new_orders_result : Type := {
  new_success : bool;
  new_message : string;
  new_orders_synced : list value;
  new_results : option order_counts
}.

(** [str(n)] for an optional integer. *)
Definition str_id (n : option Z) : string :=
  match n with
  | Some z => str_int z
  | None => "None"
  end.

(** [promo_price and promo_price < retail_price] *)
Definition promo_applies (p : OdooClient.product) : bool :=
  match OdooClient.promo_price p with
  | Some promo =>
      negb (Qeq_bool promo 0) && Qlt_bool promo (OdooClient.retail_price p)
  | None => false
  end.

(** The [failed_operations] list of [sync_product]. *)
Definition failed_operations (stock_result price_result special_price_result
  : bool) : list string :=
  ((if negb stock_result then ["stock update"] else []) ++
   (if negb price_result then ["price update"] else []) ++
   (if negb special_price_result then ["special price update"] else []))%list.

(** The trace of a run that reaches the updates: both fetches, the stock
    update, the price update and, last, the special-price update if it
    is called. *)
Definition update_trace (sku : string) (p : OdooClient.product) (m : option dict)
  (b1 b2 : bool) (special : list event) : list event :=
  ([Event (odoo_get_product_by_sku sku) (Ok (Some p));
   Event (magento_get_product_by_sku sku) (Ok m);
   Event (magento_update_product_stock sku (OdooClient.quantity p)) (Ok b1);
   Event (magento_update_product_price sku (OdooClient.retail_price p))
     (Ok b2)] ++ special)%list.

(** The skus (identifiers) of the listed products (orders) that have
    one, in listing order. *)
Definition listed_skus (l : list OdooClient.product) : list string :=
  flat_map (fun p => match OdooClient.sku p with
                     | Some sku => if String.eqb sku "" then [] else [sku]
                     | None => []
                     end) l.

Definition listed_order_ids (l : list dict) : list value :=
  flat_map (fun o => let order_id := dict_get o "entity_id" (JStr "") in
                     if truthy order_id then [order_id] else []) l.

(** The customer records handed to the ERP client. *)
Definition customers_sent (t : list event) : list dict :=
  flat_map (fun e => match e with
                     | Event (odoo_create_sale_order customer_data _ _) _ =>
                         [customer_data]
                     | _ => []
                     end) t.

(** The listed products (orders) a batch skips: those without a sku
    (an identifier). *)
Definition skipped_products (l : list OdooClient.product) : nat :=
  length (filter (fun p => negb (truthy_sku (OdooClient.sku p))) l).

Definition skipped_orders (l : list dict) : nat :=
  length (filter (fun o => negb (truthy (dict_get o "entity_id" (JStr "")))) l).

(** The closing [if stock_result and price_result and
    special_price_result: ... else: ...] of [sync_product]. *)
Definition update_report (sku : string) (stock_result price_result
  special_price_result : bool) : product_result :=
  if stock_result && price_result && special_price_result
  then {| success := true;
          message := "Product " ++ sku ++ " synchronized successfully";
          sku := sku |}
  else {| success := false;
          message := "Product " ++ sku ++ " synchronization failed for: "
                       ++ String.concat ", "
                            (failed_operations stock_result price_result
                               special_price_result);
          sku := sku |}.

(** The condition of the special-price update as the specification
    words it: the promotional price is set and strictly below the retail
    price. *)
Definition promo_set_and_below (p : OdooClient.product) : bool :=
  match OdooClient.promo_price p with
  | Some promo => Qlt_bool promo (OdooClient.retail_price p)
  | None => false
  end.

Section Synchronizers.

Variable St : Type.
Variable handle : forall X, call X -> St -> outcome X * St.

(** [str(v)], used where a value is interpolated into an f-string. *)
Variable py_str : value -> string.

Definition Ms : Type -> Type := M St event.

Definition perform {X} (c : call X) : Ms X :=
  fun s =>
    let '(r, s') := handle X c s in
    (r, s', [Event c r]).

Definition time_sleep (seconds : Q) : Ms unit :=
  fun s => (Ok tt, s, [Sleep seconds]).

(** [ProductSynchronizer.sync_product] *)
Definition sync_product (sku : string) : Ms product_result :=
  try_except
    (odoo_product <- perform (odoo_get_product_by_sku sku) ;;
     match odoo_product with
     | None =>
         ret {| success := false;
                message := "Product with SKU " ++ sku ++ " not found in Odoo";
                sku := sku |}
     | Some odoo_product =>
         magento_product <- perform (magento_get_product_by_sku sku) ;;
         if negb (truthy_dict magento_product)
         then
           ret {| success := false;
                  message := "Product with SKU " ++ sku
                               ++ " not found in Magento";
                  sku := sku |}
         else
           stock_result <- perform (magento_update_product_stock sku
                                      (OdooClient.quantity odoo_product)) ;;
           price_result <- perform (magento_update_product_price sku
                                      (OdooClient.retail_price odoo_product)) ;;
           special_price_result <-
             (if promo_applies odoo_product
              then
                match OdooClient.promo_price odoo_product with
                | Some promo =>
                    perform (magento_update_product_special_price sku promo)
                | None => ret true
                end
              else ret true) ;;
           ret (update_report sku stock_result price_result
                  special_price_result)
     end)
    any_exception
    (fun e =>
       ret {| success := false;
              message := "Error synchronizing product " ++ sku ++ ": "
                           ++ exn_str e;
              sku := sku |}).

(** The [for product in odoo_products] loop of [sync_all_products],
    threading the [results] dictionary. *)
Fixpoint sync_products_loop (odoo_products : list OdooClient.product)
  (results : product_counts) : Ms product_counts :=
  match odoo_products with
  | [] => ret results
  | product :: rest =>
      match OdooClient.sku product with
      | Some sku =>
          if String.eqb sku ""
          then
            sync_products_loop rest
              {| total := total results;
                 successful := successful results;
                 failed := failed results + 1;
                 failed_skus := failed_skus results |}
          else
            result <- sync_product sku ;;
            let results :=
              if success result
              then {| total := total results;
                      successful := successful results + 1;
                      failed := failed results;
                      failed_skus := failed_skus results |}
              else {| total := total results;
                      successful := successful results;
                      failed := failed results + 1;
                      failed_skus := (failed_skus results ++ [sku])%list |} in
            time_sleep 0.5 ;;;
            sync_products_loop rest results
      | None =>
          sync_products_loop rest
            {| total := total results;
               successful := successful results;
               failed := failed results + 1;
               failed_skus := failed_skus results |}
      end
  end.

(** [ProductSynchronizer.sync_all_products] *)
Definition sync_all_products : Ms all_products_result :=
  try_except
    (odoo_products <- perform odoo_get_all_products ;;
     let results := {| total := length odoo_products;
                       successful := 0;
                       failed := 0;
                       failed_skus := [] |} in
     results <- sync_products_loop odoo_products results ;;
     ret {| all_success := true;
            all_message := "Synchronized " ++ str_nat (successful results)
                             ++ " products successfully, "
                             ++ str_nat (failed results) ++ " failed";
            all_results := Some results |})
    any_exception
    (fun e =>
       ret {| all_success := false;
              all_message := "Error synchronizing all products: "
                               ++ exn_str e;
              all_results := None |}).

(** The [street] entry of [customer_data]:
    [b.get("street", [""])[0] if isinstance(b.get("street", []), list)
     else b.get("street", "")] *)
Definition street_of (billing_address : value) : outcome value :=
  obind (py_get billing_address "street" (JArr [])) (fun s =>
  if is_list s
  then obind (py_get billing_address "street" (JArr [JStr ""])) py_item0
  else py_get billing_address "street" (JStr "")).

(** The [customer_data] dictionary of [sync_order]. *)
Definition customer_data_of (magento_order : dict) (billing_address : value)
  : outcome dict :=
  obind (py_get billing_address "firstname" (JStr "")) (fun firstname =>
  obind (py_get billing_address "lastname" (JStr "")) (fun lastname =>
  obind (py_get billing_address "telephone" (JStr "")) (fun telephone =>
  obind (street_of billing_address) (fun street =>
  obind (py_get billing_address "city" (JStr "")) (fun city =>
  obind (py_get billing_address "postcode" (JStr "")) (fun postcode =>
  obind (py_get billing_address "country_id" (JStr "")) (fun country_id =>
  Ok [("name", JStr (strip (py_str firstname ++ " " ++ py_str lastname)));
      ("email", dict_get magento_order "customer_email" (JStr ""));
      ("phone", telephone);
      ("street", street);
      ("city", city);
      ("zip", postcode);
      ("country_code", country_id)]))))))).

(** The [for item in magento_order.get("items", [])] loop. *)
Fixpoint order_lines_loop (items : list value) (order_lines : list dict)
  : outcome (list dict) :=
  match items with
  | [] => Ok order_lines
  | item :: rest =>
      obind (py_get item "sku" (JStr "")) (fun sku =>
      obind (py_get item "qty_ordered" (JInt 1)) (fun qty =>
      obind (py_get item "price" (JInt 0)) (fun price =>
      order_lines_loop rest
        (order_lines ++ [[("sku", sku);
                          ("quantity", qty);
                          ("price_unit", price)]])%list)))
  end.

Definition order_lines_of (magento_order : dict) : outcome (list dict) :=
  obind (py_iter (dict_get magento_order "items" (JArr []))) (fun items =>
  order_lines_loop items []).

(** [OrderSynchronizer.sync_order] *)
Definition sync_order (magento_order_id : value) : Ms order_result :=
  try_except
    (magento_order <- perform (magento_get_order_by_id magento_order_id) ;;
     match magento_order with
     | Some ((_ :: _) as magento_order) =>
         let billing_address :=
           dict_get magento_order "billing_address" (JObj []) in
         customer_data <- lift (customer_data_of magento_order
                                  billing_address) ;;
         order_lines <- lift (order_lines_of magento_order) ;;
         odoo_order_id <- perform (odoo_create_sale_order customer_data
                                     order_lines magento_order_id) ;;
         if truthy_id odoo_order_id
         then
           ret {| order_success := true;
                  order_message :=
                    "Order " ++ py_str magento_order_id
                      ++ " synchronized successfully to Odoo order "
                      ++ str_id odoo_order_id;
                  orders_synced := [magento_order_id] |}
         else
           ret {| order_success := false;
                  order_message :=
                    "Failed to create Odoo order for Magento order "
                      ++ py_str magento_order_id;
                  orders_synced := [] |}
     | _ =>
         ret {| order_success := false;
                order_message := "Order with ID " ++ py_str magento_order_id
                                   ++ " not found in Magento";
                orders_synced := [] |}
     end)
    any_exception
    (fun e =>
       ret {| order_success := false;
              order_message := "Error synchronizing order "
                                 ++ py_str magento_order_id ++ ": "
                                 ++ exn_str e;
              orders_synced := [] |}).

(** The [for order in new_orders] loop of [sync_new_orders]. *)
Fixpoint sync_orders_loop (new_orders : list dict) (results : order_counts)
  : Ms order_counts :=
  match new_orders with
  | [] => ret results
  | order :: rest =>
      let order_id := dict_get order "entity_id" (JStr "") in
      if negb (truthy order_id)
      then
        sync_orders_loop rest
          {| o_total := o_total results;
             o_successful := o_successful results;
             o_failed := o_failed results + 1;
             failed_orders := failed_orders results;
             synced_orders := synced_orders results |}
      else
        result <- sync_order order_id ;;
        let results :=
          if order_success result
          then {| o_total := o_total results;
                  o_successful := o_successful results + 1;
                  o_failed := o_failed results;
                  failed_orders := failed_orders results;
                  synced_orders := (synced_orders results ++ [order_id])%list |}
          else {| o_total := o_total results;
                  o_successful := o_successful results;
                  o_failed := o_failed results + 1;
                  failed_orders := (failed_orders results ++ [order_id])%list;
                  synced_orders := synced_orders results |} in
        time_sleep 0.5 ;;;
        sync_orders_loop rest results
  end.

(** [OrderSynchronizer.sync_new_orders] *)
Definition sync_new_orders : Ms new_orders_result :=
  try_except
    (new_orders <- perform magento_get_new_orders ;;
     let results := {| o_total := length new_orders;
                       o_successful := 0;
                       o_failed := 0;
                       failed_orders := [];
                       synced_orders := [] |} in
     results <- sync_orders_loop new_orders results ;;
     ret {| new_success := true;
            new_message := "Synchronized " ++ str_nat (o_successful results)
                             ++ " orders successfully, "
                             ++ str_nat (o_failed results) ++ " failed";
            new_orders_synced := synced_orders results;
            new_results := Some results |})
    any_exception
    (fun e =>
       ret {| new_success := false;
              new_message := "Error synchronizing new orders: "
                               ++ exn_str e;
              new_orders_synced := [];
              new_results := None |}).

End Synchronizers.

(** The exception the last call of a trace raised, if it raised. *)
Definition raised_last (t : list event) : option exn :=
  match last t (Sleep 0) with
  | Event _ (Raise e) => Some e
  | _ => None
  end.

(** What [create_sale_order] answered, for the calls that returned. *)
Definition sale_orders_returned (t : list event) : list (option Z) :=
  flat_map (fun e => match e with
                     | Event (odoo_create_sale_order _ _ _) (Ok o) => [o]
                     | _ => []
                     end) t.

(** The order lines and the external identifiers handed to the ERP
    client. *)
Definition lines_sent (t : list event) : list (list dict * value) :=
  flat_map (fun e => match e with
                     | Event (odoo_create_sale_order _ lines ext) _ =>
                         [(lines, ext)]
                     | _ => []
                     end) t.

(** The order line [sync_order] builds from an item of the order. *)
Definition line_of_item (item : dict) : dict :=
  [("sku", dict_get item "sku" (JStr ""));
   ("quantity", dict_get item "qty_ordered" (JInt 1));
   ("price_unit", dict_get item "price" (JInt 0))].

(** The pauses of a trace, in seconds. *)
Definition sleeps (t : list event) : list Q :=
  flat_map (fun e => match e with
                     | Sleep seconds => [seconds]
                     | _ => []
                     end) t.

End Sync.

(* ===================================================================== *)
(** * app/main.py *)
(* ===================================================================== *)

(** The route functions and the dependencies that build the clients.
    What FastAPI does around them (request parsing, response models,
    background tasks) is not modelled. *)
Module App.
Import Py Eff.

(** How a route function or a dependency ends: it returns a value,
    raises an [HTTPException], or lets another exception through. *)
Inductive reply (A : Type) : Type :=
| Returned (a : A)
| HTTPException (status_code : Z) (detail : string)
| Unhandled (e : exn).
Arguments Returned {A} a.
Arguments HTTPException {A} status_code detail.
Arguments Unhandled {A} e.

(** The dictionary [health_check] returns. *)
Record health : Type := {
  status : string;
  odoo_connected : bool;
  magento_connected : bool
}.

(** What the route [sync_order] returns: the result of [sync_order] or
    that of [sync_new_orders]. *)
Inductive order_sync : Type :=
| Single (result : Sync.order_result)
| Batch (result : Sync.new_orders_result).

Section OdooDependency.

Variable World : Type.
Variable handle : forall X, OdooClient.call X -> World -> outcome X * World.

(** [get_odoo_client], for the configured host, port, database and
    credentials. *)
Definition get_odoo_client (ODOO_HOST : string) (ODOO_PORT : Z)
  (ODOO_DB ODOO_USER ODOO_PASSWORD : string) (w : World)
  : reply OdooClient.client * World * list OdooClient.event :=
  let client := OdooClient.init ODOO_HOST ODOO_PORT ODOO_DB ODOO_USER
                  ODOO_PASSWORD in
  match OdooClient.connect World handle (client, w) with
  | (Ok ok, (client, w'), t) =>
      if negb ok
      then (HTTPException 500 "Failed to connect to Odoo", w', t)
      else (Returned client, w', t)
  | (Raise e, (_, w'), t) => (Unhandled e, w', t)
  end.

End OdooDependency.

Section MagentoDependency.

Variable World : Type.
Variable handle : forall X, MagentoClient.call X -> World -> outcome X * World.

(** [get_magento_client], for the configured url and credentials. *)
Definition get_magento_client (MAGENTO_URL MAGENTO_USER MAGENTO_PASSWORD
  : string) (w : World)
  : reply MagentoClient.client * World * list MagentoClient.event :=
  let client := MagentoClient.init MAGENTO_URL MAGENTO_USER
                  MAGENTO_PASSWORD in
  match MagentoClient._get_token World handle (client, w) with
  | (Ok tok, (client, w'), t) =>
      if negb (truthy tok)
      then (HTTPException 500 "Failed to authenticate with Magento", w', t)
      else (Returned client, w', t)
  | (Raise e, (_, w'), t) => (Unhandled e, w', t)
  end.

(** The route [health_check], given the two clients. *)
Definition health_check (odoo_client : OdooClient.client)
  : M (MagentoClient.client * World) MagentoClient.event health :=
  (let odoo_connected := OdooClient.connected odoo_client in
   tok <- MagentoClient._get_token World handle ;;
   let magento_connected := MagentoClient.is_not_none tok in
   let status := if odoo_connected && magento_connected
                 then "healthy" else "unhealthy" in
   ret {| status := status;
          odoo_connected := odoo_connected;
          magento_connected := magento_connected |})%eff.

End MagentoDependency.

Section Routes.

Variable St : Type.
Variable handle : forall X, Sync.call X -> St -> outcome X * St.
Variable py_str : value -> string.

(** The route [sync_product], for a request with that sku. *)
Definition sync_product (sku : string) (s : St)
  : reply Sync.product_result * St * list Sync.event :=
  match Sync.sync_product St handle sku s with
  | (Ok result, s', t) =>
      if negb (Sync.success result)
      then (HTTPException 400 (Sync.message result), s', t)
      else (Returned result, s', t)
  | (Raise e, s', t) => (Unhandled e, s', t)
  end.

(** The route [sync_order], for a request with that [order_id] (a string
    or [None]) and that [sync_all_new] flag. *)
Definition sync_order (order_id : option string) (sync_all_new : bool)
  (s : St) : reply order_sync * St * list Sync.event :=
  match order_id with
  | Some (String _ _ as id) =>
      match Sync.sync_order St handle py_str (JStr id) s with
      | (Ok result, s', t) =>
          if negb (Sync.order_success result)
          then (HTTPException 400 (Sync.order_message result), s', t)
          else (Returned (Single result), s', t)
      | (Raise e, s', t) => (Unhandled e, s', t)
      end
  | _ =>
      if sync_all_new
      then
        match Sync.sync_new_orders St handle py_str s with
        | (Ok result, s', t) => (Returned (Batch result), s', t)
        | (Raise e, s', t) => (Unhandled e, s', t)
        end
      else
        (HTTPException 400 "Either order_id or sync_all_new must be provided",
         s, [])
  end.

End Routes.

End App.

(* ===================================================================== *)
(** * Concrete systems used to exercise the model *)
(* ===================================================================== *)

Module Scenario.
Import Py.

(** A small pair of systems behind the two clients: an ERP catalogue, the
    skus the storefront knows, what the three storefront updates answer,
    and the storefront's orders by identifier. *)
Record shop : Type := {
  erp : list OdooClient.product;
  erp_down : bool;
  storefront : list string;
  stock_ok : bool;
  price_ok : bool;
  special_ok : bool;
  orders : list (Z * dict)
}.

Definition find_product (sku : string) (l : list OdooClient.product)
  : option OdooClient.product :=
  find (fun p => match OdooClient.sku p with
                 | Some s => String.eqb s sku
                 | None => false
                 end) l.

Definition find_order (order_id : value) (l : list (Z * dict)) : option dict :=
  match order_id with
  | JInt z => option_map snd (find (fun o => (fst o =? z)%Z) l)
  | _ => None
  end.

Definition shop_handle (X : Type) (c : Sync.call X) : shop -> outcome X * shop :=
  match c in Sync.call X return shop -> outcome X * shop with
  | Sync.odoo_get_product_by_sku sku =>
      fun s => (Ok (find_product sku (erp s)), s)
  | Sync.odoo_get_all_products =>
      fun s => if erp_down s
               then (Raise (OtherException "connection refused"), s)
               else (Ok (erp s), s)
  | Sync.odoo_create_sale_order _ lines _ =>
      fun s => (Ok (match lines with [] => None | _ => Some 7%Z end), s)
  | Sync.magento_get_product_by_sku sku =>
      fun s => (Ok (if existsb (String.eqb sku) (storefront s)
                    then Some [("sku", JStr sku)] else None), s)
  | Sync.magento_update_product_stock _ _ => fun s => (Ok (stock_ok s), s)
  | Sync.magento_update_product_price _ _ => fun s => (Ok (price_ok s), s)
  | Sync.magento_update_product_special_price _ _ =>
      fun s => (Ok (special_ok s), s)
  | Sync.magento_get_order_by_id order_id =>
      fun s => (Ok (find_order order_id (orders s)), s)
  | Sync.magento_get_new_orders =>
      fun s => (Ok (map snd (orders s)), s)
  end.

(** [str(v)] on the values the scenarios print. *)
Definition show (v : value) : string :=
  match v with
  | JStr s => s
  | JInt z => str_int z
  | JNull => "None"
  | JBool true => "True"
  | JBool false => "False"
  | _ => "?"
  end.

Definition widget (promo : option Q) : OdooClient.product :=
  {| OdooClient.id := 1;
     OdooClient.name := "Widget";
     OdooClient.sku := Some "W-1";
     OdooClient.retail_price := 10;
     OdooClient.promo_price := promo;
     OdooClient.quantity := 5;
     OdooClient.type := "product" |}.

Definition unlabelled : OdooClient.product :=
  {| OdooClient.id := 2;
     OdooClient.name := "Unlabelled";
     OdooClient.sku := None;
     OdooClient.retail_price := 3;
     OdooClient.promo_price := None;
     OdooClient.quantity := 0;
     OdooClient.type := "product" |}.

Definition gadget : OdooClient.product :=
  {| OdooClient.id := 3;
     OdooClient.name := "Gadget";
     OdooClient.sku := Some "G-9";
     OdooClient.retail_price := 4;
     OdooClient.promo_price := None;
     OdooClient.quantity := 1;
     OdooClient.type := "product" |}.

Definition order_AB : dict :=
  [("entity_id", JInt 11);
   ("customer_email", JStr "a@b.example");
   ("billing_address",
    JObj [("firstname", JStr "A"); ("lastname", JStr "B");
          ("street", JArr [JStr "1 Main St"]); ("city", JStr "Cairo");
          ("postcode", JStr "11511"); ("country_id", JStr "eg")]);
   ("items", JArr [JObj [("sku", JStr "W-1"); ("qty_ordered", JInt 2);
                         ("price", JFloat 10)]])].

Definition order_anonymous : dict :=
  [("customer_email", JStr "x@y.example"); ("items", JArr [])].

Definition shop_of (products : list OdooClient.product)
  (known : list string) (stock price special : bool) : shop :=
  {| erp := products; erp_down := false; storefront := known;
     stock_ok := stock; price_ok := price; special_ok := special;
     orders := [(11%Z, order_AB); (0%Z, order_anonymous)] |}.

(** A storefront behind [requests]: a clock that advances one second per
    reading, a token endpoint that answers [token_body], and the two
    pages the order queries return. *)
Record site : Type := {
  now : Q;
  token_body : MagentoClient.body;
  pending_page : value;
  processing_page : value
}.

Definition status_filter : string :=
  "searchCriteria[filterGroups][0][filters][0][value]".

Definition site_handle (X : Type) (c : MagentoClient.call X)
  : site -> outcome X * site :=
  match c in MagentoClient.call X return site -> outcome X * site with
  | MagentoClient.time_time =>
      fun w => (Ok (now w),
                {| now := (now w + 1)%Q; token_body := token_body w;
                   pending_page := pending_page w;
                   processing_page := processing_page w |})
  | MagentoClient.requests_post _ _ _ =>
      fun w => (Ok {| MagentoClient.status_code := 200;
                      MagentoClient.content := token_body w |}, w)
  | MagentoClient.requests_request _ _ _ params _ =>
      fun w =>
        let page :=
          match params with
          | Some d =>
              match lookup status_filter d with
              | Some (JStr "pending") => Some (pending_page w)
              | Some (JStr "processing") => Some (processing_page w)
              | _ => None
              end
          | None => None
          end in
        match page with
        | Some pg => (Ok {| MagentoClient.status_code := 200;
                            MagentoClient.content := MagentoClient.Json pg |},
                      w)
        | None => (Ok {| MagentoClient.status_code := 404;
                         MagentoClient.content := MagentoClient.Empty |}, w)
        end
  end.

Definition order_number (n : Z) : value := JObj [("entity_id", JInt n)].

Definition site_at (t : Q) : site :=
  {| now := t;
     token_body := MagentoClient.Json (JStr "t0k3n");
     pending_page :=
       JObj [("items", JArr [order_number 1; order_number 2]);
             ("total_count", JInt 2)];
     processing_page :=
       JObj [("items", JArr [order_number 2; order_number 3]);
             ("total_count", JInt 2)] |}.

Definition magento : MagentoClient.client :=
  MagentoClient.init "https://shop.example/" "admin" "admin123".

(** An ERP behind [odoorpc]: a fixed product catalogue, and the partners
    and sale orders created so far. *)
Record erp_db : Type := {
  partners : list (Z * dict);
  sale_orders : list (Z * dict);
  next_id : Z
}.

Definition has_email (email : string) (p : Z * dict) : bool :=
  match lookup "email" (snd p) with
  | Some (JStr e) => String.eqb e email
  | _ => false
  end.

Definition erp_search (catalogue : list (string * Z)) (model : string)
  (d : OdooClient.domain) (w : erp_db) : list Z :=
  match d with
  | [(_, _, JStr key)] =>
      if String.eqb model "res.partner"
      then map fst (filter (has_email key) (partners w))
      else if String.eqb model "product.product"
      then map snd (filter (fun e => String.eqb (fst e) key) catalogue)
      else []
  | _ => []
  end.

Definition erp_handle (catalogue : list (string * Z)) (X : Type)
  (c : OdooClient.call X) : erp_db -> outcome X * erp_db :=
  match c in OdooClient.call X return erp_db -> outcome X * erp_db with
  | OdooClient.ODOO _ _ => fun w => (Ok tt, w)
  | OdooClient.login _ _ _ => fun w => (Ok tt, w)
  | OdooClient.search model d =>
      fun w => (Ok (erp_search catalogue model d w), w)
  | OdooClient.browse _ _ =>
      fun w => (Raise (OtherException "no such record"), w)
  | OdooClient.browse_ids _ _ => fun w => (Ok [], w)
  | OdooClient.create model vals =>
      fun w =>
        if String.eqb model "res.partner"
        then (Ok (next_id w),
              {| partners := (partners w ++ [(next_id w, vals)])%list;
                 sale_orders := sale_orders w;
                 next_id := (next_id w + 1)%Z |})
        else (Ok (next_id w),
              {| partners := partners w;
                 sale_orders := (sale_orders w ++ [(next_id w, vals)])%list;
                 next_id := (next_id w + 1)%Z |})
  end.

Definition catalogue : list (string * Z) := [("W-1", 1%Z)].

Definition empty_erp : erp_db :=
  {| partners := []; sale_orders := []; next_id := 50 |}.

Definition odoo_client : OdooClient.client :=
  OdooClient.init "localhost" 8069 "odoo" "admin" "admin".

Definition customer_AB : dict :=
  [("name", JStr "A B"); ("email", JStr "a@b.example");
   ("phone", JStr ""); ("street", JStr "1 Main St"); ("city", JStr "Cairo");
   ("zip", JStr "11511"); ("country_code", JStr "eg")].

Definition unknown_lines : list dict :=
  [[("sku", JStr "Z-404"); ("quantity", JInt 1); ("price_unit", JInt 5)];
   [("sku", JStr "Y-404"); ("quantity", JInt 2); ("price_unit", JInt 6)]].

(** [s.upper()] on the strings the scenarios use: ASCII letters. *)
Fixpoint upper_ascii (s : string) : string :=
  match s with
  | EmptyString => EmptyString
  | String ch s' =>
      let n := nat_of_ascii ch in
      String (if ((97 <=? n) && (n <=? 122))%nat
              then ascii_of_nat (n - 32) else ch)
             (upper_ascii s')
  end.

(** Two more storefronts, whose state is the clock alone.  The first
    issues a token and acknowledges every request with an empty body;
    the second answers the token endpoint with 503. *)
Definition ack_handle (X : Type) (c : MagentoClient.call X)
  : Q -> outcome X * Q :=
  match c in MagentoClient.call X return Q -> outcome X * Q with
  | MagentoClient.time_time => fun w => (Ok w, (w + 1)%Q)
  | MagentoClient.requests_post _ _ _ =>
      fun w => (Ok {| MagentoClient.status_code := 200;
                      MagentoClient.content :=
                        MagentoClient.Json (JStr "t0k3n") |}, w)
  | MagentoClient.requests_request _ _ _ _ _ =>
      fun w => (Ok {| MagentoClient.status_code := 200;
                      MagentoClient.content := MagentoClient.Empty |}, w)
  end.

Definition down_handle (X : Type) (c : MagentoClient.call X)
  : Q -> outcome X * Q :=
  match c in MagentoClient.call X return Q -> outcome X * Q with
  | MagentoClient.time_time => fun w => (Ok w, (w + 1)%Q)
  | MagentoClient.requests_post _ _ _ =>
      fun w => (Ok {| MagentoClient.status_code := 503;
                      MagentoClient.content := MagentoClient.Empty |}, w)
  | MagentoClient.requests_request _ _ _ _ _ =>
      fun w => (Raise (RequestException "ConnectionError"), w)
  end.

(** A client holding a token that expires at time 3600. *)
Definition magento_with_token : MagentoClient.client :=
  MagentoClient.with_token_expiry
    (MagentoClient.with_token magento (JStr "t0k3n")) 3600%Q.

(** An ERP that cannot be reached. *)
Definition offline_handle (X : Type) (c : OdooClient.call X)
  : unit -> outcome X * unit :=
  fun w => (Raise (OtherException "connection refused"), w).

(** The client once connected; an ERP that knows the customer. *)
Definition odoo_connected_client : OdooClient.client :=
  OdooClient.with_connected (OdooClient.with_odoo odoo_client true) true.

Definition erp_with_partner : erp_db :=
  {| partners := [(7%Z, [("name", JStr "A B");
                         ("email", JStr "a@b.example")])];
     sale_orders := [];
     next_id := 50 |}.

Definition mixed_lines : list dict :=
  [[("sku", JStr "Z-404"); ("quantity", JInt 1); ("price_unit", JInt 5)];
   [("sku", JStr "W-1"); ("price_unit", JInt 6)]].

(** What the catalogue answers to the search of a line. *)
Definition catalogue_found (line : dict) : list Z :=
  erp_search catalogue "product.product"
    [("default_code", "=", dict_get line "sku" JNull)] empty_erp.

(** An order whose billing address has an empty street list, in a shop
    of its own. *)
Definition order_no_street : dict :=
  [("entity_id", JInt 12);
   ("billing_address",
    JObj [("firstname", JStr "A"); ("lastname", JStr "B");
          ("street", JArr [])]);
   ("items", JArr [])].

Definition shop_no_street : shop :=
  {| erp := []; erp_down := false; storefront := [];
     stock_ok := true; price_ok := true; special_ok := true;
     orders := [(12%Z, order_no_street)] |}.

(** The client [get_magento_client] hands over at time 0. *)
Definition magento_with_token_at_0 : MagentoClient.client :=
  MagentoClient.with_token_expiry
    (MagentoClient.with_token magento (JStr "t0k3n")) (0 + 3600)%Q.

End Scenario.

(* ===================================================================== *)
(** * Facts about the Python values *)
(* ===================================================================== *)

Section PyFacts.
Import Py.

Lemma Qlt_bool_iff (a b : Q) : Qlt_bool a b = true <-> (a < b)%Q.
Proof.
  unfold Qlt_bool. rewrite negb_true_iff. split.
  - intros H. apply Qnot_le_lt. intros Hle.
    apply Qle_bool_iff in Hle. congruence.
  - intros H. destruct (Qle_bool b a) eqn:E; [|reflexivity].
    apply Qle_bool_iff in E. exfalso. exact (Qlt_not_le _ _ H E).
Qed.

Lemma Qlt_bool_false_iff (a b : Q) : Qlt_bool a b = false <-> (b <= a)%Q.
Proof.
  unfold Qlt_bool. rewrite negb_false_iff. apply Qle_bool_iff.
Qed.

Lemma rstrip_by_app_clean (p : ascii -> bool) (s : string) (c : ascii) :
  p c = false ->
  rstrip_by p (s ++ String c EmptyString) = s ++ String c EmptyString.
Proof.
  intros Hc. induction s as [|a s IH]; simpl.
  - rewrite Hc. reflexivity.
  - rewrite IH. destruct s; reflexivity.
Qed.

(** A string that ends in a non-space character is unchanged by
    [rstrip]; one that starts with a non-space character by [lstrip]. *)
Lemma clean_right_last (s : string) :
  s <> EmptyString -> clean_right s = true ->
  exists s' c, s = s' ++ String c EmptyString /\ is_space c = false.
Proof.
  induction s as [|a s IH]; intros Hne Hc; [congruence|].
  destruct s as [|b s].
  - exists EmptyString, a. simpl in *. split; [reflexivity|].
    now apply negb_true_iff.
  - destruct IH as (s' & c & Hs & Hsp); [discriminate|exact Hc|].
    exists (String a s'), c. simpl. rewrite <- Hs. split; [reflexivity|exact Hsp].
Qed.

Lemma rstrip_clean (s : string) :
  s <> EmptyString -> clean_right s = true -> rstrip_by is_space s = s.
Proof.
  intros Hne Hc. destruct (clean_right_last s Hne Hc) as (s' & c & -> & Hsp).
  now apply rstrip_by_app_clean.
Qed.

Lemma lstrip_clean (s : string) :
  clean_left s = true -> lstrip_by is_space s = s.
Proof.
  destruct s as [|c s]; simpl; [reflexivity|].
  intros H. apply negb_true_iff in H. now rewrite H.
Qed.

Lemma string_app_assoc (a b c : string) : (a ++ b) ++ c = a ++ (b ++ c).
Proof. induction a; simpl; congruence. Qed.

Lemma clean_right_app (a b : string) :
  b <> EmptyString -> clean_right b = true -> clean_right (a ++ b) = true.
Proof.
  intros Hne Hb. induction a as [|c a IH]; simpl; [exact Hb|].
  destruct (a ++ b) eqn:E; [|exact IH].
  destruct a; simpl in E; [congruence|discriminate].
Qed.

(** [strip] leaves "first last" alone when neither end carries white
    space. *)
Lemma strip_joined (a b : string) :
  a <> EmptyString -> b <> EmptyString ->
  clean_left a = true -> clean_right b = true ->
  strip (a ++ " " ++ b) = a ++ " " ++ b.
Proof.
  intros Ha Hb Hl Hr. unfold strip.
  rewrite rstrip_clean.
  - apply lstrip_clean. destruct a; [congruence|exact Hl].
  - destruct a; discriminate.
  - apply clean_right_app; [discriminate|].
    simpl. destruct b; [congruence|exact Hr].
Qed.

(** With an empty first name the separating space is stripped. *)
Lemma strip_empty_first (b : string) :
  strip ("" ++ " " ++ b) = strip b.
Proof.
  unfold strip. simpl.
  destruct (rstrip_by is_space b) eqn:E; reflexivity.
Qed.

Lemma rstrip_by_app_space (p : ascii -> bool) (s : string) (c : ascii) :
  p c = true ->
  rstrip_by p (s ++ String c EmptyString) = rstrip_by p s.
Proof.
  intros Hc. induction s as [|a s IH]; simpl.
  - now rewrite Hc.
  - now rewrite IH.
Qed.

(** With an empty last name the separating space is stripped. *)
Lemma strip_empty_last (a : string) :
  strip (a ++ " " ++ "") = strip a.
Proof.
  change (a ++ " " ++ "") with (a ++ String " " EmptyString).
  unfold strip. now rewrite (rstrip_by_app_space is_space a " ").
Qed.

Lemma strip_clean (s : string) :
  clean_left s = true -> clean_right s = true -> strip s = s.
Proof.
  intros Hl Hr. destruct s as [|c s]; [reflexivity|].
  unfold strip. rewrite rstrip_clean; [|discriminate|exact Hr].
  now apply lstrip_clean.
Qed.

End PyFacts.

(* ===================================================================== *)
(** * ProductSynchronizer.sync_product *)
(* ===================================================================== *)

(** Unfolding a synchronizer down to the handler's answers. *)
Ltac run_sync :=
  unfold Sync.sync_product, Eff.try_except, Eff.bind, Sync.perform, Eff.ret,
    Eff.any_exception.

Ltac run_order :=
  unfold Sync.sync_order, Eff.try_except, Eff.bind, Sync.perform, Eff.ret,
    Eff.lift, Eff.any_exception.

Section SyncProductFacts.
Import Py Eff Sync.

Variable St : Type.
Variable handle : forall X, call X -> St -> outcome X * St.

Local Abbreviation sync_product := (Sync.sync_product St handle).

(** [sync_product] guards its whole body: it returns a result whatever
    the clients do. *)
Lemma sync_product_returns (sku : string) (s : St) :
  exists r s' t, sync_product sku s = (Ok r, s', t).
Proof.
  run_sync.
  destruct (handle _ (odoo_get_product_by_sku sku) s) as [[[p|]|e] s1];
    [| eauto | eauto].
  destruct (handle _ (magento_get_product_by_sku sku) s1) as [[m|e] s2];
    [| eauto].
  destruct (truthy_dict m); simpl; [| eauto].
  destruct (handle _ (magento_update_product_stock sku _) s2) as [[b1|e] s3];
    [| eauto].
  destruct (handle _ (magento_update_product_price sku _) s3) as [[b2|e] s4];
    [| eauto].
  destruct (promo_applies p); [| eauto].
  destruct (OdooClient.promo_price p) as [q|]; [| eauto].
  destruct (handle _ (magento_update_product_special_price sku q) s4)
    as [[b3|e] s5]; eauto.
Qed.

(** Every run of [sync_product] fetches its sku from the ERP client,
    once. *)
Lemma sync_product_fetches_sku (sku : string) (s : St) :
  fetched_skus (snd (sync_product sku s)) = [sku].
Proof.
  run_sync.
  destruct (handle _ (odoo_get_product_by_sku sku) s) as [[[p|]|e] s1];
    [| reflexivity | reflexivity].
  destruct (handle _ (magento_get_product_by_sku sku) s1) as [[m|e] s2];
    [| reflexivity].
  destruct (truthy_dict m); simpl; [| reflexivity].
  destruct (handle _ (magento_update_product_stock sku _) s2) as [[b1|e] s3];
    [| reflexivity].
  destruct (handle _ (magento_update_product_price sku _) s3) as [[b2|e] s4];
    [| reflexivity].
  destruct (promo_applies p); [| reflexivity].
  destruct (OdooClient.promo_price p) as [q|]; [| reflexivity].
  destruct (handle _ (magento_update_product_special_price sku q) s4)
    as [[b3|e] s5]; reflexivity.
Qed.

(** C1. [sync_product] checks the two systems in stages.  When the ERP
    client returns no product, the result is the failure "Product with SKU
    ... not found in Odoo" and the only call made is that ERP fetch: no
    method of the storefront client is called.  When the ERP client
    returns a product and the storefront client returns none, the result
    is the failure "... not found in Magento" and no stock, price or
    special-price update is called. *)
Theorem sync_product_staged_lookup (sku : string) (s : St) :
  (forall s1,
     handle _ (odoo_get_product_by_sku sku) s = (Ok None, s1) ->
     let t := [Event (odoo_get_product_by_sku sku) (Ok None)] in
     sync_product sku s =
       (Ok {| success := false;
              message := "Product with SKU " ++ sku ++ " not found in Odoo";
              Sync.sku := sku |}, s1, t)
     /\ filter is_magento_call t = [])
  /\
  (forall p s1 m s2,
     handle _ (odoo_get_product_by_sku sku) s = (Ok (Some p), s1) ->
     handle _ (magento_get_product_by_sku sku) s1 = (Ok m, s2) ->
     truthy_dict m = false ->
     let t := [Event (odoo_get_product_by_sku sku) (Ok (Some p));
               Event (magento_get_product_by_sku sku) (Ok m)] in
     sync_product sku s =
       (Ok {| success := false;
              message := "Product with SKU " ++ sku
                           ++ " not found in Magento";
              Sync.sku := sku |}, s2, t)
     /\ filter is_update_call t = []).
Proof.
  split.
  - intros s1 H t. split; [|reflexivity].
    run_sync. rewrite H. reflexivity.
  - intros p s1 m s2 H1 H2 Hm t. split; [|reflexivity].
    run_sync. rewrite H1, H2, Hm. reflexivity.
Qed.

Lemma failed_operations_exact (b1 b2 b3 : bool) :
  (In "stock update" (failed_operations b1 b2 b3) <-> b1 = false) /\
  (In "price update" (failed_operations b1 b2 b3) <-> b2 = false) /\
  (In "special price update" (failed_operations b1 b2 b3) <-> b3 = false).
Proof.
  destruct b1, b2, b3; simpl; repeat split; intros H;
    try reflexivity; try discriminate; auto;
    repeat (destruct H as [H|H]; try discriminate H); try contradiction.
Qed.

(** C4. For a product found in both systems, [sync_product] calls the
    stock update, then the price update, then (when its condition holds)
    the special-price update, in that order, whatever the earlier updates
    answered; the result is a success exactly when every update called
    answered [True]; otherwise the one message lists exactly the
    operations that answered [False]. *)
Theorem sync_product_updates_in_order (sku : string) (s : St)
  (p : OdooClient.product) (m : option dict) (q : Q) (b1 b2 b3 : bool)
  (s1 s2 s3 s4 s5 : St) :
  handle _ (odoo_get_product_by_sku sku) s = (Ok (Some p), s1) ->
  handle _ (magento_get_product_by_sku sku) s1 = (Ok m, s2) ->
  truthy_dict m = true ->
  handle _ (magento_update_product_stock sku (OdooClient.quantity p)) s2
    = (Ok b1, s3) ->
  handle _ (magento_update_product_price sku (OdooClient.retail_price p)) s3
    = (Ok b2, s4) ->
  (promo_applies p = true ->
     OdooClient.promo_price p = Some q /\
     handle _ (magento_update_product_special_price sku q) s4 = (Ok b3, s5)) ->
  (promo_applies p = false -> b3 = true /\ s5 = s4) ->
  let special :=
    if promo_applies p
    then [Event (magento_update_product_special_price sku q) (Ok b3)]
    else [] in
  let ops := failed_operations b1 b2 b3 in
  sync_product sku s
    = (Ok (update_report sku b1 b2 b3), s5, update_trace sku p m b1 b2 special)
  /\ filter is_update_call (update_trace sku p m b1 b2 special)
     = ([Event (magento_update_product_stock sku (OdooClient.quantity p))
           (Ok b1);
         Event (magento_update_product_price sku (OdooClient.retail_price p))
           (Ok b2)] ++ special)%list
  /\ success (update_report sku b1 b2 b3) = b1 && b2 && b3
  /\ (b1 && b2 && b3 = false ->
      message (update_report sku b1 b2 b3)
        = "Product " ++ sku ++ " synchronization failed for: "
            ++ String.concat ", " ops)
  /\ (In "stock update" ops <-> b1 = false)
  /\ (In "price update" ops <-> b2 = false)
  /\ (In "special price update" ops <-> b3 = false)
  /\ length ops = length (filter negb [b1; b2; b3]).
Proof.
  intros H1 H2 Hm H3 H4 Hyes Hno special ops.
  split; [|split; [|split; [|split; [|split; [|split; [|split]]]]]].
  - run_sync. rewrite H1, H2, Hm. simpl. rewrite H3, H4.
    subst special. destruct (promo_applies p).
    + destruct Hyes as [Hq H5]; [reflexivity|]. rewrite Hq, H5. reflexivity.
    + destruct Hno as [-> ->]; reflexivity.
  - subst special. destruct (promo_applies p); reflexivity.
  - unfold update_report. destruct (b1 && b2 && b3); reflexivity.
  - intros Hf. unfold update_report. rewrite Hf. reflexivity.
  - apply failed_operations_exact.
  - apply failed_operations_exact.
  - apply failed_operations_exact.
  - subst ops. destruct b1, b2, b3; reflexivity.
Qed.

(** C3, as amended.  For a product found in both systems whose stock and
    price updates return, the special-price update is called if and only
    if the promotional price is set, is not zero and is strictly below
    the retail price: it is called for a promotional price of 8 against a
    retail price of 10, and not for 12 against 10.  When it is not called
    the result is a success exactly when the stock and the price updates
    both answered [True]. *)
Theorem special_price_iff_promo_applies (sku : string) (s : St)
  (p : OdooClient.product) (m : option dict) (b1 b2 : bool)
  (s1 s2 s3 s4 : St) :
  handle _ (odoo_get_product_by_sku sku) s = (Ok (Some p), s1) ->
  handle _ (magento_get_product_by_sku sku) s1 = (Ok m, s2) ->
  truthy_dict m = true ->
  handle _ (magento_update_product_stock sku (OdooClient.quantity p)) s2
    = (Ok b1, s3) ->
  handle _ (magento_update_product_price sku (OdooClient.retail_price p)) s3
    = (Ok b2, s4) ->
  (existsb is_special_price_call (snd (sync_product sku s)) = true
   <-> exists promo, OdooClient.promo_price p = Some promo
                     /\ ~ (promo == 0)%Q
                     /\ (promo < OdooClient.retail_price p)%Q)
  /\ (OdooClient.promo_price p = Some 8%Q ->
      OdooClient.retail_price p = 10%Q ->
      existsb is_special_price_call (snd (sync_product sku s)) = true)
  /\ (OdooClient.promo_price p = Some 12%Q ->
      OdooClient.retail_price p = 10%Q ->
      existsb is_special_price_call (snd (sync_product sku s)) = false)
  /\ (existsb is_special_price_call (snd (sync_product sku s)) = false ->
      exists r, fst (fst (sync_product sku s)) = Ok r
                /\ success r = b1 && b2).
Proof.
  intros H1 H2 Hm H3 H4.
  assert (Hcall : existsb is_special_price_call (snd (sync_product sku s))
                  = promo_applies p).
  { run_sync. rewrite H1, H2, Hm. simpl. rewrite H3, H4.
    unfold promo_applies. destruct (OdooClient.promo_price p) as [promo|];
      [|reflexivity].
    destruct (negb (Qeq_bool promo 0) && Qlt_bool promo _); [|reflexivity].
    destruct (handle _ (magento_update_product_special_price sku promo) s4)
      as [[b3|e] s5]; reflexivity. }
  assert (Hiff : promo_applies p = true
                 <-> exists promo, OdooClient.promo_price p = Some promo
                                   /\ ~ (promo == 0)%Q
                                   /\ (promo < OdooClient.retail_price p)%Q).
  { unfold promo_applies. destruct (OdooClient.promo_price p) as [promo|].
    - rewrite andb_true_iff, negb_true_iff, Qlt_bool_iff. split.
      + intros [Hz Hlt]. exists promo. repeat split; [|exact Hlt].
        intros Heq. apply Qeq_bool_iff in Heq. congruence.
      + intros (promo' & Heq & Hz & Hlt). injection Heq as <-.
        split; [|exact Hlt].
        destruct (Qeq_bool promo 0) eqn:E; [|reflexivity].
        apply Qeq_bool_iff in E. contradiction.
    - split; [discriminate|]. intros (promo & Heq & _). discriminate. }
  repeat split.
  - rewrite Hcall. apply Hiff.
  - rewrite Hcall. apply Hiff.
  - intros Hp Hr. rewrite Hcall. unfold promo_applies. rewrite Hp, Hr.
    reflexivity.
  - intros Hp Hr. rewrite Hcall. unfold promo_applies. rewrite Hp, Hr.
    reflexivity.
  - rewrite Hcall. intros Hno.
    exists (update_report sku b1 b2 true). split.
    + run_sync. rewrite H1, H2, Hm. simpl. rewrite H3, H4, Hno. reflexivity.
    + unfold update_report. rewrite andb_true_r.
      destruct (b1 && b2); reflexivity.
Qed.

End SyncProductFacts.

(* ===================================================================== *)
(** * The batch operations *)
(* ===================================================================== *)

Section BatchFacts.
Import Py Eff Sync.

Variable St : Type.
Variable handle : forall X, call X -> St -> outcome X * St.
Variable py_str : value -> string.

Local Abbreviation sync_product := (Sync.sync_product St handle).
Local Abbreviation sync_products_loop := (Sync.sync_products_loop St handle).
Local Abbreviation sync_all_products := (Sync.sync_all_products St handle).
Local Abbreviation sync_order := (Sync.sync_order St handle py_str).
Local Abbreviation sync_orders_loop :=
  (Sync.sync_orders_loop St handle py_str).
Local Abbreviation sync_new_orders := (Sync.sync_new_orders St handle py_str).

Lemma listed_skus_length (l : list OdooClient.product) :
  length (listed_skus l) + skipped_products l = length l.
Proof.
  unfold listed_skus, skipped_products.
  induction l as [|p l IH]; [reflexivity|].
  cbn [flat_map filter]. rewrite length_app.
  destruct (OdooClient.sku p) as [sku|]; cbn [truthy_sku negb].
  - destruct (String.eqb sku ""); cbn [negb length]; lia.
  - cbn [length]. lia.
Qed.

Lemma listed_order_ids_length (l : list dict) :
  length (listed_order_ids l) + skipped_orders l = length l.
Proof.
  unfold listed_order_ids, skipped_orders.
  induction l as [|o l IH]; [reflexivity|].
  cbn [flat_map filter]. rewrite length_app.
  destruct (truthy (dict_get o "entity_id" (JStr ""))); cbn [negb length]; lia.
Qed.

(** The loop of [sync_all_products] runs to the end of the list whatever
    the items' results: it keeps [total], adds one to [successful] or to
    [failed] per product, counts every product without a sku as failed
    without fetching it, and runs [sync_product] once for every other
    product, in listing order. *)
Lemma sync_products_loop_spec (products : list OdooClient.product) :
  forall (results : product_counts) (s : St),
  exists results' s' t,
    sync_products_loop products results s = (Ok results', s', t)
    /\ total results' = total results
    /\ successful results' + failed results'
       = successful results + failed results + length products
    /\ failed results + skipped_products products <= failed results'
    /\ fetched_skus t = listed_skus products
    /\ length (failed_skus results') + skipped_products products
       = length (failed_skus results) + (failed results' - failed results).
Proof.
  induction products as [|p rest IH]; intros results s.
  - exists results, s, []. cbn. repeat split; lia.
  - cbn [Sync.sync_products_loop].
    unfold skipped_products, listed_skus in *. cbn [filter flat_map].
    destruct (OdooClient.sku p) as [sku|] eqn:Esku; cbn [truthy_sku negb].
    + destruct (String.eqb sku "") eqn:Eempty; cbn [negb].
      * destruct (IH {| total := total results;
                        successful := successful results;
                        failed := failed results + 1;
                        failed_skus := failed_skus results |} s)
          as (r' & s' & t & Hrun & Ht & Hsum & Hf & Hfetch & Hlen).
        exists r', s', t.
        cbn [total successful failed failed_skus length app] in *.
        repeat split; try assumption; lia.
      * destruct (sync_product_returns St handle sku s) as (r & s1 & t1 & Hr).
        pose proof (sync_product_fetches_sku St handle sku s) as H1.
        rewrite Hr in H1. cbn [snd] in H1.
        unfold bind, time_sleep. rewrite Hr.
        match goal with
        | |- context [Sync.sync_products_loop St handle rest ?R s1] =>
            destruct (IH R s1)
              as (r' & s' & t & Hrun & Ht & Hsum & Hf & Hfetch & Hlen)
        end.
        rewrite Hrun. exists r', s', (t1 ++ [Sleep 0.5] ++ t)%list.
        split; [reflexivity|].
        unfold fetched_skus in *. rewrite !flat_map_app, H1, Hfetch.
        destruct (success r);
          cbn [total successful failed failed_skus length app flat_map] in *;
          rewrite ?length_app in *; cbn [length] in *;
          repeat split; lia.
    + destruct (IH {| total := total results;
                      successful := successful results;
                      failed := failed results + 1;
                      failed_skus := failed_skus results |} s)
        as (r' & s' & t & Hrun & Ht & Hsum & Hf & Hfetch & Hlen).
      exists r', s', t.
      cbn [total successful failed failed_skus length app] in *.
      repeat split; try assumption; lia.
Qed.

(** [sync_order] guards its whole body, and fetches its order once. *)
Lemma sync_order_returns (order_id : value) (s : St) :
  exists r s' t,
    sync_order order_id s = (Ok r, s', t) /\ fetched_orders t = [order_id].
Proof.
  run_order.
  destruct (handle _ (magento_get_order_by_id order_id) s)
    as [[[[|kv o]|]|e] s1];
    try (do 3 eexists; split; reflexivity).
  destruct (customer_data_of py_str (kv :: o) _) as [cd|e];
    try (do 3 eexists; split; reflexivity).
  destruct (order_lines_of (kv :: o)) as [lines|e];
    try (do 3 eexists; split; reflexivity).
  destruct (handle _ (odoo_create_sale_order cd lines order_id) s1)
    as [[oid|e] s2];
    try (do 3 eexists; split; reflexivity).
  destruct (truthy_id oid); do 3 eexists; split; reflexivity.
Qed.

(** The loop of [sync_new_orders], as [sync_products_loop_spec]. *)
Lemma sync_orders_loop_spec (new_orders : list dict) :
  forall (results : order_counts) (s : St),
  exists results' s' t,
    sync_orders_loop new_orders results s = (Ok results', s', t)
    /\ o_total results' = o_total results
    /\ o_successful results' + o_failed results'
       = o_successful results + o_failed results + length new_orders
    /\ o_failed results + skipped_orders new_orders <= o_failed results'
    /\ fetched_orders t = listed_order_ids new_orders
    /\ length (failed_orders results') + skipped_orders new_orders
       = length (failed_orders results) + (o_failed results' - o_failed results)
    /\ o_successful results <= o_successful results'
    /\ length (synced_orders results')
       = length (synced_orders results)
         + (o_successful results' - o_successful results).
Proof.
  induction new_orders as [|o rest IH]; intros results s.
  - exists results, s, []. cbn. repeat split; lia.
  - cbn [Sync.sync_orders_loop].
    unfold skipped_orders, listed_order_ids in *. cbn [filter flat_map].
    destruct (truthy (dict_get o "entity_id" (JStr ""))) eqn:Eid; cbn [negb].
    + destruct (sync_order_returns (dict_get o "entity_id" (JStr "")) s)
        as (r & s1 & t1 & Hr & H1).
      unfold bind, time_sleep. rewrite Hr.
      match goal with
      | |- context [Sync.sync_orders_loop St handle py_str rest ?R s1] =>
          destruct (IH R s1)
            as (r' & s' & t & Hrun & Ht & Hsum & Hf & Hfetch & Hlen
                & Hmono & Hsyn)
      end.
      rewrite Hrun. exists r', s', (t1 ++ [Sleep 0.5] ++ t)%list.
      split; [reflexivity|].
      unfold fetched_orders in *. rewrite !flat_map_app, H1, Hfetch.
      destruct (order_success r);
        cbn [o_total o_successful o_failed failed_orders synced_orders
             length app flat_map] in *;
        rewrite ?length_app in *; cbn [length] in *;
        repeat split; lia.
    + destruct (IH {| o_total := o_total results;
                      o_successful := o_successful results;
                      o_failed := o_failed results + 1;
                      failed_orders := failed_orders results;
                      synced_orders := synced_orders results |} s)
        as (r' & s' & t & Hrun & Ht & Hsum & Hf & Hfetch & Hlen
            & Hmono & Hsyn).
      exists r', s', t.
      cbn [o_total o_successful o_failed failed_orders synced_orders
           length app] in *.
      repeat split; try assumption; lia.
Qed.

(** What [sync_all_products] returns once the ERP client has listed the
    products. *)
Lemma sync_all_products_listed (s s1 : St)
  (products : list OdooClient.product) :
  handle _ odoo_get_all_products s = (Ok products, s1) ->
  exists results s' t,
    sync_all_products s
      = (Ok {| all_success := true;
               all_message :=
                 "Synchronized " ++ str_nat (successful results)
                   ++ " products successfully, "
                   ++ str_nat (failed results) ++ " failed";
               all_results := Some results |}, s', t)
    /\ total results = length products
    /\ skipped_products products <= failed results
    /\ successful results + failed results = total results
    /\ fetched_skus t = listed_skus products
    /\ length (failed_skus results) + skipped_products products
       = failed results.
Proof.
  intros Hlist.
  destruct (sync_products_loop_spec products
              {| total := length products; successful := 0; failed := 0;
                 failed_skus := [] |} s1)
    as (r' & s' & t & Hrun & Ht & Hsum & Hf & Hfetch & Hlen).
  exists r', s', (Event odoo_get_all_products (Ok products) :: t).
  split.
  - unfold Sync.sync_all_products, try_except, bind, perform, ret.
    rewrite Hlist, Hrun. rewrite app_nil_r. reflexivity.
  - cbn [total successful failed failed_skus length] in *.
    change (fetched_skus (Event odoo_get_all_products (Ok products) :: t))
      with (fetched_skus t). repeat split; try assumption; lia.
Qed.

(** What [sync_new_orders] returns once the storefront client has listed
    the orders. *)
Lemma sync_new_orders_listed (s s1 : St) (new_orders : list dict) :
  handle _ magento_get_new_orders s = (Ok new_orders, s1) ->
  exists results s' t,
    sync_new_orders s
      = (Ok {| new_success := true;
               new_message :=
                 "Synchronized " ++ str_nat (o_successful results)
                   ++ " orders successfully, "
                   ++ str_nat (o_failed results) ++ " failed";
               new_orders_synced := synced_orders results;
               new_results := Some results |}, s', t)
    /\ o_total results = length new_orders
    /\ skipped_orders new_orders <= o_failed results
    /\ o_successful results + o_failed results = o_total results
    /\ fetched_orders t = listed_order_ids new_orders
    /\ length (failed_orders results) + skipped_orders new_orders
       = o_failed results
    /\ length (synced_orders results) = o_successful results.
Proof.
  intros Hlist.
  destruct (sync_orders_loop_spec new_orders
              {| o_total := length new_orders; o_successful := 0;
                 o_failed := 0; failed_orders := []; synced_orders := [] |} s1)
    as (r' & s' & t & Hrun & Ht & Hsum & Hf & Hfetch & Hlen & Hmono & Hsyn).
  exists r', s', (Event magento_get_new_orders (Ok new_orders) :: t).
  split.
  - unfold Sync.sync_new_orders, try_except, bind, perform, ret.
    rewrite Hlist, Hrun. rewrite app_nil_r. reflexivity.
  - cbn [o_total o_successful o_failed failed_orders synced_orders length]
      in *.
    change (fetched_orders
              (Event magento_get_new_orders (Ok new_orders) :: t))
      with (fetched_orders t). repeat split; try assumption; lia.
Qed.

(** C5. When the ERP client lists N products of which K have no sku (an
    unset or empty one), [sync_all_products] reports [total = N],
    [failed >= K] and [successful + failed = total]; the K products
    without a sku are counted as failed and no [sync_product] is run for
    them: it is run for the N - K products that have a sku, once each. *)
Theorem sync_all_products_counts (s s1 : St)
  (products : list OdooClient.product) :
  handle _ odoo_get_all_products s = (Ok products, s1) ->
  let N := length products in
  let K := skipped_products products in
  exists r results,
    fst (fst (sync_all_products s)) = Ok r
    /\ all_results r = Some results
    /\ total results = N
    /\ K <= failed results
    /\ successful results + failed results = total results
    /\ fetched_skus (snd (sync_all_products s)) = listed_skus products
    /\ length (listed_skus products) = N - K
    /\ length (failed_skus results) = failed results - K.
Proof.
  intros Hlist N K.
  destruct (sync_all_products_listed s s1 products Hlist)
    as (results & s' & t & Hrun & Ht & Hk & Hsum & Hfetch & Hlen).
  pose proof (listed_skus_length products) as Hlisted.
  rewrite Hrun. cbn [fst snd].
  eexists. exists results. split; [reflexivity|]. cbn [all_results].
  subst N K. repeat split; try assumption; lia.
Qed.


End BatchFacts.

(* ===================================================================== *)
(** * OrderSynchronizer.sync_order *)
(* ===================================================================== *)

Section SyncOrderFacts.
Import Py Eff Sync.

Variable St : Type.
Variable handle : forall X, call X -> St -> outcome X * St.
Variable py_str : value -> string.

Local Abbreviation sync_order := (Sync.sync_order St handle py_str).

Lemma dict_get_lookup (d : dict) (k : string) (v default : value) :
  lookup k d = Some v -> dict_get d k default = v.
Proof. unfold dict_get. now intros ->. Qed.

(** The customer record built from a billing address that holds string
    first and last names. *)
Lemma customer_data_name (order billing cd : dict) (A B : string) :
  (forall x, py_str (JStr x) = x) ->
  lookup "firstname" billing = Some (JStr A) ->
  lookup "lastname" billing = Some (JStr B) ->
  customer_data_of py_str order (JObj billing) = Ok cd ->
  lookup "name" cd = Some (JStr (strip (A ++ " " ++ B))).
Proof.
  intros Hstr HA HB. unfold customer_data_of, py_get.
  cbn [obind]. rewrite (dict_get_lookup _ _ _ _ HA), (dict_get_lookup _ _ _ _ HB).
  rewrite !Hstr.
  destruct (street_of (JObj billing)) as [street|e]; cbn [obind];
    [|discriminate].
  intros H. injection H as <-. reflexivity.
Qed.

(** C9. For an order whose billing address has first name A and last
    name B, the customer name [sync_order] hands to the ERP client is
    [(A + " " + B).strip()]: exactly "A B", the two parts joined by one
    space, when neither is empty and no white space surrounds them, and
    just the other part when one of them is empty. *)
Theorem customer_name_joined_and_stripped (order_id : value) (s s1 : St)
  (order billing : dict) (A B : string) :
  (forall x, py_str (JStr x) = x) ->
  handle _ (magento_get_order_by_id order_id) s = (Ok (Some order), s1) ->
  lookup "billing_address" order = Some (JObj billing) ->
  lookup "firstname" billing = Some (JStr A) ->
  lookup "lastname" billing = Some (JStr B) ->
  let name := strip (A ++ " " ++ B) in
  (forall cd, In cd (customers_sent (snd (sync_order order_id s))) ->
              lookup "name" cd = Some (JStr name))
  /\ (forall street lines,
        street_of (JObj billing) = Ok street ->
        order_lines_of order = Ok lines ->
        exists cd, customers_sent (snd (sync_order order_id s)) = [cd])
  /\ (A <> "" -> B <> "" -> clean_left A = true -> clean_right B = true ->
      name = A ++ " " ++ B)
  /\ (A = "" -> name = strip B)
  /\ (B = "" -> name = strip A)
  /\ (A = "" -> clean_left B = true -> clean_right B = true -> name = B)
  /\ (B = "" -> clean_left A = true -> clean_right A = true -> name = A).
Proof.
  intros Hstr Hget Hbill HA HB name.
  assert (Hne : exists kv o, order = kv :: o).
  { destruct order as [|kv o]; [discriminate Hbill|eauto]. }
  destruct Hne as (kv & o & ->).
  split; [|split; [|repeat split]].
  - intros cd. run_order. rewrite Hget.
    rewrite (dict_get_lookup _ _ _ _ Hbill).
    destruct (customer_data_of py_str (kv :: o) (JObj billing)) as [cd'|e]
      eqn:Ecd; [|intros []].
    pose proof (customer_data_name _ _ _ _ _ Hstr HA HB Ecd) as Hname.
    destruct (order_lines_of (kv :: o)) as [lines|e]; [|intros []].
    destruct (handle _ (odoo_create_sale_order cd' lines order_id) s1)
      as [[oid|e] s2].
    + destruct (truthy_id oid); (intros [<-|[]]; exact Hname).
    + intros [<-|[]]; exact Hname.
  - intros street lines Hstreet Hlines. run_order. rewrite Hget.
    rewrite (dict_get_lookup _ _ _ _ Hbill), Hlines.
    unfold customer_data_of, py_get. cbn [obind]. rewrite Hstreet.
    cbn [obind].
    match goal with
    | |- context [handle _ (odoo_create_sale_order ?c lines order_id) s1] =>
        destruct (handle _ (odoo_create_sale_order c lines order_id) s1)
          as [[oid|e] s2]
    end.
    + destruct (truthy_id oid); eexists; reflexivity.
    + eexists; reflexivity.
  - intros HA' HB' Hl Hr. now apply strip_joined.
  - intros ->. apply strip_empty_first.
  - intros ->. apply strip_empty_last.
  - intros -> Hl Hr. subst name. rewrite strip_empty_first.
    now apply strip_clean.
  - intros -> Hl Hr. subst name. rewrite strip_empty_last.
    now apply strip_clean.
Qed.

End SyncOrderFacts.

(* ===================================================================== *)
(** * MagentoClient: the cached token and the order listing *)
(* ===================================================================== *)

Section MagentoFacts.
Import Py Eff MagentoClient.

Variable World : Type.
Variable handle : forall X, call X -> World -> outcome X * World.
Variable py_str : value -> string.

Local Abbreviation _get_token := (MagentoClient._get_token World handle).
Local Abbreviation get_orders := (MagentoClient.get_orders World handle py_str).
Local Abbreviation get_new_orders :=
  (MagentoClient.get_new_orders World handle py_str).

Ltac run_token :=
  unfold MagentoClient._get_token, try_except, bind, perform, self, set_self,
    ret, raise_for_status, response_json, raise; cbn [fst snd].

(** A request that finds no valid cached token exchanges the credentials;
    when the endpoint answers with a token, the token is stored and
    expires [token_lifetime] after the time read at the start. *)
Lemma get_token_exchange (c : client) (w w1 w2 : World) (t : Q)
  (resp : response) (tok : value) :
  handle _ time_time w = (Ok t, w1) ->
  truthy (token c) && Qlt_bool t (token_expiry c) = false ->
  handle _ (requests_post (token_url c) (token_payload c) token_headers) w1
    = (Ok resp, w2) ->
  status_ok resp = true ->
  content resp = Json tok ->
  _get_token (c, w)
    = (Ok tok,
       (with_token_expiry (with_token c tok) (t + token_lifetime c)%Q, w2),
       [Event time_time (Ok t);
        Event (requests_post (token_url c) (token_payload c) token_headers)
          (Ok resp)]).
Proof.
  intros Hclock Hstale Hpost Hstatus Hbody.
  run_token. rewrite Hclock. cbn [fst snd]. rewrite Hstale. cbn [fst snd].
  rewrite Hpost.
  unfold status_ok in Hstatus. apply negb_true_iff in Hstatus.
  rewrite Hstatus, Hbody. reflexivity.
Qed.

(** A request that finds a token that has not expired returns it and
    touches nothing but the clock. *)
Lemma get_token_cached (c : client) (w w1 : World) (t : Q) :
  handle _ time_time w = (Ok t, w1) ->
  truthy (token c) = true ->
  (t < token_expiry c)%Q ->
  _get_token (c, w) = (Ok (token c), (c, w1), [Event time_time (Ok t)]).
Proof.
  intros Hclock Htok Hlt. apply Qlt_bool_iff in Hlt.
  run_token. rewrite Hclock. cbn [fst snd]. rewrite Htok, Hlt. reflexivity.
Qed.

(** A request at or after the expiry time posts to the token endpoint
    once, whatever the endpoint answers. *)
Lemma get_token_expired (c : client) (w w1 : World) (t : Q) :
  handle _ time_time w = (Ok t, w1) ->
  (token_expiry c <= t)%Q ->
  token_exchanges (snd (_get_token (c, w))) = 1.
Proof.
  intros Hclock Hle. apply Qlt_bool_false_iff in Hle.
  run_token. rewrite Hclock. cbn [fst snd]. rewrite Hle, andb_false_r.
  cbn [fst snd].
  destruct (handle _ (requests_post _ _ _) w1) as [[resp|e] w2];
    [|destruct (is_RequestException e); reflexivity].
  destruct ((400 <=? status_code resp) && (status_code resp <? 600))%Z;
    [reflexivity|].
  destruct (content resp); reflexivity.
Qed.


(** [extend_with_items] on a result page appends the page's items. *)
Lemma extend_with_page (orders : list value) (page : value) :
  is_page page = true ->
  extend_with_items orders page = Ok (orders ++ page_items page)%list.
Proof.
  unfold extend_with_items, is_page, page_items.
  destruct page as [| | | | | |d]; try discriminate.
  - intros _. cbn. now rewrite app_nil_r.
  - intros H. destruct d as [|kv d]; cbn [truthy].
    + cbn. now rewrite app_nil_r.
    + unfold py_contains, py_getitem. cbn [obind].
      destruct (lookup "items" (kv :: d)) as [[| | | | |l|]|];
        try discriminate; cbn; [reflexivity|now rewrite app_nil_r].
Qed.

(** C8. When the two status-filtered queries of [get_new_orders] return
    result pages, the method returns the items of the "pending" page
    followed by the items of the "processing" page: a plain
    concatenation, nothing removed and nothing reordered.  A query that
    failed (its page is [None]) or whose page has no items contributes
    nothing. *)
Theorem get_new_orders_concatenates (c : client) (w : World)
  (pending processing : value) (cw1 cw2 : client * World)
  (t1 t2 : list event) :
  get_orders 10 1 (Some "pending") (c, w) = (Ok pending, cw1, t1) ->
  get_orders 10 1 (Some "processing") cw1 = (Ok processing, cw2, t2) ->
  is_page pending = true ->
  is_page processing = true ->
  get_new_orders (c, w)
    = (Ok (page_items pending ++ page_items processing)%list, cw2,
       (t1 ++ t2)%list)
  /\ (pending = JNull ->
      fst (fst (get_new_orders (c, w))) = Ok (page_items processing))
  /\ (processing = JNull ->
      fst (fst (get_new_orders (c, w))) = Ok (page_items pending))
  /\ page_items JNull = []
  /\ (forall d, lookup "items" d = None -> page_items (JObj d) = [])
  /\ (forall d, lookup "items" d = Some (JArr []) -> page_items (JObj d) = []).
Proof.
  intros H1 H2 Hp1 Hp2.
  assert (Hrun : get_new_orders (c, w)
                 = (Ok (page_items pending ++ page_items processing)%list,
                    cw2, (t1 ++ t2)%list)).
  { unfold MagentoClient.get_new_orders, bind, lift, ret.
    rewrite H1, H2.
    rewrite (extend_with_page [] pending Hp1). cbn [app].
    rewrite (extend_with_page _ processing Hp2).
    now rewrite !app_nil_r. }
  split; [exact Hrun|]. rewrite Hrun. cbn [fst].
  repeat split.
  - intros ->. reflexivity.
  - intros ->. cbn [page_items]. now rewrite app_nil_r.
  - intros d Hd. unfold page_items. now rewrite Hd.
  - intros d Hd. unfold page_items. now rewrite Hd.
Qed.

End MagentoFacts.

(* ===================================================================== *)
(** * OdooClient.create_sale_order *)
(* ===================================================================== *)

Section OdooFacts.
Import Py Eff OdooClient.

Variable World : Type.
Variable handle : forall X, call X -> World -> outcome X * World.
Variable py_upper : string -> string.

Local Abbreviation connect := (OdooClient.connect World handle).
Local Abbreviation ensure_connection :=
  (OdooClient.ensure_connection World handle).
Local Abbreviation _get_country_id :=
  (OdooClient._get_country_id World handle py_upper).
Local Abbreviation resolve_lines := (OdooClient.resolve_lines World handle).
Local Abbreviation create_sale_order :=
  (OdooClient.create_sale_order World handle py_upper).

Lemma created_app (t u : list event) :
  created (t ++ u)%list = (created t ++ created u)%list.
Proof. apply flat_map_app. Qed.

Lemma quiet_nil : quiet [].
Proof. split; reflexivity. Qed.

Lemma quiet_app (t u : list event) : quiet t -> quiet u -> quiet (t ++ u)%list.
Proof.
  intros [Ht1 Ht2] [Hu1 Hu2]. split.
  - intros m. now rewrite existsb_app, Ht1, Hu1.
  - unfold created in *. now rewrite flat_map_app, Ht2, Hu2.
Qed.

Lemma quiet_search (m : string) (d : domain) (r : outcome (list Z)) :
  quiet [Event (search m d) r].
Proof. split; reflexivity. Qed.

Ltac run_odoo :=
  unfold try_except, bind, perform, self, set_self, ret, raise,
    any_exception; cbn [fst snd].

(** [connect] always returns; it creates nothing, and when it answers
    [True] the client holds a session and is marked connected. *)
Lemma connect_spec (c : client) (w : World) :
  exists b c' w' t,
    connect (c, w) = (Ok b, (c', w'), t)
    /\ quiet t
    /\ (b = true -> connected c' = true /\ odoo c' = true).
Proof.
  unfold OdooClient.connect. run_odoo.
  destruct (handle _ (ODOO (host c) (port c)) w) as [[[]|e] w1].
  - cbn [fst snd].
    destruct (handle _ (login (database c) (username c) (password c)) w1)
      as [[[]|e] w2]; cbn [fst snd].
    + do 4 eexists. split; [reflexivity|]. split; [split; reflexivity|].
      intros _. split; reflexivity.
    + do 4 eexists. split; [reflexivity|]. split; [split; reflexivity|].
      discriminate.
  - do 4 eexists. split; [reflexivity|]. split; [split; reflexivity|].
    discriminate.
Qed.

Lemma ensure_connection_spec (c : client) (w : World) :
  exists b c' w' t,
    ensure_connection (c, w) = (Ok b, (c', w'), t)
    /\ quiet t
    /\ (b = true -> connected c' = true /\ odoo c' = true).
Proof.
  unfold OdooClient.ensure_connection, bind, self. cbn [fst snd].
  destruct (connected c) eqn:Hc, (odoo c) eqn:Ho; cbn [negb orb].
  1: { exists true, c, w, []. unfold ret. split; [reflexivity|].
       split; [apply quiet_nil|]. intros _. now split. }
  all: destruct (connect_spec c w) as (b & c' & w' & t & Hrun & Hq & Hb);
    rewrite Hrun; exists b, c', w', t; repeat split;
    try apply Hq; try apply (Hb ltac:(assumption)); reflexivity.
Qed.

(** [get_all_products] never raises: a failed connection, search or
    read yields the empty list, which [sync_all_products] then takes for
    a listing of no products. *)
Lemma get_all_products_returns (limit : option Z) (c : client) (w : World) :
  exists products cw t,
    OdooClient.get_all_products World handle limit (c, w)
      = (Ok products, cw, t)
    /\ (fst (fst (ensure_connection (c, w))) = Ok false -> products = []).
Proof.
  unfold OdooClient.get_all_products. unfold bind at 1.
  destruct (ensure_connection_spec c w) as (b & c0 & w0 & t0 & Hrun & _).
  rewrite Hrun. cbn [fst]. destruct b; cbn [negb].
  - run_odoo.
    destruct (handle _ (search "product.product" []) w0)
      as [[product_ids|e] w1]; cbn [fst snd];
      [|do 3 eexists; split; [reflexivity|discriminate]].
    match goal with
    | |- context [handle _ (browse_ids "product.product" ?ids) w1] =>
        destruct (handle _ (browse_ids "product.product" ids) w1)
          as [[records|e] w2]
    end; cbn [fst snd];
      do 3 eexists; (split; [reflexivity|discriminate]).
  - unfold ret. do 3 eexists. split; reflexivity.
Qed.

(** [_get_country_id] always returns, and only searches. *)
Lemma get_country_id_spec (country_code : value) (c : client) (w : World) :
  exists x c' w' t,
    _get_country_id country_code (c, w) = (Ok x, (c', w'), t) /\ quiet t.
Proof.
  unfold OdooClient._get_country_id. unfold bind at 1.
  destruct (ensure_connection_spec c w) as (b & c0 & w0 & t0 & Hrun & Hq & _).
  rewrite Hrun. destruct b; cbn [negb].
  - run_odoo.
    destruct country_code as [| | | |code| |]; cbn [fst snd];
      try (do 4 eexists; split; [reflexivity|];
           rewrite ?app_nil_r; exact Hq).
    destruct (handle _ (search "res.country" [("code", "=", JStr (py_upper code))])
                w0) as [[[|cid ids]|e] w1]; cbn [fst snd];
      (do 4 eexists; split; [reflexivity|]);
      apply quiet_app; try exact Hq; cbn [app];
      apply (quiet_app [_] []); try apply quiet_search; apply quiet_nil.
  - unfold ret. do 4 eexists. split; [reflexivity|].
    rewrite app_nil_r. exact Hq.
Qed.

Lemma quiet_unresolved (order_lines : list dict) :
  quiet (unresolved_searches order_lines).
Proof.
  induction order_lines as [|line rest IH]; [apply quiet_nil|].
  apply (quiet_app [_] _); [apply quiet_search|exact IH].
Qed.

(** When every line's search comes back empty, the loop leaves
    [sale_order_lines] as it was. *)
Lemma resolve_lines_unresolved (order_lines : list dict) :
  (forall line w', In line order_lines ->
     exists w'', handle _ (line_search line) w' = (Ok [], w'')) ->
  forall (acc : list value) (c : client) (w : World),
  exists w',
    resolve_lines order_lines acc (c, w)
      = (Ok acc, (c, w'), unresolved_searches order_lines).
Proof.
  induction order_lines as [|line rest IH]; intros Hall acc c w.
  - exists w. reflexivity.
  - cbn [OdooClient.resolve_lines]. unfold bind, perform. cbn [fst snd].
    destruct (Hall line w (or_introl eq_refl)) as (w1 & Hs). rewrite Hs.
    destruct (IH (fun l w' Hin => Hall l w' (or_intror Hin)) acc c w1)
      as (w' & Hrun).
    rewrite Hrun. exists w'. reflexivity.
Qed.

(** When no line's search finds a product (it comes back empty, or
    fails), the loop creates nothing and ends with [sale_order_lines] as
    it was, or with an exception. *)
Lemma resolve_lines_no_match (order_lines : list dict) :
  (forall line w', In line order_lines ->
     no_match (fst (handle _ (line_search line) w')) = true) ->
  forall (acc : list value) (cw : client * World),
  exists r cw' t,
    resolve_lines order_lines acc cw = (r, cw', t)
    /\ (r = Ok acc \/ exists e, r = Raise e)
    /\ quiet t.
Proof.
  induction order_lines as [|line rest IH]; intros Hall acc cw.
  - do 3 eexists. split; [reflexivity|]. split; [now left|apply quiet_nil].
  - cbn [OdooClient.resolve_lines]. unfold bind, perform.
    pose proof (Hall line (snd cw) (or_introl eq_refl)) as Hno.
    destruct (handle _ (line_search line) (snd cw)) as [[[|pid ids]|e] w1];
      cbn [fst snd no_match] in *; try discriminate.
    + destruct (IH (fun l w' Hin => Hall l w' (or_intror Hin)) acc (fst cw, w1))
        as (r & cw' & t & Hrun & Hr & Hq).
      rewrite Hrun. do 3 eexists. split; [reflexivity|]. split; [exact Hr|].
      apply (quiet_app [_] _); [apply quiet_search|exact Hq].
    + do 3 eexists. split; [reflexivity|]. split; [right; eauto|].
      apply quiet_search.
Qed.

(** C2. When none of the order's line skus resolves to an ERP product,
    [create_sale_order] returns [None] and never calls [create] on
    [sale.order]: no sale order without lines is created. *)
Theorem no_sale_order_without_lines (customer_data : dict)
  (order_lines : list dict) (external_order_id : value)
  (c : client) (w : World) :
  (forall line w', In line order_lines ->
     no_match (fst (handle _ (line_search line) w')) = true) ->
  fst (fst (create_sale_order customer_data order_lines external_order_id
              (c, w))) = Ok None
  /\ existsb (is_create "sale.order")
       (snd (create_sale_order customer_data order_lines external_order_id
               (c, w))) = false.
Proof.
  intros Hall.
  assert (H : exists cw' t,
             create_sale_order customer_data order_lines external_order_id
               (c, w) = (Ok None, cw', t)
             /\ existsb (is_create "sale.order") t = false).
  { unfold OdooClient.create_sale_order. unfold bind at 1.
    destruct (ensure_connection_spec c w)
      as (b & c0 & w0 & t0 & Hrun & Hq0 & _).
    rewrite Hrun. destruct b; cbn [negb].
    2: { unfold ret. do 2 eexists. split; [reflexivity|].
         rewrite app_nil_r. apply Hq0. }
    unfold try_except, any_exception. unfold bind at 1. unfold perform at 1.
    cbn [fst snd].
    destruct (handle _ (search "res.partner" _) w0) as [[partner_ids|e] wa].
    2: { unfold ret. do 2 eexists. split; [reflexivity|].
         rewrite !existsb_app. rewrite (proj1 Hq0). reflexivity. }
    unfold bind at 1.
    assert (Hpartner : exists r cw t,
      (match partner_ids with
       | pid :: _ => ret pid
       | [] =>
           bind (_get_country_id
                   (dict_get customer_data "country_code" JNull))
             (fun country_id =>
                perform World handle
                  (create "res.partner"
                     (partner_vals customer_data country_id)))
       end) (c0, wa) = (r, cw, t)
      /\ existsb (is_create "sale.order") t = false).
    { destruct partner_ids as [|pid ids].
      - unfold bind.
        destruct (get_country_id_spec
                    (dict_get customer_data "country_code" JNull) c0 wa)
          as (x & c1 & wb & tc & Hc & Hqc).
        rewrite Hc. unfold perform. cbn [fst snd].
        destruct (handle _ (create "res.partner" _) wb) as [r wc].
        do 3 eexists. split; [reflexivity|].
        rewrite existsb_app, (proj1 Hqc). reflexivity.
      - do 3 eexists. split; reflexivity. }
    destruct Hpartner as (r & cw & tp & Hp & Hqp). rewrite Hp.
    destruct r as [partner_id|e].
    2: { unfold ret. do 2 eexists. split; [reflexivity|].
         rewrite !existsb_app, (proj1 Hq0), Hqp. reflexivity. }
    unfold bind at 1.
    destruct (resolve_lines_no_match order_lines Hall [] cw)
      as (r & cw' & tl & Hl & Hr & Hql).
    rewrite Hl. destruct Hr as [-> | [e ->]]; unfold ret;
      (do 2 eexists; split; [reflexivity|]);
      rewrite !existsb_app, (proj1 Hq0), Hqp, (proj1 Hql); reflexivity. }
  destruct H as (cw' & t & -> & Ht). split; [reflexivity|exact Ht].
Qed.

(** C10. [create_sale_order] is not atomic.  When the client is connected
    and no partner has the customer's email, the partner is created
    first; if every line's search then comes back empty the method
    returns [None] although the server has created the partner.  The run
    is: the connection check, the partner search, the country lookup, the
    partner creation, then one search per order line and nothing more, so
    nothing undoes the creation. *)
Theorem create_sale_order_leaves_partner (customer_data : dict)
  (order_lines : list dict) (external_order_id : value)
  (c c0 c1 : client) (w w0 wa wb wc : World) (t0 tc : list event)
  (country_id : value) (partner_id : Z) :
  ensure_connection (c, w) = (Ok true, (c0, w0), t0) ->
  handle _ (search "res.partner"
              [("email", "=", dict_get customer_data "email" JNull)]) w0
    = (Ok [], wa) ->
  _get_country_id (dict_get customer_data "country_code" JNull) (c0, wa)
    = (Ok country_id, (c1, wb), tc) ->
  handle _ (create "res.partner" (partner_vals customer_data country_id)) wb
    = (Ok partner_id, wc) ->
  (forall line w', In line order_lines ->
     exists w'', handle _ (line_search line) w' = (Ok [], w'')) ->
  let t :=
    (t0 ++
     [Event (search "res.partner"
               [("email", "=", dict_get customer_data "email" JNull)])
        (Ok [])] ++
     tc ++
     [Event (create "res.partner" (partner_vals customer_data country_id))
        (Ok partner_id)] ++
     unresolved_searches order_lines)%list in
  (exists w',
     create_sale_order customer_data order_lines external_order_id (c, w)
       = (Ok None, (c1, w'), t))
  /\ created t = [("res.partner", partner_id)]
  /\ existsb (is_create "sale.order") t = false.
Proof.
  intros Hconn Hsearch Hcountry Hcreate Hall t.
  destruct (ensure_connection_spec c w) as (b & c0' & w0' & t0' & Hrun & Hq0 & _).
  rewrite Hconn in Hrun. injection Hrun as <- <- <- <-.
  destruct (get_country_id_spec
              (dict_get customer_data "country_code" JNull) c0 wa)
    as (x & c1' & wb' & tc' & Hc & Hqc).
  rewrite Hcountry in Hc. injection Hc as <- <- <- <-.
  pose proof (quiet_unresolved order_lines) as Hql.
  split; [|split].
  - destruct (resolve_lines_unresolved order_lines Hall [] c1 wc) as (w' & Hl).
    exists w'.
    unfold OdooClient.create_sale_order. unfold bind at 1. rewrite Hconn.
    cbn [negb]. unfold try_except, any_exception.
    unfold bind at 1. unfold perform at 1. cbn [fst snd]. rewrite Hsearch.
    unfold bind at 1. unfold bind at 1. rewrite Hcountry.
    unfold perform at 1. cbn [fst snd]. rewrite Hcreate.
    unfold bind at 1. rewrite Hl. unfold ret. subst t.
    rewrite !app_nil_r. rewrite <- !app_assoc. reflexivity.
  - subst t. rewrite !created_app.
    rewrite (proj2 Hq0), (proj2 Hqc), (proj2 Hql). reflexivity.
  - subst t. rewrite !existsb_app.
    rewrite (proj1 Hq0), (proj1 Hqc), (proj1 Hql). reflexivity.
Qed.

End OdooFacts.

(* ===================================================================== *)
(** * The theorems at work on the concrete systems *)
(* ===================================================================== *)

Section Examples.
Import Py Scenario.

(** A sku the ERP does not have; then one only the ERP has. *)
Lemma sync_product_staged_lookup_witness :
  fst (fst (Sync.sync_product shop shop_handle "W-1"
              (shop_of [] ["W-1"] true true true)))
    = Ok {| Sync.success := false;
            Sync.message := "Product with SKU W-1 not found in Odoo";
            Sync.sku := "W-1" |}
  /\ fst (fst (Sync.sync_product shop shop_handle "W-1"
                 (shop_of [widget None] [] true true true)))
       = Ok {| Sync.success := false;
               Sync.message := "Product with SKU W-1 not found in Magento";
               Sync.sku := "W-1" |}.
Proof.
  split.
  - pose proof (proj1 (sync_product_staged_lookup shop shop_handle "W-1"
                         (shop_of [] ["W-1"] true true true))
                  _ eq_refl) as [H _].
    rewrite H. reflexivity.
  - pose proof (proj2 (sync_product_staged_lookup shop shop_handle "W-1"
                         (shop_of [widget None] [] true true true))
                  (widget None) _ None _ eq_refl eq_refl eq_refl) as [H _].
    rewrite H. reflexivity.
Defined.

(** The stock update succeeds, the price and special-price updates fail:
    all three are called, and the message names the two that failed. *)
Lemma sync_product_updates_in_order_witness :
  let s := shop_of [widget (Some 8%Q)] ["W-1"] true false false in
  Sync.sync_product shop shop_handle "W-1" s
    = (Ok {| Sync.success := false;
             Sync.message :=
               "Product W-1 synchronization failed for: price update, special price update";
             Sync.sku := "W-1" |},
       s,
       [Sync.Event (Sync.odoo_get_product_by_sku "W-1")
          (Ok (Some (widget (Some 8%Q))));
        Sync.Event (Sync.magento_get_product_by_sku "W-1")
          (Ok (Some [("sku", JStr "W-1")]));
        Sync.Event (Sync.magento_update_product_stock "W-1" 5) (Ok true);
        Sync.Event (Sync.magento_update_product_price "W-1" 10) (Ok false);
        Sync.Event (Sync.magento_update_product_special_price "W-1" 8)
          (Ok false)]).
Proof.
  intros s.
  exact (proj1 (sync_product_updates_in_order shop shop_handle "W-1" s
                  (widget (Some 8%Q)) (Some [("sku", JStr "W-1")]) 8%Q
                  true false false s s s s s
                  eq_refl eq_refl eq_refl eq_refl eq_refl
                  (fun _ => conj eq_refl eq_refl)
                  (fun H : true = false =>
                     False_ind _ (diff_true_false H)))).
Defined.

(** C3 as the specification words it does not hold: a promotional price
    of zero is set and below the retail price, yet the special-price
    update is not called. *)
Lemma special_price_skipped_for_zero_promo :
  ~ (forall (St : Type)
            (handle : forall X, Sync.call X -> St -> outcome X * St)
            (sku : string) (s : St) (p : OdooClient.product)
            (m : option dict) (b1 b2 : bool) (s1 s2 s3 s4 : St),
       handle _ (Sync.odoo_get_product_by_sku sku) s = (Ok (Some p), s1) ->
       handle _ (Sync.magento_get_product_by_sku sku) s1 = (Ok m, s2) ->
       Sync.truthy_dict m = true ->
       handle _ (Sync.magento_update_product_stock sku
                   (OdooClient.quantity p)) s2 = (Ok b1, s3) ->
       handle _ (Sync.magento_update_product_price sku
                   (OdooClient.retail_price p)) s3 = (Ok b2, s4) ->
       (existsb Sync.is_special_price_call
          (snd (Sync.sync_product St handle sku s)) = true
        <-> Sync.promo_set_and_below p = true)).
Proof.
  intros H.
  pose (s := shop_of [widget (Some 0%Q)] ["W-1"] true true true).
  destruct (H shop shop_handle "W-1" s (widget (Some 0%Q))
              (Some [("sku", JStr "W-1")]) true true s s s s
              eq_refl eq_refl eq_refl eq_refl eq_refl) as [_ Hback].
  discriminate (Hback eq_refl).
Qed.

(** A promotional price of 8 against a retail price of 10: the
    special-price update is called. *)
Lemma special_price_iff_promo_applies_witness :
  existsb Sync.is_special_price_call
    (snd (Sync.sync_product shop shop_handle "W-1"
            (shop_of [widget (Some 8%Q)] ["W-1"] true true true))) = true.
Proof.
  pose (s := shop_of [widget (Some 8%Q)] ["W-1"] true true true).
  exact (proj1 (proj2 (special_price_iff_promo_applies shop shop_handle "W-1"
                         s (widget (Some 8%Q)) (Some [("sku", JStr "W-1")])
                         true true s s s s
                         eq_refl eq_refl eq_refl eq_refl eq_refl))
           eq_refl eq_refl).
Defined.

(** Three products, one without a sku and one unknown to the storefront:
    total 3, one success, two failures, two runs of [sync_product]. *)
Lemma sync_all_products_counts_witness :
  let s := shop_of [widget (Some 8%Q); unlabelled; gadget] ["W-1"]
             true true true in
  exists r results,
    fst (fst (Sync.sync_all_products shop shop_handle s)) = Ok r
    /\ Sync.all_results r = Some results
    /\ Sync.total results = 3
    /\ 1 <= Sync.failed results
    /\ Sync.successful results + Sync.failed results = Sync.total results
    /\ Sync.fetched_skus (snd (Sync.sync_all_products shop shop_handle s))
       = ["W-1"; "G-9"]
    /\ length ["W-1"; "G-9"] = 2
    /\ length (Sync.failed_skus results) = Sync.failed results - 1.
Proof.
  intros s.
  exact (sync_all_products_counts shop shop_handle s s
           [widget (Some 8%Q); unlabelled; gadget] eq_refl).
Defined.


(** The order of customer "A", "B". *)
Lemma customer_name_joined_and_stripped_witness :
  let s := shop_of [] [] true true true in
  (forall cd,
     In cd (Sync.customers_sent
              (snd (Sync.sync_order shop shop_handle show (JInt 11) s))) ->
     lookup "name" cd = Some (JStr "A B"))
  /\ exists cd,
       Sync.customers_sent
         (snd (Sync.sync_order shop shop_handle show (JInt 11) s)) = [cd].
Proof.
  intros s.
  pose proof (customer_name_joined_and_stripped shop shop_handle show
                (JInt 11) s s order_AB
                [("firstname", JStr "A"); ("lastname", JStr "B");
                 ("street", JArr [JStr "1 Main St"]); ("city", JStr "Cairo");
                 ("postcode", JStr "11511"); ("country_id", JStr "eg")]
                "A" "B" (fun x => eq_refl) eq_refl eq_refl eq_refl eq_refl)
    as (Hname & Hsent & _).
  split.
  - exact Hname.
  - exact (Hsent _ _ eq_refl eq_refl).
Defined.


(** Order 2 is on both pages: it is listed twice, pending first. *)
Lemma get_new_orders_concatenates_witness :
  fst (fst (MagentoClient.get_new_orders site site_handle show
              (magento, site_at 0)))
    = Ok [order_number 1; order_number 2; order_number 2; order_number 3].
Proof.
  pose proof (get_new_orders_concatenates site site_handle show magento
                (site_at 0) (pending_page (site_at 0))
                (processing_page (site_at 0)) _ _ _ _
                eq_refl eq_refl eq_refl eq_refl) as (H & _).
  rewrite H. reflexivity.
Defined.

(** Two lines whose skus the ERP does not know. *)
Lemma no_sale_order_without_lines_witness :
  fst (fst (OdooClient.create_sale_order erp_db (erp_handle catalogue)
              upper_ascii customer_AB unknown_lines (JInt 11)
              (odoo_client, empty_erp))) = Ok None
  /\ existsb (OdooClient.is_create "sale.order")
       (snd (OdooClient.create_sale_order erp_db (erp_handle catalogue)
               upper_ascii customer_AB unknown_lines (JInt 11)
               (odoo_client, empty_erp))) = false.
Proof.
  apply (no_sale_order_without_lines erp_db (erp_handle catalogue)
           upper_ascii customer_AB unknown_lines (JInt 11)
           odoo_client empty_erp).
  intros line w' [<-|[<-|[]]]; reflexivity.
Defined.

(** The same order against an ERP without partners: the method returns
    [None], and the ERP now holds partner 50. *)
Lemma create_sale_order_leaves_partner_witness :
  let run := OdooClient.create_sale_order erp_db (erp_handle catalogue)
               upper_ascii customer_AB unknown_lines (JInt 11)
               (odoo_client, empty_erp) in
  fst (fst run) = Ok None
  /\ OdooClient.created (snd run) = [("res.partner", 50%Z)]
  /\ partners (snd (snd (fst run)))
     = [(50%Z, OdooClient.partner_vals customer_AB JNull)]
  /\ sale_orders (snd (snd (fst run))) = [].
Proof.
  intros run.
  pose proof (create_sale_order_leaves_partner erp_db (erp_handle catalogue)
                upper_ascii customer_AB unknown_lines (JInt 11)
                odoo_client _ _ empty_erp _ _ _ _ _ _ JNull 50%Z
                eq_refl eq_refl eq_refl eq_refl) as H.
  destruct H as ((w' & Hrun) & Hcreated & _).
  { intros line w' [<-|[<-|[]]]; eexists; reflexivity. }
  split; [|split; [|split]].
  - subst run. rewrite Hrun. reflexivity.
  - subst run. rewrite Hrun. exact Hcreated.
  - reflexivity.
  - reflexivity.
Defined.

End Examples.

(* ===================================================================== *)
(** * MagentoClient: requests and updates *)
(* ===================================================================== *)

Section MagentoRequestFacts.
Import Py Eff MagentoClient.

Variable World : Type.
Variable handle : forall X, call X -> World -> outcome X * World.
Variable py_str : value -> string.

Local Abbreviation _get_token := (MagentoClient._get_token World handle).
Local Abbreviation _make_api_request :=
  (MagentoClient._make_api_request World handle py_str).
Local Abbreviation update_product_stock :=
  (MagentoClient.update_product_stock World handle py_str).
Local Abbreviation update_product_price :=
  (MagentoClient.update_product_price World handle py_str).
Local Abbreviation update_product_special_price :=
  (MagentoClient.update_product_special_price World handle py_str).
Local Abbreviation get_new_orders :=
  (MagentoClient.get_new_orders World handle py_str).

Ltac run_token :=
  unfold MagentoClient._get_token, try_except, bind, perform, self, set_self,
    ret, raise_for_status, response_json, raise; cbn [fst snd].

Ltac token_done :=
  do 4 eexists; split; [reflexivity|];
  repeat split; intros; try reflexivity; try discriminate;
  try (cbn; lia);
  try (match goal with
       | H : Ok _ = Ok _ |- _ => injection H as <-
       end; try reflexivity; try assumption; try discriminate).

(** What every run of [_get_token] keeps. *)
Lemma get_token_inv (c : client) (w : World) :
  exists r c' w' t,
    _get_token (c, w) = (r, (c', w'), t)
    /\ base_url c' = base_url c
    /\ username c' = username c
    /\ password c' = password c
    /\ token_lifetime c' = token_lifetime c
    /\ token_exchanges t <= 1
    /\ requests_sent t = []
    /\ (forall v, r = Ok v -> token c' = v)
    /\ (forall v, r = Ok v -> token_exchanges t = 0 ->
        c' = c /\ truthy v = true).
Proof.
  run_token.
  destruct (handle _ time_time w) as [[now|e] w1]; cbn [fst snd].
  2: { token_done. }
  destruct (truthy (token c) && Qlt_bool now (token_expiry c)) eqn:Hvalid.
  { apply andb_true_iff in Hvalid. destruct Hvalid as [Htok _]. token_done. }
  cbn [fst snd].
  destruct (handle _ (requests_post _ _ _) w1) as [[resp|e] w2]; cbn [fst snd].
  2: { destruct (is_RequestException e); token_done. }
  destruct ((400 <=? status_code resp) && (status_code resp <? 600))%Z;
    cbn [fst snd is_RequestException]; [token_done|].
  destruct (content resp) as [|tok|]; cbn [fst snd is_RequestException];
    token_done.
Qed.

(** X1. Whatever the clock and the token endpoint do, [_get_token]
    returns the token it leaves cached, keeps the client's url,
    credentials and lifetime, and posts to the token endpoint at most
    once; when it posts nothing the client is unchanged and the token
    returned is a usable one. *)
Theorem get_token_returns_cached_token (c c' : client) (w w' : World)
  (v : value) (t : list event) :
  _get_token (c, w) = (Ok v, (c', w'), t) ->
  token c' = v
  /\ base_url c' = base_url c
  /\ username c' = username c
  /\ password c' = password c
  /\ token_lifetime c' = token_lifetime c
  /\ token_exchanges t <= 1
  /\ (token_exchanges t = 0 -> c' = c /\ truthy v = true).
Proof.
  intros Hrun.
  destruct (get_token_inv c w)
    as (r & c1 & w1 & t1 & H & Hu & Hn & Hp & Hl & Hx & _ & Htok & Hsame).
  rewrite Hrun in H. injection H as <- <- <- <-.
  repeat split; try assumption.
  - now apply Htok.
  - now apply (Hsame v).
  - now apply (Hsame v).
Qed.

(** A client without a usable token exchanges the credentials. *)
Lemma get_token_without_token (c : client) (w w1 : World) (now : Q) :
  handle _ time_time w = (Ok now, w1) ->
  truthy (token c) = false ->
  token_exchanges (snd (_get_token (c, w))) = 1.
Proof.
  intros Hclock Htok.
  run_token. rewrite Hclock. cbn [fst snd]. rewrite Htok. cbn [andb fst snd].
  destruct (handle _ (requests_post _ _ _) w1) as [[resp|e] w2];
    [|destruct (is_RequestException e); reflexivity].
  destruct ((400 <=? status_code resp) && (status_code resp <? 600))%Z;
    [reflexivity|].
  destruct (content resp); reflexivity.
Qed.

(** X2. A request for the token that yields none (it returns [None] or
    another value Python takes for false) leaves no usable token behind:
    the next request posts to the token endpoint again, whatever the
    time. *)
Theorem failed_token_is_not_cached (c c' : client) (w w' w2 w3 : World)
  (v : value) (t : list event) (now : Q) :
  _get_token (c, w) = (Ok v, (c', w'), t) ->
  truthy v = false ->
  handle _ time_time w2 = (Ok now, w3) ->
  truthy (token c') = false
  /\ token_exchanges t = 1
  /\ token_exchanges (snd (_get_token (c', w2))) = 1.
Proof.
  intros Hrun Hv Hclock.
  destruct (get_token_inv c w)
    as (r & c1 & w1 & t1 & H & _ & _ & _ & _ & Hx & _ & Htok & Hsame).
  rewrite Hrun in H. injection H as <- <- <- <-.
  assert (Hc : token c' = v) by now apply Htok.
  split; [now rewrite Hc|]. split.
  - destruct (token_exchanges t) as [|[|n]] eqn:E; [|reflexivity|lia].
    destruct (Hsame v eq_refl eq_refl) as [_ Htrue]. congruence.
  - apply (get_token_without_token c' w2 w3 now Hclock). now rewrite Hc.
Qed.

Ltac run_api :=
  unfold MagentoClient._make_api_request, try_except, bind, perform, self,
    ret, raise_for_status, response_json, raise; cbn [fst snd].

(** [_make_api_request] by a client whose cached token is valid: one
    reading of the clock, then the request. *)
Lemma make_api_request_cached (method endpoint : string) (data : value)
  (params : option dict) (c : client) (w w1 w2 : World) (now : Q)
  (r : outcome response) :
  handle _ time_time w = (Ok now, w1) ->
  truthy (token c) = true ->
  (now < token_expiry c)%Q ->
  handle _ (requests_request method (base_url c ++ endpoint) data params
              (api_headers (py_str (token c)))) w1 = (r, w2) ->
  _make_api_request method endpoint data params (c, w)
    = (api_result r, (c, w2),
       [Event time_time (Ok now);
        Event (requests_request method (base_url c ++ endpoint) data params
                 (api_headers (py_str (token c)))) r]).
Proof.
  intros Hclock Htok Hlt Hreq.
  unfold MagentoClient._make_api_request. unfold bind at 1.
  rewrite (get_token_cached World handle c w w1 now Hclock Htok Hlt).
  rewrite Htok. cbn [negb].
  unfold try_except, bind, perform, self, ret, raise_for_status,
    response_json, raise, api_headers in *. cbn [fst snd].
  rewrite Hreq. unfold api_result, status_ok.
  destruct r as [resp|e]; cbn [fst snd].
  - destruct ((400 <=? status_code resp) && (status_code resp <? 600))%Z;
      cbn [negb is_RequestException]; [reflexivity|].
    unfold has_content. destruct (content resp); reflexivity.
  - destruct (is_RequestException e); reflexivity.
Qed.

Lemma requests_sent_app (t u : list event) :
  requests_sent (t ++ u)%list = (requests_sent t ++ requests_sent u)%list.
Proof. apply flat_map_app. Qed.

Lemma acknowledged_app (t u : list event) :
  acknowledged (t ++ u)%list = (acknowledged t ++ acknowledged u)%list.
Proof. apply flat_map_app. Qed.

Lemma acknowledged_sent_nil (t : list event) :
  requests_sent t = [] -> acknowledged t = [].
Proof.
  induction t as [|[X c r] t IH]; [reflexivity|].
  destruct c; cbn; try exact IH; discriminate.
Qed.

(** What every run of [_make_api_request] guarantees: at most one
    request, to the client's url; and a result other than [None] only
    when that request was sent with a usable token and answered with an
    accepted status. *)
Lemma make_api_request_inv (method endpoint : string) (data : value)
  (params : option dict) (c : client) (w : World) :
  exists r c' w' t,
    _make_api_request method endpoint data params (c, w) = (r, (c', w'), t)
    /\ base_url c' = base_url c
    /\ (requests_sent t = []
        \/ requests_sent t = [(method, base_url c ++ endpoint, data)])
    /\ (requests_sent t = [] -> forall v, r = Ok v -> v = JNull)
    /\ (forall v, r = Ok v -> is_not_none v = true ->
        acknowledged t = [(method, base_url c ++ endpoint, data)]
        /\ truthy (token c') = true).
Proof.
  unfold MagentoClient._make_api_request. unfold bind at 1.
  destruct (get_token_inv c w)
    as (r0 & c0 & w0 & t0 & Hrun & Hurl & _ & _ & _ & _ & Hsent & Htok & _).
  rewrite Hrun.
  pose proof (acknowledged_sent_nil t0 Hsent) as Hack.
  destruct r0 as [tok|e].
  2: { do 4 eexists. split; [reflexivity|]. split; [exact Hurl|].
       split; [now left|]. split; intros; discriminate. }
  specialize (Htok tok eq_refl).
  destruct (truthy tok) eqn:Htruthy; cbn [negb].
  2: { unfold ret. do 4 eexists. split; [reflexivity|]. split; [exact Hurl|].
       rewrite app_nil_r. split; [now left|]. split.
       - intros _ v Hv. now injection Hv.
       - intros v Hv Hnn. injection Hv as <-. discriminate Hnn. }
  unfold try_except, bind, perform, self, ret, raise_for_status,
    response_json, raise. cbn [fst snd]. rewrite Hurl.
  destruct (handle _ (requests_request _ _ _ _ _) w0) as [[resp|e] w1];
    cbn [fst snd].
  - unfold has_content.
    destruct ((400 <=? status_code resp) && (status_code resp <? 600))%Z
      eqn:Hstatus; cbn [fst snd is_RequestException];
      [|destruct (content resp) as [|v'|] eqn:Hbody;
        cbn [fst snd is_RequestException]];
      (do 4 eexists; split; [reflexivity|]; split; [exact Hurl|]);
      rewrite ?app_nil_r, ?requests_sent_app, ?acknowledged_app, Hsent, Hack;
      (split; [now right|]); (split; [discriminate|]);
      intros v Hv Hnn; injection Hv as <-; try discriminate Hnn;
      cbn; unfold status_ok; rewrite Hstatus; cbn;
      (split; [reflexivity|]); rewrite Htok; exact Htruthy.
  - destruct (is_RequestException e);
      (do 4 eexists; split; [reflexivity|]; split; [exact Hurl|]);
      rewrite ?app_nil_r, ?requests_sent_app, Hsent;
      (split; [now right|]); (split; [discriminate|]);
      intros v Hv Hnn; try discriminate Hv;
      injection Hv as <-; discriminate Hnn.
Qed.

(** A token exchange that fails leaves the client without a token. *)
Lemma get_token_failed (c : client) (w w1 w2 : World) (now : Q)
  (r : outcome response) :
  handle _ time_time w = (Ok now, w1) ->
  truthy (token c) && Qlt_bool now (token_expiry c) = false ->
  handle _ (requests_post (token_url c) (token_payload c) token_headers) w1
    = (r, w2) ->
  exchange_fails r = true ->
  _get_token (c, w)
    = (Ok JNull, (with_token c JNull, w2),
       [Event time_time (Ok now);
        Event (requests_post (token_url c) (token_payload c) token_headers)
          r]).
Proof.
  intros Hclock Hstale Hpost Hfail.
  run_token. rewrite Hclock. cbn [fst snd]. rewrite Hstale. cbn [fst snd].
  rewrite Hpost. unfold exchange_fails, status_ok in Hfail.
  destruct r as [resp|e]; cbn [fst snd].
  - destruct ((400 <=? status_code resp) && (status_code resp <? 600))%Z;
      cbn [negb orb fst snd is_RequestException] in *; [reflexivity|].
    destruct (content resp); try discriminate Hfail; reflexivity.
  - rewrite Hfail. reflexivity.
Qed.

(** X3. When the client has no valid token and the token exchange fails
    (the post raises a RequestException, or is answered with a 4xx/5xx
    status or a body that is not JSON), [_make_api_request] returns
    [None] and the three update methods return [False]; no resource
    request is sent, and the client is left without a token. *)
Theorem no_request_without_token (c : client) (w w1 w2 : World) (now : Q)
  (r : outcome response) :
  handle _ time_time w = (Ok now, w1) ->
  truthy (token c) && Qlt_bool now (token_expiry c) = false ->
  handle _ (requests_post (token_url c) (token_payload c) token_headers) w1
    = (r, w2) ->
  exchange_fails r = true ->
  let t := [Event time_time (Ok now);
            Event (requests_post (token_url c) (token_payload c)
                     token_headers) r] in
  let after := (with_token c JNull, w2) in
  (forall method endpoint data params,
     _make_api_request method endpoint data params (c, w)
       = (Ok JNull, after, t))
  /\ (forall sku quantity,
        update_product_stock sku quantity (c, w) = (Ok false, after, t))
  /\ (forall sku price,
        update_product_price sku price (c, w) = (Ok false, after, t))
  /\ (forall sku special_price from_date to_date,
        update_product_special_price sku special_price from_date to_date
          (c, w) = (Ok false, after, t))
  /\ requests_sent t = []
  /\ token (fst after) = JNull.
Proof.
  intros Hclock Hstale Hpost Hfail t after.
  assert (Hreq : forall method endpoint data params,
             _make_api_request method endpoint data params (c, w)
             = (Ok JNull, after, t)).
  { intros. unfold MagentoClient._make_api_request. unfold bind at 1.
    rewrite (get_token_failed c w w1 w2 now r Hclock Hstale Hpost Hfail).
    reflexivity. }
  split; [exact Hreq|].
  repeat split; intros;
    unfold MagentoClient.update_product_stock,
      MagentoClient.update_product_price,
      MagentoClient.update_product_special_price, bind;
    rewrite ?Hreq; reflexivity.
Qed.

(** X4. With a valid cached token [_make_api_request] reads the clock,
    sends the one request to [base_url + endpoint] with the bearer token,
    and leaves the client as it was.  A RequestException and a 4xx/5xx
    answer give [None]; an accepted answer with an empty body gives
    [True], which is not [None]; one with a JSON body gives that body. *)
Theorem api_request_with_cached_token (method endpoint : string)
  (data : value) (params : option dict) (c : client) (w w1 w2 : World)
  (now : Q) (r : outcome response) :
  handle _ time_time w = (Ok now, w1) ->
  truthy (token c) = true ->
  (now < token_expiry c)%Q ->
  handle _ (requests_request method (base_url c ++ endpoint) data params
              (api_headers (py_str (token c)))) w1 = (r, w2) ->
  let run := _make_api_request method endpoint data params (c, w) in
  snd (fst run) = (c, w2)
  /\ snd run
     = [Event time_time (Ok now);
        Event (requests_request method (base_url c ++ endpoint) data params
                 (api_headers (py_str (token c)))) r]
  /\ token_exchanges (snd run) = 0
  /\ authorizations (snd run) = [Some ("Bearer " ++ py_str (token c))]
  /\ (forall msg, r = Raise (RequestException msg) -> fst (fst run) = Ok JNull)
  /\ (forall resp, r = Ok resp -> status_ok resp = false ->
      fst (fst run) = Ok JNull)
  /\ (forall resp, r = Ok resp -> status_ok resp = true ->
      content resp = Empty ->
      fst (fst run) = Ok (JBool true) /\ is_not_none (JBool true) = true)
  /\ (forall resp v, r = Ok resp -> status_ok resp = true ->
      content resp = Json v -> fst (fst run) = Ok v).
Proof.
  intros Hclock Htok Hlt Hreq run. subst run.
  rewrite (make_api_request_cached method endpoint data params c w w1 w2 now r
             Hclock Htok Hlt Hreq).
  cbn [fst snd].
  split; [reflexivity|]. split; [reflexivity|]. split; [reflexivity|].
  split; [reflexivity|]. split; [|split; [|split]].
  - intros msg ->. reflexivity.
  - intros resp -> Hs. unfold api_result. now rewrite Hs.
  - intros resp -> Hs Hb. unfold api_result. now rewrite Hs, Hb.
  - intros resp v -> Hs Hb. unfold api_result. now rewrite Hs, Hb.
Qed.

(** X5. [update_product_stock] answers [True] only if its PUT to
    [base_url/rest/V1/products/<sku>/stockItems/1] was sent and answered
    with an accepted status; the body sent carries the quantity and
    [is_in_stock], which is true exactly when the quantity is above
    zero. *)
Theorem update_product_stock_sound (sku : string) (quantity : Q)
  (c c' : client) (w w' : World) (t : list event) :
  update_product_stock sku quantity (c, w) = (Ok true, (c', w'), t) ->
  acknowledged t
    = [("PUT", base_url c ++ "/rest/V1/products/" ++ sku ++ "/stockItems/1",
        stock_data quantity)]
  /\ exists in_stock,
       stock_data quantity
         = JObj [("stockItem",
                  JObj [("qty", JFloat quantity);
                        ("is_in_stock", JBool in_stock)])]
       /\ (in_stock = true <-> (0 < quantity)%Q).
Proof.
  intros Hrun. split.
  - unfold MagentoClient.update_product_stock, bind in Hrun.
    destruct (make_api_request_inv "PUT"
                ("/rest/V1/products/" ++ sku ++ "/stockItems/1")
                (stock_data quantity) None c w)
      as (r & c1 & w1 & t1 & H & _ & _ & _ & Hack).
    rewrite H in Hrun. destruct r as [v|e]; [|discriminate Hrun].
    unfold ret in Hrun. injection Hrun as Hv <- <- <-.
    rewrite app_nil_r. now apply (Hack v).
  - exists (Qlt_bool 0 quantity). split; [reflexivity|]. apply Qlt_bool_iff.
Qed.

(** X6. [update_product_price] and [update_product_special_price]
    answer [True] only if their PUT to [base_url/rest/V1/products/<sku>]
    was sent and answered with an accepted status.  The special-price
    body lists the special price as text, then the start date and the
    end date, each only when it is given and not empty. *)
Theorem update_product_prices_sound (sku : string) (price : Q)
  (from_date to_date : option string)
  (c c' : client) (w w' : World) (t : list event) :
  (update_product_price sku price (c, w) = (Ok true, (c', w'), t) ->
   acknowledged t
     = [("PUT", base_url c ++ "/rest/V1/products/" ++ sku, price_data price)])
  /\ (update_product_special_price sku price from_date to_date (c, w)
        = (Ok true, (c', w'), t) ->
      acknowledged t
        = [("PUT", base_url c ++ "/rest/V1/products/" ++ sku,
            special_price_data py_str price from_date to_date)])
  /\ special_price_data py_str price from_date to_date
     = JObj [("product",
              JObj [("custom_attributes",
                     JArr (attribute "special_price" (py_str (JFloat price))
                           :: date_attribute "special_from_date" from_date
                           ++ date_attribute "special_to_date" to_date)%list)])].
Proof.
  split; [|split].
  - intros Hrun.
    unfold MagentoClient.update_product_price, bind in Hrun.
    destruct (make_api_request_inv "PUT" ("/rest/V1/products/" ++ sku)
                (price_data price) None c w)
      as (r & c1 & w1 & t1 & H & _ & _ & _ & Hack).
    rewrite H in Hrun. destruct r as [v|e]; [|discriminate Hrun].
    unfold ret in Hrun. injection Hrun as Hv <- <- <-.
    rewrite app_nil_r. now apply (Hack v).
  - intros Hrun.
    unfold MagentoClient.update_product_special_price, bind in Hrun.
    destruct (make_api_request_inv "PUT" ("/rest/V1/products/" ++ sku)
                (special_price_data py_str price from_date to_date) None c w)
      as (r & c1 & w1 & t1 & H & _ & _ & _ & Hack).
    rewrite H in Hrun. destruct r as [v|e]; [|discriminate Hrun].
    unfold ret in Hrun. injection Hrun as Hv <- <- <-.
    rewrite app_nil_r. now apply (Hack v).
  - unfold special_price_data, date_attribute, given.
    destruct from_date as [f|], to_date as [d|];
      try destruct (String.eqb f ""); try destruct (String.eqb d "");
      reflexivity.
Qed.

(** X7. When its cached token is valid, [get_new_orders] sends both
    order queries, the "pending" one and then the "processing" one,
    whatever the first is answered: a failed first query does not stop
    the second.  No token is requested. *)
Theorem get_new_orders_sends_both_queries (c : client)
  (w w1 w2 w3 w4 : World) (now1 now2 : Q) (r1 r2 : outcome response) :
  truthy (token c) = true ->
  handle _ time_time w = (Ok now1, w1) ->
  (now1 < token_expiry c)%Q ->
  handle _ (requests_request "GET" (base_url c ++ "/rest/V1/orders") JNull
              (Some (status_params "pending"))
              (api_headers (py_str (token c)))) w1 = (r1, w2) ->
  no_other_exception r1 = true ->
  handle _ time_time w2 = (Ok now2, w3) ->
  (now2 < token_expiry c)%Q ->
  handle _ (requests_request "GET" (base_url c ++ "/rest/V1/orders") JNull
              (Some (status_params "processing"))
              (api_headers (py_str (token c)))) w3 = (r2, w4) ->
  let t := snd (get_new_orders (c, w)) in
  requests_sent t
    = [("GET", base_url c ++ "/rest/V1/orders", JNull);
       ("GET", base_url c ++ "/rest/V1/orders", JNull)]
  /\ status_filters t = [Some (JStr "pending"); Some (JStr "processing")]
  /\ token_exchanges t = 0.
Proof.
  intros Htok Hc1 Hlt1 Hr1 Hok1 Hc2 Hlt2 Hr2 t.
  assert (Ht : t = [Event time_time (Ok now1);
                    Event (requests_request "GET"
                             (base_url c ++ "/rest/V1/orders") JNull
                             (Some (status_params "pending"))
                             (api_headers (py_str (token c)))) r1;
                    Event time_time (Ok now2);
                    Event (requests_request "GET"
                             (base_url c ++ "/rest/V1/orders") JNull
                             (Some (status_params "processing"))
                             (api_headers (py_str (token c)))) r2]).
  { subst t. unfold MagentoClient.get_new_orders. unfold bind at 1.
    change (MagentoClient.get_orders World handle py_str 10 1 (Some "pending"))
      with (_make_api_request "GET" "/rest/V1/orders" JNull
              (Some (status_params "pending"))).
    rewrite (make_api_request_cached _ _ _ _ c w w1 w2 now1 r1
               Hc1 Htok Hlt1 Hr1).
    assert (Hp : exists p1, api_result r1 = Ok p1).
    { unfold api_result. destruct r1 as [resp|e].
      - destruct (status_ok resp); [destruct (content resp)|]; eauto.
      - cbn in Hok1. rewrite Hok1. eauto. }
    destruct Hp as (p1 & ->). unfold bind at 1.
    change (MagentoClient.get_orders World handle py_str 10 1
              (Some "processing"))
      with (_make_api_request "GET" "/rest/V1/orders" JNull
              (Some (status_params "processing"))).
    rewrite (make_api_request_cached _ _ _ _ c w2 w3 w4 now2 r2
               Hc2 Htok Hlt2 Hr2).
    destruct (api_result r2) as [p2|e]; [|reflexivity].
    unfold bind, lift, ret.
    destruct (extend_with_items [] p1) as [o1|e]; [|reflexivity].
    destruct (extend_with_items o1 p2) as [o2|e]; reflexivity. }
  rewrite Ht. repeat split.
Qed.

(** X8. An order query that is acknowledged with an empty body makes
    [_make_api_request] return [True], and [get_new_orders] then raises
    a TypeError on ['items' in True], after both queries were sent: the
    listing raises instead of returning a list. *)
Theorem get_new_orders_raises_on_empty_body (c : client)
  (w w1 w2 w3 w4 : World) (now1 now2 : Q) (resp : response)
  (r2 : outcome response) :
  truthy (token c) = true ->
  handle _ time_time w = (Ok now1, w1) ->
  (now1 < token_expiry c)%Q ->
  handle _ (requests_request "GET" (base_url c ++ "/rest/V1/orders") JNull
              (Some (status_params "pending"))
              (api_headers (py_str (token c)))) w1 = (Ok resp, w2) ->
  status_ok resp = true ->
  content resp = Empty ->
  handle _ time_time w2 = (Ok now2, w3) ->
  (now2 < token_expiry c)%Q ->
  handle _ (requests_request "GET" (base_url c ++ "/rest/V1/orders") JNull
              (Some (status_params "processing"))
              (api_headers (py_str (token c)))) w3 = (r2, w4) ->
  no_other_exception r2 = true ->
  (exists msg, fst (fst (get_new_orders (c, w))) = Raise (TypeError msg))
  /\ length (requests_sent (snd (get_new_orders (c, w)))) = 2.
Proof.
  intros Htok Hc1 Hlt1 Hr1 Hs Hb Hc2 Hlt2 Hr2 Hok2.
  assert (Hrun : exists cw t,
             get_new_orders (c, w)
             = (Raise (TypeError "argument of type 'bool' is not iterable"),
                cw, t)
             /\ length (requests_sent t) = 2).
  { unfold MagentoClient.get_new_orders. unfold bind at 1.
    change (MagentoClient.get_orders World handle py_str 10 1 (Some "pending"))
      with (_make_api_request "GET" "/rest/V1/orders" JNull
              (Some (status_params "pending"))).
    rewrite (make_api_request_cached _ _ _ _ c w w1 w2 now1 (Ok resp)
               Hc1 Htok Hlt1 Hr1).
    unfold api_result at 1. rewrite Hs, Hb. unfold bind at 1.
    change (MagentoClient.get_orders World handle py_str 10 1
              (Some "processing"))
      with (_make_api_request "GET" "/rest/V1/orders" JNull
              (Some (status_params "processing"))).
    rewrite (make_api_request_cached _ _ _ _ c w2 w3 w4 now2 r2
               Hc2 Htok Hlt2 Hr2).
    assert (Hp : exists p2, api_result r2 = Ok p2).
    { unfold api_result. destruct r2 as [resp2|e].
      - destruct (status_ok resp2); [destruct (content resp2)|]; eauto.
      - cbn in Hok2. rewrite Hok2. eauto. }
    destruct Hp as (p2 & ->). do 2 eexists. split; reflexivity. }
  destruct Hrun as (cw & t & -> & Hlen).
  split; [eexists; reflexivity|exact Hlen].
Qed.

Lemma rstrip_by_spec (p : ascii -> bool) (s : string) :
  exists suffix,
    s = rstrip_by p s ++ suffix
    /\ all_chars p suffix = true
    /\ (forall ch, last_char (rstrip_by p s) = Some ch -> p ch = false).
Proof.
  induction s as [|a s (suffix & Heq & Hall & Hlast)].
  - exists "". repeat split. discriminate.
  - cbn [rstrip_by]. destruct (rstrip_by p s) as [|b r] eqn:E.
    + destruct (p a) eqn:Ha.
      * exists (String a s). cbn [append all_chars].
        rewrite Ha. cbn in Heq. subst suffix.
        repeat split; [exact Hall|discriminate].
      * exists suffix. cbn in Heq. subst suffix. cbn.
        repeat split; [exact Hall|]. intros ch Hch. now injection Hch as <-.
    + exists suffix. split; [|split; [exact Hall|]].
      * cbn. cbn in Heq. now rewrite <- Heq.
      * intros ch Hch. apply Hlast. exact Hch.
Qed.

Lemma rstrip_by_idem (p : ascii -> bool) (s : string) :
  rstrip_by p (rstrip_by p s) = rstrip_by p s.
Proof.
  induction s as [|a s IH]; [reflexivity|].
  cbn [rstrip_by]. destruct (rstrip_by p s) as [|b r] eqn:E.
  - destruct (p a) eqn:Ha; [reflexivity|]. cbn. now rewrite Ha.
  - change (rstrip_by p (String a (String b r)))
      with (match rstrip_by p (String b r) with
            | EmptyString => if p a then EmptyString else String a EmptyString
            | String x y => String a (String x y)
            end).
    now rewrite IH.
Qed.

(** X9. [MagentoClient.__init__] removes every trailing "/" of the base
    url and nothing else: the url given is the stored one followed by
    slashes only, and the stored one does not end in "/".  The client
    starts without a token, so its first request exchanges the
    credentials. *)
Theorem init_strips_trailing_slashes (url user pass : string) :
  let c := init url user pass in
  (exists slashes,
     url = base_url c ++ slashes
     /\ all_chars (Ascii.eqb "/") slashes = true)
  /\ last_char (base_url c) <> Some "/"%char
  /\ base_url (init (base_url c) user pass) = base_url c
  /\ (forall w w1 now,
        handle _ time_time w = (Ok now, w1) ->
        token_exchanges (snd (_get_token (c, w))) = 1).
Proof.
  intros c.
  destruct (rstrip_by_spec (Ascii.eqb "/") url) as (suffix & Heq & Hall & Hlast).
  split; [exists suffix; split; assumption|]. split; [|split].
  - intros Hl. specialize (Hlast _ Hl). discriminate Hlast.
  - apply rstrip_by_idem.
  - intros w w1 now Hclock.
    now apply (get_token_without_token c w w1 now Hclock).
Qed.

End MagentoRequestFacts.

(* ===================================================================== *)
(** * OdooClient: connection and reads *)
(* ===================================================================== *)

Section OdooClientFacts.
Import Py Eff OdooClient.

Variable World : Type.
Variable handle : forall X, call X -> World -> outcome X * World.
Variable py_upper : string -> string.

Local Abbreviation connect := (OdooClient.connect World handle).
Local Abbreviation ensure_connection :=
  (OdooClient.ensure_connection World handle).
Local Abbreviation get_product_by_sku :=
  (OdooClient.get_product_by_sku World handle).
Local Abbreviation get_all_products :=
  (OdooClient.get_all_products World handle).
Local Abbreviation _get_country_id :=
  (OdooClient._get_country_id World handle py_upper).
Local Abbreviation resolve_lines := (OdooClient.resolve_lines World handle).
Local Abbreviation create_sale_order :=
  (OdooClient.create_sale_order World handle py_upper).

Ltac run_odoo :=
  unfold try_except, bind, perform, self, set_self, ret, raise,
    any_exception; cbn [fst snd].

(** A connected client passes [ensure_connection] without a call. *)
Lemma ensure_connection_connected (c : client) (w : World) :
  connected c = true -> odoo c = true ->
  ensure_connection (c, w) = (Ok true, (c, w), []).
Proof.
  intros Hc Ho. unfold OdooClient.ensure_connection, bind, self, ret.
  cbn [fst snd]. rewrite Hc, Ho. reflexivity.
Qed.

(** X10. [ensure_connection] is lazy and can be repeated: once it has
    answered [True] the client holds a session and is marked connected,
    and every later [ensure_connection] answers [True] without any call
    to the server and without touching the client. *)
Theorem ensure_connection_is_lazy (c c' : client) (w w' : World)
  (t : list event) :
  ensure_connection (c, w) = (Ok true, (c', w'), t) ->
  connected c' = true
  /\ odoo c' = true
  /\ (forall w2, ensure_connection (c', w2) = (Ok true, (c', w2), []))
  /\ (connected c = true -> odoo c = true -> t = [] /\ c' = c /\ w' = w).
Proof.
  intros Hrun.
  destruct (ensure_connection_spec World handle c w)
    as (b & c1 & w1 & t1 & H & _ & Hb).
  rewrite Hrun in H. injection H as <- <- <- <-.
  destruct (Hb eq_refl) as [Hc Ho].
  split; [exact Hc|]. split; [exact Ho|]. split.
  - intros w2. now apply ensure_connection_connected.
  - intros Hc0 Ho0.
    rewrite (ensure_connection_connected c w Hc0 Ho0) in Hrun.
    injection Hrun as <- <- <-. repeat split.
Qed.

(** X11. A [connect] that fails marks the client as not connected, so
    the next operation connects again: its [ensure_connection] starts by
    opening a session with the same host and port. *)
Theorem failed_connect_is_retried (c c' : client) (w w' : World)
  (t : list event) :
  connect (c, w) = (Ok false, (c', w'), t) ->
  connected c' = false
  /\ host c' = host c /\ port c' = port c
  /\ forall w2,
       hd_error (snd (ensure_connection (c', w2)))
       = Some (Event (ODOO (host c) (port c))
                 (fst (handle _ (ODOO (host c) (port c)) w2))).
Proof.
  intros Hrun.
  assert (H : connected c' = false /\ host c' = host c /\ port c' = port c).
  { revert Hrun. unfold OdooClient.connect. run_odoo.
    destruct (handle _ (ODOO (host c) (port c)) w) as [[[]|e] w1];
      cbn [fst snd].
    - destruct (handle _ (login _ _ _) w1) as [[[]|e] w2]; cbn [fst snd];
        intros H; injection H as <- <- <-; try discriminate;
        repeat split.
    - intros H. injection H as <- <- <-. repeat split. }
  destruct H as (Hc & Hh & Hp). repeat split; try assumption.
  intros w2. unfold OdooClient.ensure_connection, bind, self. cbn [fst snd].
  rewrite Hc. cbn [negb orb]. unfold OdooClient.connect. run_odoo.
  rewrite Hh, Hp.
  destruct (handle _ (ODOO (host c) (port c)) w2) as [[[]|e] w3];
    cbn [fst snd]; [|reflexivity].
  destruct (handle _ (login _ _ _) w3) as [[[]|e] w4]; reflexivity.
Qed.

(** When the session cannot be opened, [ensure_connection] answers
    [False] after that one attempt. *)
Lemma ensure_connection_unreachable (c : client) (w w1 : World) (e : exn) :
  connected c = false ->
  handle _ (ODOO (host c) (port c)) w = (Raise e, w1) ->
  ensure_connection (c, w)
    = (Ok false, (with_connected c false, w1),
       [Event (ODOO (host c) (port c)) (Raise e)]).
Proof.
  intros Hc Hopen. unfold OdooClient.ensure_connection, bind, self.
  cbn [fst snd]. rewrite Hc. cbn [negb orb].
  unfold OdooClient.connect. run_odoo. rewrite Hopen. reflexivity.
Qed.

(** X12. When the client is not connected and the server cannot be
    reached, every operation gives its failure value after the one
    attempt to open a session: [get_product_by_sku], [create_sale_order]
    and [_get_country_id] return [None] and [get_all_products] returns
    the empty list, and no search, read or create is issued. *)
Theorem unreachable_server_gives_failure_values (c : client) (w w1 : World)
  (e : exn) :
  connected c = false ->
  handle _ (ODOO (host c) (port c)) w = (Raise e, w1) ->
  let after := (with_connected c false, w1) in
  let t := [Event (ODOO (host c) (port c)) (Raise e)] in
  (forall sku, get_product_by_sku sku (c, w) = (Ok None, after, t))
  /\ (forall limit, get_all_products limit (c, w) = (Ok [], after, t))
  /\ (forall customer_data order_lines external_order_id,
        create_sale_order customer_data order_lines external_order_id (c, w)
          = (Ok None, after, t))
  /\ (forall country_code,
        _get_country_id country_code (c, w) = (Ok JNull, after, t))
  /\ filter is_data_call t = [].
Proof.
  intros Hc Hopen after t.
  pose proof (ensure_connection_unreachable c w w1 e Hc Hopen) as Hconn.
  split; [|split; [|split; [|split]]].
  - intros sku. unfold OdooClient.get_product_by_sku, bind.
    rewrite Hconn. reflexivity.
  - intros limit. unfold OdooClient.get_all_products, bind.
    rewrite Hconn. reflexivity.
  - intros cd lines ext. unfold OdooClient.create_sale_order, bind.
    rewrite Hconn. reflexivity.
  - intros code. unfold OdooClient._get_country_id, bind.
    rewrite Hconn. reflexivity.
  - reflexivity.
Qed.



(** X15. On a connected client [_get_country_id] issues no call for a
    country code that is not a string (such as [None]) and returns
    [None]; for a string it searches the code in upper case once and
    returns the first country found, or [None] when there is none or the
    search fails. *)
Theorem get_country_id_cases (c : client) (w : World) :
  connected c = true -> odoo c = true ->
  (forall code,
     (forall s, code <> JStr s) ->
     _get_country_id code (c, w) = (Ok JNull, (c, w), []))
  /\ (forall s r w1,
        let query := search "res.country" [("code", "=", JStr (py_upper s))] in
        handle _ query w = (r, w1) ->
        _get_country_id (JStr s) (c, w)
          = (Ok match r with
                | Ok (cid :: _) => JInt cid
                | Ok [] | Raise _ => JNull
                end, (c, w1), [Event query r])).
Proof.
  intros Hc Ho.
  pose proof (ensure_connection_connected c w Hc Ho) as Hconn.
  split.
  - intros code Hcode. unfold OdooClient._get_country_id. unfold bind at 1.
    rewrite Hconn. cbn [negb]. run_odoo.
    destruct code; try reflexivity. exfalso. now apply (Hcode s).
  - intros s r w1 query Hs. unfold OdooClient._get_country_id.
    unfold bind at 1. rewrite Hconn. cbn [negb]. run_odoo.
    subst query. rewrite Hs. destruct r as [[|cid ids]|e]; reflexivity.
Qed.

(** The loop over the order lines, when the searches answer [found]
    and leave the server as it is: the lines that find a product are
    kept, in order, each with the first product found. *)
Lemma resolve_lines_found (found : dict -> list Z) (order_lines : list dict)
  (c : client) (w : World) :
  (forall line, In line order_lines ->
     handle _ (line_search line) w = (Ok (found line), w)) ->
  forall acc,
    resolve_lines order_lines acc (c, w)
      = (Ok (acc ++ found_lines found order_lines)%list, (c, w),
         line_searches found order_lines).
Proof.
  induction order_lines as [|line rest IH]; intros Hall acc.
  - cbn. now rewrite app_nil_r.
  - cbn [OdooClient.resolve_lines]. unfold bind, perform. cbn [fst snd].
    rewrite (Hall line (or_introl eq_refl)).
    unfold found_lines, line_searches in *. cbn [flat_map map].
    destruct (found line) as [|pid others].
    + rewrite (IH (fun l Hin => Hall l (or_intror Hin))). reflexivity.
    + rewrite (IH (fun l Hin => Hall l (or_intror Hin))).
      cbn [app]. now rewrite <- app_assoc.
Qed.

(** X16. When a partner with the customer's email exists,
    [create_sale_order] reuses the first one found: it creates no
    partner and looks up no country.  The lines whose sku finds no
    product are dropped and the others are kept in order; if any is left,
    one sale order is created for that partner with the external order
    identifier as [client_order_ref], and its identifier is returned, or
    [None] if that creation raises. *)
Theorem create_sale_order_reuses_partner (customer_data : dict)
  (order_lines : list dict) (external_order_id : value)
  (found : dict -> list Z) (c : client) (w wa wb : World)
  (partner_id : Z) (others : list Z) (answer : outcome Z) :
  connected c = true -> odoo c = true ->
  handle _ (search "res.partner"
              [("email", "=", dict_get customer_data "email" JNull)]) w
    = (Ok (partner_id :: others), wa) ->
  (forall line, In line order_lines ->
     handle _ (line_search line) wa = (Ok (found line), wa)) ->
  found_lines found order_lines <> [] ->
  let vals := [("partner_id", JInt partner_id);
               ("client_order_ref", external_order_id);
               ("order_line", JArr (found_lines found order_lines))] in
  handle _ (create "sale.order" vals) wa = (answer, wb) ->
  let t :=
    ([Event (search "res.partner"
               [("email", "=", dict_get customer_data "email" JNull)])
        (Ok (partner_id :: others))]
     ++ line_searches found order_lines
     ++ [Event (create "sale.order" vals) answer])%list in
  create_sale_order customer_data order_lines external_order_id (c, w)
    = (Ok match answer with
          | Ok sale_order_id => Some sale_order_id
          | Raise _ => None
          end, (c, wb), t)
  /\ existsb (is_create "res.partner") t = false
  /\ length (found_lines found order_lines) <= length order_lines.
Proof.
  intros Hc Ho Hpartner Hall Hsome vals Hcreate t.
  pose proof (ensure_connection_connected c w Hc Ho) as Hconn.
  split; [|split].
  - unfold OdooClient.create_sale_order. unfold bind at 1.
    rewrite Hconn. cbn [negb]. unfold try_except, any_exception.
    unfold bind at 1. unfold perform at 1. cbn [fst snd]. rewrite Hpartner.
    unfold bind at 1. unfold ret at 1. unfold bind at 1.
    rewrite (resolve_lines_found found order_lines c wa Hall []).
    cbn [app]. destruct (found_lines found order_lines) as [|l ls] eqn:El;
      [congruence|].
    unfold bind, perform, ret. cbn [fst snd]. subst vals. rewrite Hcreate.
    subst t. destruct answer; cbn [app]; rewrite ?app_nil_r; reflexivity.
  - subst t. rewrite !existsb_app. cbn [existsb is_create].
    assert (Hq : existsb (is_create "res.partner")
                   (line_searches found order_lines) = false).
    { clear. induction order_lines as [|l ls IH]; [reflexivity|exact IH]. }
    rewrite Hq. reflexivity.
  - clear. unfold found_lines. induction order_lines as [|l ls IH];
      [apply le_n|].
    cbn [flat_map length]. rewrite length_app.
    destruct (found l); cbn [length]; lia.
Qed.

End OdooClientFacts.

(* ===================================================================== *)
(** * The synchronizers: what a result tells *)
(* ===================================================================== *)

(** Closes a branch of the case analysis of a synchronizer run. *)
Ltac sync_done :=
  do 3 eexists; split; [reflexivity|];
  repeat split; cbn; intros;
  repeat match goal with
         | H : Some _ = Some _ |- _ => injection H as <-
         | H : None = Some _ |- _ => discriminate H
         | H : Some _ = None |- _ => discriminate H
         | H : _ \/ _ |- _ => destruct H
         | H : False |- _ => destruct H
         end;
  subst; try reflexivity; try exact I; try discriminate.

(** Closes a failing branch of the case analysis of [sync_order]. *)
Ltac order_done :=
  do 3 eexists; split; [reflexivity|]; cbn;
  split; [reflexivity|]; split; [|discriminate];
  split; [discriminate|];
  intros (oid & Hne & Hret); try discriminate Hret;
  injection Hret as <-; now elim Hne.

Section SyncResultFacts.
Import Py Eff Sync.

Variable St : Type.
Variable handle : forall X, call X -> St -> outcome X * St.
Variable py_str : value -> string.

Local Abbreviation sync_product := (Sync.sync_product St handle).
Local Abbreviation sync_order := (Sync.sync_order St handle py_str).

(** X17. A success reported by [sync_product] is backed by the calls:
    the product was found in both systems, the stock update and the
    price update were called and answered [True], and so was the
    special-price update when its condition holds; nothing else was
    called. *)
Theorem sync_product_success_is_backed (sku : string) (s s' : St)
  (r : product_result) (t : list event) :
  sync_product sku s = (Ok r, s', t) ->
  success r = true ->
  exists p m special,
    t = update_trace sku p m true true special
    /\ truthy_dict m = true
    /\ ((promo_applies p = false /\ special = [])
        \/ exists promo,
             promo_applies p = true
             /\ OdooClient.promo_price p = Some promo
             /\ special = [Event (magento_update_product_special_price sku
                                    promo) (Ok true)])
    /\ message r = "Product " ++ sku ++ " synchronized successfully".
Proof.
  run_sync.
  destruct (handle _ (odoo_get_product_by_sku sku) s) as [[[p|]|e] s1];
    try (intros H; injection H as <- <- <-; discriminate).
  destruct (handle _ (magento_get_product_by_sku sku) s1) as [[m|e] s2];
    try (intros H; injection H as <- <- <-; discriminate).
  destruct (truthy_dict m) eqn:Hm; cbn [negb];
    try (intros H; injection H as <- <- <-; discriminate).
  destruct (handle _ (magento_update_product_stock sku _) s2) as [[b1|e] s3];
    try (intros H; injection H as <- <- <-; discriminate).
  destruct (handle _ (magento_update_product_price sku _) s3) as [[b2|e] s4];
    try (intros H; injection H as <- <- <-; discriminate).
  destruct (promo_applies p) eqn:Hpromo.
  - destruct (OdooClient.promo_price p) as [promo|] eqn:Hprice.
    + destruct (handle _ (magento_update_product_special_price sku promo) s4)
        as [[b3|e] s5];
        try (intros H; injection H as <- <- <-; discriminate).
      intros H. injection H as <- <- <-. unfold update_report.
      destruct b1, b2, b3; cbn [andb success]; try discriminate.
      intros _. exists p, m, [Event (magento_update_product_special_price sku
                                       promo) (Ok true)].
      split; [reflexivity|]. split; [exact Hm|]. split; [|reflexivity].
      right. exists promo. repeat split; assumption.
    + unfold promo_applies in Hpromo. rewrite Hprice in Hpromo.
      discriminate Hpromo.
  - intros H. injection H as <- <- <-. unfold update_report.
    destruct b1, b2; cbn [andb success]; try discriminate.
    intros _. exists p, m, []. split; [reflexivity|]. split; [exact Hm|].
    split; [left; split; [exact Hpromo|reflexivity]|reflexivity].
Qed.


(** X19. When the storefront client returns no order ([None] or an
    empty dict), [sync_order] answers the failure "Order with ID <id> not
    found in Magento" with no order synced, and the ERP client is not
    called. *)
Theorem sync_order_not_found (order_id : value) (s s1 : St)
  (m : option dict) :
  handle _ (magento_get_order_by_id order_id) s = (Ok m, s1) ->
  truthy_dict m = false ->
  let t := [Event (magento_get_order_by_id order_id) (Ok m)] in
  sync_order order_id s
    = (Ok {| order_success := false;
             order_message := "Order with ID " ++ py_str order_id
                                ++ " not found in Magento";
             orders_synced := [] |}, s1, t)
  /\ customers_sent t = []
  /\ lines_sent t = [].
Proof.
  intros Hget Hm t. split; [|split; reflexivity].
  run_order. rewrite Hget. destruct m as [[|kv o]|]; try discriminate Hm;
    reflexivity.
Qed.

(** X20. [sync_order] always returns a result.  Its success flag is set
    exactly when the ERP client returned a sale-order identifier other
    than 0, and [orders_synced] holds the order's identifier on success
    and nothing otherwise. *)
Theorem sync_order_success_iff_id (order_id : value) (s : St) :
  exists r s' t,
    sync_order order_id s = (Ok r, s', t)
    /\ orders_synced r = (if order_success r then [order_id] else [])
    /\ (order_success r = true
        <-> exists oid, oid <> 0%Z /\ sale_orders_returned t = [Some oid])
    /\ (order_success r = true ->
        order_message r
          = "Order " ++ py_str order_id
              ++ " synchronized successfully to Odoo order "
              ++ str_id (hd None (sale_orders_returned t))).
Proof.
  run_order.
  destruct (handle _ (magento_get_order_by_id order_id) s)
    as [[[[|kv o]|]|e] s1].
  1,3,4: order_done.
  destruct (customer_data_of py_str (kv :: o) _) as [cd|e].
  2: order_done.
  destruct (order_lines_of (kv :: o)) as [lines|e].
  2: order_done.
  destruct (handle _ (odoo_create_sale_order cd lines order_id) s1)
    as [[[oid|]|e] s2].
  2,3: order_done.
  unfold truthy_id. destruct (Z.eqb_spec oid 0) as [->|Hne]; cbn [negb].
  - order_done.
  - do 3 eexists. split; [reflexivity|]. cbn.
    split; [reflexivity|]. split; [|reflexivity].
    split; [|reflexivity]. intros _. exists oid. now split.
Qed.

Lemma order_lines_loop_objects (items : list dict) :
  forall acc,
    order_lines_loop (map JObj items) acc
    = Ok (acc ++ map line_of_item items)%list.
Proof.
  induction items as [|item rest IH]; intros acc.
  - cbn. now rewrite app_nil_r.
  - cbn [map order_lines_loop py_get obind]. rewrite IH.
    now rewrite <- app_assoc.
Qed.

(** X21. For an order whose ["items"] is a list of objects and whose
    customer data can be built, [sync_order] hands the ERP client one
    order line per item, in the items' order, each with the item's sku,
    its [qty_ordered] (1 when absent) and its [price] (0 when absent),
    together with the order's own identifier as external identifier. *)
Theorem order_lines_follow_items (order_id : value) (s s1 : St)
  (order cd : dict) (items : list dict) :
  handle _ (magento_get_order_by_id order_id) s = (Ok (Some order), s1) ->
  order <> [] ->
  customer_data_of py_str order (dict_get order "billing_address" (JObj []))
    = Ok cd ->
  dict_get order "items" (JArr []) = JArr (map JObj items) ->
  lines_sent (snd (sync_order order_id s))
    = [(map line_of_item items, order_id)]
  /\ customers_sent (snd (sync_order order_id s)) = [cd]
  /\ length (map line_of_item items) = length items
  /\ (forall item,
        lookup "qty_ordered" item = None -> lookup "price" item = None ->
        line_of_item item
        = [("sku", dict_get item "sku" (JStr ""));
           ("quantity", JInt 1); ("price_unit", JInt 0)]).
Proof.
  intros Hget Hne Hcd Hitems.
  assert (Hrun : exists r s',
             sync_order order_id s
             = (Ok r, s',
                [Event (magento_get_order_by_id order_id) (Ok (Some order));
                 Event (odoo_create_sale_order cd (map line_of_item items)
                          order_id)
                   (fst (handle _ (odoo_create_sale_order cd
                                     (map line_of_item items) order_id) s1))])).
  { run_order. rewrite Hget. destruct order as [|kv o]; [congruence|].
    rewrite Hcd. unfold order_lines_of. rewrite Hitems. cbn [py_iter obind].
    rewrite order_lines_loop_objects. cbn [app].
    destruct (handle _ (odoo_create_sale_order cd _ order_id) s1)
      as [[oid|e] s2]; cbn [fst];
      [destruct (truthy_id oid)|]; do 2 eexists; reflexivity. }
  destruct Hrun as (r & s' & ->). cbn [snd].
  split; [reflexivity|]. split; [reflexivity|]. split; [apply length_map|].
  intros item Hq Hp. unfold line_of_item, dict_get. now rewrite Hq, Hp.
Qed.

(** X22. The street of the customer is the first element when the
    billing address holds a list, the value itself when it holds
    anything else, and the empty string when it holds none.  An empty
    street list makes [sync_order] fail with "Error synchronizing order
    <id>: list index out of range", before the ERP client is called. *)
Theorem empty_street_list_fails_order (order_id : value) (s s1 : St)
  (order billing : dict) :
  handle _ (magento_get_order_by_id order_id) s = (Ok (Some order), s1) ->
  lookup "billing_address" order = Some (JObj billing) ->
  (lookup "street" billing = Some (JArr []) ->
   sync_order order_id s
     = (Ok {| order_success := false;
              order_message := "Error synchronizing order "
                                 ++ py_str order_id
                                 ++ ": list index out of range";
              orders_synced := [] |}, s1,
        [Event (magento_get_order_by_id order_id) (Ok (Some order))]))
  /\ (forall first others,
        lookup "street" billing = Some (JArr (first :: others)) ->
        street_of (JObj billing) = Ok first)
  /\ (forall v,
        lookup "street" billing = Some v -> is_list v = false ->
        street_of (JObj billing) = Ok v)
  /\ (lookup "street" billing = None ->
      street_of (JObj billing) = Ok (JStr "")).
Proof.
  intros Hget Hbill.
  split; [|split; [|split]].
  - intros Hstreet. run_order. rewrite Hget.
    destruct order as [|kv o]; [discriminate Hbill|].
    unfold dict_get at 1. rewrite Hbill.
    unfold customer_data_of, street_of, py_get, dict_get. cbn [obind].
    rewrite Hstreet. reflexivity.
  - intros first others Hstreet. unfold street_of, py_get, dict_get.
    cbn [obind]. rewrite Hstreet. reflexivity.
  - intros v Hstreet Hv. unfold street_of, py_get, dict_get.
    cbn [obind]. rewrite Hstreet, Hv. reflexivity.
  - intros Hstreet. unfold street_of, py_get, dict_get.
    cbn [obind]. rewrite Hstreet. reflexivity.
Qed.

End SyncResultFacts.

(* ===================================================================== *)
(** * The batch operations: what is reported, and the pauses *)
(* ===================================================================== *)

Section BatchReportFacts.
Import Py Eff Sync.

Variable St : Type.
Variable handle : forall X, call X -> St -> outcome X * St.
Variable py_str : value -> string.

Local Abbreviation sync_products_loop := (Sync.sync_products_loop St handle).
Local Abbreviation sync_all_products := (Sync.sync_all_products St handle).
Local Abbreviation sync_orders_loop :=
  (Sync.sync_orders_loop St handle py_str).
Local Abbreviation sync_new_orders := (Sync.sync_new_orders St handle py_str).

Lemma sleeps_app (t u : list event) :
  sleeps (t ++ u)%list = (sleeps t ++ sleeps u)%list.
Proof. apply flat_map_app. Qed.

(** [sync_product] and [sync_order] do not pause. *)
Lemma sync_product_no_sleep (sku : string) (s : St) :
  sleeps (snd (Sync.sync_product St handle sku s)) = [].
Proof.
  run_sync.
  destruct (handle _ (odoo_get_product_by_sku sku) s) as [[[p|]|e] s1];
    [| reflexivity | reflexivity].
  destruct (handle _ (magento_get_product_by_sku sku) s1) as [[m|e] s2];
    [| reflexivity].
  destruct (truthy_dict m); simpl; [| reflexivity].
  destruct (handle _ (magento_update_product_stock sku _) s2) as [[b1|e] s3];
    [| reflexivity].
  destruct (handle _ (magento_update_product_price sku _) s3) as [[b2|e] s4];
    [| reflexivity].
  destruct (promo_applies p); [| reflexivity].
  destruct (OdooClient.promo_price p) as [q|]; [| reflexivity].
  destruct (handle _ (magento_update_product_special_price sku q) s4)
    as [[b3|e] s5]; reflexivity.
Qed.

Lemma sync_order_no_sleep (order_id : value) (s : St) :
  sleeps (snd (Sync.sync_order St handle py_str order_id s)) = [].
Proof.
  run_order.
  destruct (handle _ (magento_get_order_by_id order_id) s)
    as [[[[|kv o]|]|e] s1]; try reflexivity.
  destruct (customer_data_of py_str (kv :: o) _) as [cd|e]; try reflexivity.
  destruct (order_lines_of (kv :: o)) as [lines|e]; try reflexivity.
  destruct (handle _ (odoo_create_sale_order cd lines order_id) s1)
    as [[oid|e] s2]; try reflexivity.
  destruct (truthy_id oid); reflexivity.
Qed.

(** The loop of [sync_all_products]: the skus it reports as failed are
    skus of listed products, and it pauses once after each product it
    synchronizes. *)
Lemma sync_products_loop_report (products : list OdooClient.product) :
  forall (results : product_counts) (s : St),
  exists results' s' t,
    sync_products_loop products results s = (Ok results', s', t)
    /\ incl (failed_skus results')
            (failed_skus results ++ listed_skus products)%list
    /\ sleeps t = map (fun _ => 0.5%Q) (listed_skus products).
Proof.
  induction products as [|p rest IH]; intros results s.
  - exists results, s, []. split; [reflexivity|]. split; [|reflexivity].
    cbn. rewrite app_nil_r. apply incl_refl.
  - cbn [Sync.sync_products_loop]. unfold listed_skus in *. cbn [flat_map].
    destruct (OdooClient.sku p) as [sku|].
    + destruct (String.eqb sku "").
      * destruct (IH {| total := total results;
                        successful := successful results;
                        failed := failed results + 1;
                        failed_skus := failed_skus results |} s)
          as (r' & s' & t & Hrun & Hincl & Hsleep).
        exists r', s', t. cbn [app failed_skus] in *. now repeat split.
      * destruct (sync_product_returns St handle sku s) as (r & s1 & t1 & Hr).
        pose proof (sync_product_no_sleep sku s) as H1.
        rewrite Hr in H1. cbn [snd] in H1.
        unfold bind, time_sleep. rewrite Hr.
        match goal with
        | |- context [Sync.sync_products_loop St handle rest ?R s1] =>
            destruct (IH R s1) as (r' & s' & t & Hrun & Hincl & Hsleep)
        end.
        rewrite Hrun. exists r', s', (t1 ++ [Sleep 0.5] ++ t)%list.
        split; [reflexivity|]. split.
        -- intros x Hx. apply Hincl in Hx.
           destruct (success r); cbn [failed_skus] in Hx;
             rewrite ?in_app_iff in *; cbn [In app] in *; tauto.
        -- rewrite !sleeps_app, H1, Hsleep. reflexivity.
    + destruct (IH {| total := total results;
                      successful := successful results;
                      failed := failed results + 1;
                      failed_skus := failed_skus results |} s)
        as (r' & s' & t & Hrun & Hincl & Hsleep).
      exists r', s', t. cbn [app failed_skus] in *. now repeat split.
Qed.

(** The loop of [sync_new_orders]: every identifier it synchronizes ends
    in exactly one of the two lists, and it pauses once after each. *)
Lemma sync_orders_loop_report (new_orders : list dict) :
  forall (results : order_counts) (s : St),
  exists results' s' t,
    sync_orders_loop new_orders results s = (Ok results', s', t)
    /\ Permutation (synced_orders results' ++ failed_orders results')
         (synced_orders results ++ failed_orders results
          ++ listed_order_ids new_orders)%list
    /\ sleeps t = map (fun _ => 0.5%Q) (listed_order_ids new_orders).
Proof.
  induction new_orders as [|o rest IH]; intros results s.
  - exists results, s, []. split; [reflexivity|]. split; [|reflexivity].
    cbn. now rewrite app_nil_r.
  - cbn [Sync.sync_orders_loop]. unfold listed_order_ids in *.
    cbn [flat_map].
    destruct (truthy (dict_get o "entity_id" (JStr ""))); cbn [negb].
    + destruct (sync_order_returns St handle py_str
                  (dict_get o "entity_id" (JStr "")) s)
        as (r & s1 & t1 & Hr & _).
      pose proof (sync_order_no_sleep (dict_get o "entity_id" (JStr "")) s)
        as H1.
      rewrite Hr in H1. cbn [snd] in H1.
      unfold bind, time_sleep. rewrite Hr.
      match goal with
      | |- context [Sync.sync_orders_loop St handle py_str rest ?R s1] =>
          destruct (IH R s1) as (r' & s' & t & Hrun & Hperm & Hsleep)
      end.
      rewrite Hrun. exists r', s', (t1 ++ [Sleep 0.5] ++ t)%list.
      split; [reflexivity|]. split.
      * etransitivity; [exact Hperm|].
        destruct (order_success r); cbn [synced_orders failed_orders app].
        -- rewrite <- app_assoc. apply Permutation_app_head. cbn [app].
           apply Permutation_middle.
        -- rewrite <- !app_assoc. reflexivity.
      * rewrite !sleeps_app, H1, Hsleep. reflexivity.
    + destruct (IH {| o_total := o_total results;
                      o_successful := o_successful results;
                      o_failed := o_failed results + 1;
                      failed_orders := failed_orders results;
                      synced_orders := synced_orders results |} s)
        as (r' & s' & t & Hrun & Hperm & Hsleep).
      exists r', s', t. cbn [app failed_orders synced_orders] in *.
      now repeat split.
Qed.

(** What the two batches return once the listing has returned, with
    the trace of the loop. *)
Lemma sync_all_products_run (s s1 : St) (products : list OdooClient.product) :
  handle _ odoo_get_all_products s = (Ok products, s1) ->
  exists results s' t,
    sync_products_loop products
      {| total := length products; successful := 0; failed := 0;
         failed_skus := [] |} s1 = (Ok results, s', t)
    /\ fst (fst (sync_all_products s))
       = Ok {| all_success := true;
               all_message :=
                 "Synchronized " ++ str_nat (successful results)
                   ++ " products successfully, "
                   ++ str_nat (failed results) ++ " failed";
               all_results := Some results |}
    /\ snd (sync_all_products s)
       = Event odoo_get_all_products (Ok products) :: t.
Proof.
  intros Hlist.
  destruct (sync_products_loop_report products
              {| total := length products; successful := 0; failed := 0;
                 failed_skus := [] |} s1) as (r' & s' & t & Hrun & _).
  exists r', s', t. split; [exact Hrun|].
  unfold Sync.sync_all_products, try_except, bind, perform, ret.
  rewrite Hlist, Hrun. rewrite app_nil_r. split; reflexivity.
Qed.

Lemma sync_new_orders_run (s s1 : St) (new_orders : list dict) :
  handle _ magento_get_new_orders s = (Ok new_orders, s1) ->
  exists results s' t,
    sync_orders_loop new_orders
      {| o_total := length new_orders; o_successful := 0; o_failed := 0;
         failed_orders := []; synced_orders := [] |} s1 = (Ok results, s', t)
    /\ fst (fst (sync_new_orders s))
       = Ok {| new_success := true;
               new_message :=
                 "Synchronized " ++ str_nat (o_successful results)
                   ++ " orders successfully, "
                   ++ str_nat (o_failed results) ++ " failed";
               new_orders_synced := synced_orders results;
               new_results := Some results |}
    /\ snd (sync_new_orders s)
       = Event magento_get_new_orders (Ok new_orders) :: t.
Proof.
  intros Hlist.
  destruct (sync_orders_loop_report new_orders
              {| o_total := length new_orders; o_successful := 0;
                 o_failed := 0; failed_orders := []; synced_orders := [] |} s1)
    as (r' & s' & t & Hrun & _).
  exists r', s', t. split; [exact Hrun|].
  unfold Sync.sync_new_orders, try_except, bind, perform, ret.
  rewrite Hlist, Hrun. rewrite app_nil_r. split; reflexivity.
Qed.

(** X23. The identifiers a batch reports are identifiers of listed
    items.  In [sync_new_orders] every listed order identifier is
    reported exactly once, among the synced or among the failed
    identifiers, and the [orders_synced] of the outer result is the
    synced list of [results]; in [sync_all_products] every failed sku is
    the sku of a listed product. *)
Theorem batch_reports_listed_identifiers (s s1 : St) :
  (forall new_orders,
     handle _ magento_get_new_orders s = (Ok new_orders, s1) ->
     exists r results,
       fst (fst (sync_new_orders s)) = Ok r
       /\ new_results r = Some results
       /\ new_orders_synced r = synced_orders results
       /\ Permutation (synced_orders results ++ failed_orders results)
            (listed_order_ids new_orders))
  /\
  (forall products,
     handle _ odoo_get_all_products s = (Ok products, s1) ->
     exists r results,
       fst (fst (sync_all_products s)) = Ok r
       /\ all_results r = Some results
       /\ incl (failed_skus results) (listed_skus products)).
Proof.
  split.
  - intros new_orders Hlist.
    destruct (sync_new_orders_run s s1 new_orders Hlist)
      as (results & s' & t & Hloop & Hres & _).
    destruct (sync_orders_loop_report new_orders
                {| o_total := length new_orders; o_successful := 0;
                   o_failed := 0; failed_orders := [];
                   synced_orders := [] |} s1)
      as (r' & s2 & t2 & Hrun & Hperm & _).
    rewrite Hloop in Hrun. injection Hrun as <- <- <-.
    rewrite Hres. eexists. exists results.
    split; [reflexivity|]. split; [reflexivity|]. split; [reflexivity|].
    exact Hperm.
  - intros products Hlist.
    destruct (sync_all_products_run s s1 products Hlist)
      as (results & s' & t & Hloop & Hres & _).
    destruct (sync_products_loop_report products
                {| total := length products; successful := 0; failed := 0;
                   failed_skus := [] |} s1)
      as (r' & s2 & t2 & Hrun & Hincl & _).
    rewrite Hloop in Hrun. injection Hrun as <- <- <-.
    rewrite Hres. eexists. exists results.
    split; [reflexivity|]. split; [reflexivity|]. exact Hincl.
Qed.

(** X24. Both batches pause half a second after each item they
    synchronize and at no other moment: the pauses of a run are one of
    0.5 seconds per listed product with a sku, or per listed order with
    an identifier; an item that is skipped costs no pause. *)
Theorem batch_pauses_after_each_item (s s1 : St) :
  (forall products,
     handle _ odoo_get_all_products s = (Ok products, s1) ->
     sleeps (snd (sync_all_products s))
     = map (fun _ => 0.5%Q) (listed_skus products))
  /\
  (forall new_orders,
     handle _ magento_get_new_orders s = (Ok new_orders, s1) ->
     sleeps (snd (sync_new_orders s))
     = map (fun _ => 0.5%Q) (listed_order_ids new_orders)).
Proof.
  split.
  - intros products Hlist.
    destruct (sync_all_products_run s s1 products Hlist)
      as (results & s' & t & Hloop & _ & Ht).
    destruct (sync_products_loop_report products
                {| total := length products; successful := 0; failed := 0;
                   failed_skus := [] |} s1)
      as (r' & s2 & t2 & Hrun & _ & Hsleep).
    rewrite Hloop in Hrun. injection Hrun as <- <- <-.
    rewrite Ht. exact Hsleep.
  - intros new_orders Hlist.
    destruct (sync_new_orders_run s s1 new_orders Hlist)
      as (results & s' & t & Hloop & _ & Ht).
    destruct (sync_orders_loop_report new_orders
                {| o_total := length new_orders; o_successful := 0;
                   o_failed := 0; failed_orders := [];
                   synced_orders := [] |} s1)
      as (r' & s2 & t2 & Hrun & _ & Hsleep).
    rewrite Hloop in Hrun. injection Hrun as <- <- <-.
    rewrite Ht. exact Hsleep.
Qed.

End BatchReportFacts.

(* ===================================================================== *)
(** * The routes and the dependencies *)
(* ===================================================================== *)

Section RouteFacts.
Import Py Eff.

Variable St : Type.
Variable handle : forall X, Sync.call X -> St -> outcome X * St.
Variable py_str : value -> string.

(** X25. The route [sync_product] runs [sync_product] once and turns its
    result into the answer: the result itself when it is a success, and
    otherwise an [HTTPException] with status 400 whose detail is the
    result's message; for a sku the ERP client does not find, the detail
    is "Product with SKU <sku> not found in Odoo". *)
Theorem sync_product_route_answer (sku : string) (s : St) :
  (exists r s' t,
     Sync.sync_product St handle sku s = (Ok r, s', t)
     /\ App.sync_product St handle sku s
        = (if Sync.success r
           then App.Returned r
           else App.HTTPException 400 (Sync.message r), s', t))
  /\ (forall s1,
        handle _ (Sync.odoo_get_product_by_sku sku) s = (Ok None, s1) ->
        App.sync_product St handle sku s
        = (App.HTTPException 400
             ("Product with SKU " ++ sku ++ " not found in Odoo"), s1,
           [Sync.Event (Sync.odoo_get_product_by_sku sku) (Ok None)])).
Proof.
  split.
  - destruct (sync_product_returns St handle sku s) as (r & s' & t & Hr).
    exists r, s', t. split; [exact Hr|].
    unfold App.sync_product. rewrite Hr. destruct (Sync.success r); reflexivity.
  - intros s1 Hget. unfold App.sync_product. run_sync. rewrite Hget.
    reflexivity.
Qed.

(** X26. The route [sync_order] dispatches on its request.  With a
    non-empty [order_id] it synchronizes that one order, whatever
    [sync_all_new] says, and answers 400 with the result's message when
    it fails.  Without one and with [sync_all_new] it returns the result
    of [sync_new_orders] as it is, also when that result is a failure.
    With neither it answers 400 and calls no client. *)
Theorem sync_order_route_dispatch (s : St) :
  (forall id sync_all_new,
     id <> "" ->
     exists r s' t,
       Sync.sync_order St handle py_str (JStr id) s = (Ok r, s', t)
       /\ App.sync_order St handle py_str (Some id) sync_all_new s
          = (if Sync.order_success r
             then App.Returned (App.Single r)
             else App.HTTPException 400 (Sync.order_message r), s', t))
  /\ (forall order_id,
        order_id = None \/ order_id = Some "" ->
        exists r s' t,
          Sync.sync_new_orders St handle py_str s = (Ok r, s', t)
          /\ App.sync_order St handle py_str order_id true s
             = (App.Returned (App.Batch r), s', t))
  /\ (forall order_id,
        order_id = None \/ order_id = Some "" ->
        App.sync_order St handle py_str order_id false s
        = (App.HTTPException 400
             "Either order_id or sync_all_new must be provided", s, [])).
Proof.
  split; [|split].
  - intros id flag Hid.
    destruct (sync_order_returns St handle py_str (JStr id) s)
      as (r & s' & t & Hr & _).
    exists r, s', t. split; [exact Hr|].
    unfold App.sync_order. destruct id as [|a id]; [congruence|].
    rewrite Hr. destruct (Sync.order_success r); reflexivity.
  - intros order_id Hid.
    assert (Hrun : exists r s' t,
               Sync.sync_new_orders St handle py_str s = (Ok r, s', t)).
    { unfold Sync.sync_new_orders, try_except, bind, Sync.perform, ret.
      destruct (handle _ Sync.magento_get_new_orders s)
        as [[new_orders|e] s1]; [|do 3 eexists; reflexivity].
      match goal with
      | |- context [Sync.sync_orders_loop St handle py_str new_orders ?R s1] =>
          destruct (sync_orders_loop_spec St handle py_str new_orders R s1)
            as (r' & s' & t & Hloop & _)
      end.
      rewrite Hloop. do 3 eexists. reflexivity. }
    destruct Hrun as (r & s' & t & Hr). exists r, s', t.
    split; [exact Hr|].
    unfold App.sync_order. destruct Hid as [-> | ->]; rewrite Hr; reflexivity.
  - intros order_id [-> | ->]; reflexivity.
Qed.

End RouteFacts.

Section DependencyFacts.
Import Py Eff.

Variable OWorld : Type.
Variable ohandle :
  forall X, OdooClient.call X -> OWorld -> outcome X * OWorld.
Variable MWorld : Type.
Variable mhandle :
  forall X, MagentoClient.call X -> MWorld -> outcome X * MWorld.

Local Abbreviation get_odoo_client := (App.get_odoo_client OWorld ohandle).
Local Abbreviation get_magento_client :=
  (App.get_magento_client MWorld mhandle).
Local Abbreviation health_check := (App.health_check MWorld mhandle).

(** X27. [get_odoo_client] hands over only a client that is connected,
    built for the configured server; when the connection fails it raises
    an [HTTPException] with status 500, and it lets no other exception
    through. *)
Theorem get_odoo_client_is_connected (host : string) (port : Z)
  (db user pass : string) (w : OWorld) :
  match fst (fst (get_odoo_client host port db user pass w)) with
  | App.Returned c =>
      OdooClient.connected c = true /\ OdooClient.odoo c = true
      /\ OdooClient.host c = host /\ OdooClient.port c = port
      /\ OdooClient.database c = db
  | App.HTTPException status_code detail =>
      status_code = 500%Z /\ detail = "Failed to connect to Odoo"
  | App.Unhandled _ => False
  end.
Proof.
  unfold App.get_odoo_client, OdooClient.connect, try_except, bind,
    OdooClient.perform, OdooClient.self, OdooClient.set_self, ret,
    any_exception. cbn [fst snd].
  destruct (ohandle _ (OdooClient.ODOO _ _) w) as [[[]|e] w1]; cbn [fst snd].
  - destruct (ohandle _ (OdooClient.login _ _ _) w1) as [[[]|e] w2];
      cbn; repeat split.
  - cbn. repeat split.
Qed.

(** The token request of a client without a usable token: it posts to
    the token endpoint once; a token it is issued is stored with an
    expiry time [token_lifetime] after the clock reading. *)
Lemma get_token_from_scratch (c : MagentoClient.client) (w wa : MWorld)
  (now : Q) :
  truthy (MagentoClient.token c) = false ->
  mhandle _ MagentoClient.time_time w = (Ok now, wa) ->
  exists r c' w' t,
    MagentoClient._get_token MWorld mhandle (c, w) = (r, (c', w'), t)
    /\ MagentoClient.token_exchanges t = 1
    /\ match r with
       | Ok v =>
           truthy v = true ->
           c' = MagentoClient.with_token_expiry (MagentoClient.with_token c v)
                  (now + MagentoClient.token_lifetime c)%Q
       | Raise e => is_RequestException e = false
       end.
Proof.
  intros Htok Hclock.
  unfold MagentoClient._get_token, try_except, bind, MagentoClient.perform,
    MagentoClient.self, MagentoClient.set_self, ret,
    MagentoClient.raise_for_status, MagentoClient.response_json, raise.
  cbn [fst snd]. rewrite Hclock. cbn [fst snd]. rewrite Htok.
  cbn [andb fst snd].
  destruct (mhandle _ (MagentoClient.requests_post _ _ _) wa)
    as [[resp|e] w2]; cbn [fst snd].
  - destruct ((400 <=? MagentoClient.status_code resp)
              && (MagentoClient.status_code resp <? 600))%Z;
      cbn [fst snd is_RequestException].
    + do 4 eexists. split; [reflexivity|]. split; [reflexivity|].
      discriminate.
    + destruct (MagentoClient.content resp);
        cbn [fst snd is_RequestException];
        (do 4 eexists; split; [reflexivity|]; split; [reflexivity|]);
        try discriminate.
      intros _. reflexivity.
  - destruct (is_RequestException e) eqn:He;
      (do 4 eexists; split; [reflexivity|]; split; [reflexivity|]).
    + discriminate.
    + exact He.
Qed.

(** What [get_magento_client] makes of the token request of the fresh
    client. *)
Lemma get_magento_client_returned (url user pass : string) (w w' : MWorld)
  (c : MagentoClient.client) (t : list MagentoClient.event) :
  get_magento_client url user pass w = (App.Returned c, w', t) ->
  exists tok,
    MagentoClient._get_token MWorld mhandle
      (MagentoClient.init url user pass, w) = (Ok tok, (c, w'), t)
    /\ truthy tok = true.
Proof.
  unfold App.get_magento_client.
  destruct (MagentoClient._get_token MWorld mhandle _)
    as [[[tok|e] [c1 w1]] t1]; [|discriminate].
  destruct (truthy tok) eqn:Htok; cbn [negb]; [|discriminate].
  intros H. injection H as <- <- <-. exists tok. now split.
Qed.



End DependencyFacts.

(* ===================================================================== *)
(** * The further theorems at work on the concrete systems *)
(* ===================================================================== *)

Section MoreExamples.
Import Py Scenario.

(** A fresh client is issued the token and keeps it. *)
Lemma get_token_returns_cached_token_witness :
  exists c',
    snd (fst (MagentoClient._get_token Q ack_handle (magento, 0%Q)))
      = (c', (0 + 1)%Q)
    /\ MagentoClient.token c' = JStr "t0k3n"
    /\ MagentoClient.base_url c' = "https://shop.example".
Proof.
  destruct (get_token_returns_cached_token Q ack_handle magento _ 0%Q _ _ _
              eq_refl) as (Htok & Hurl & _).
  eexists. split; [reflexivity|]. split; [exact Htok|exact Hurl].
Defined.

(** The token endpoint answers 503: nothing is cached and the next
    request asks again. *)
Lemma failed_token_is_not_cached_witness :
  MagentoClient.token_exchanges
    (snd (MagentoClient._get_token Q down_handle
            (MagentoClient.with_token magento JNull, 5%Q))) = 1.
Proof.
  exact (proj2 (proj2 (failed_token_is_not_cached Q down_handle magento _
                         0%Q _ 5%Q _ JNull _ 5%Q eq_refl eq_refl eq_refl))).
Defined.

(** No token, no request: the stock update answers [False]. *)
Lemma no_request_without_token_witness :
  fst (fst (MagentoClient.update_product_stock Q down_handle show "W-1" 5%Q
              (magento, 0%Q))) = Ok false
  /\ MagentoClient.requests_sent
       (snd (MagentoClient.update_product_stock Q down_handle show "W-1" 5%Q
               (magento, 0%Q))) = [].
Proof.
  destruct (no_request_without_token Q down_handle show magento 0%Q _ _ 0%Q _
              eq_refl eq_refl eq_refl eq_refl) as (_ & Hstock & _).
  rewrite (Hstock "W-1" 5%Q). split; reflexivity.
Defined.

(** A PUT acknowledged with an empty body gives [True]. *)
Lemma api_request_with_cached_token_witness :
  fst (fst (MagentoClient._make_api_request Q ack_handle show "PUT"
              "/rest/V1/products/W-1" (MagentoClient.price_data 10) None
              (magento_with_token, 10%Q))) = Ok (JBool true).
Proof.
  destruct (api_request_with_cached_token Q ack_handle show "PUT"
              "/rest/V1/products/W-1" (MagentoClient.price_data 10) None
              magento_with_token 10%Q _ _ 10%Q _
              eq_refl eq_refl eq_refl eq_refl)
    as (_ & _ & _ & _ & _ & _ & Hempty & _).
  exact (proj1 (Hempty _ eq_refl eq_refl eq_refl)).
Defined.

(** The stock update of five widgets: acknowledged, and in stock. *)
Lemma update_product_stock_sound_witness :
  MagentoClient.acknowledged
    (snd (MagentoClient.update_product_stock Q ack_handle show "W-1" 5%Q
            (magento_with_token, 10%Q)))
  = [("PUT", "https://shop.example/rest/V1/products/W-1/stockItems/1",
      JObj [("stockItem",
             JObj [("qty", JFloat 5); ("is_in_stock", JBool true)])])].
Proof.
  exact (proj1 (update_product_stock_sound Q ack_handle show "W-1" 5%Q
                  magento_with_token _ 10%Q _ _ eq_refl)).
Defined.

(** Both order queries go out although the first is answered without a
    body; the listing then raises. *)
Lemma get_new_orders_sends_both_queries_witness :
  MagentoClient.status_filters
    (snd (MagentoClient.get_new_orders Q ack_handle show
            (magento_with_token, 10%Q)))
  = [Some (JStr "pending"); Some (JStr "processing")].
Proof.
  exact (proj1 (proj2 (get_new_orders_sends_both_queries Q ack_handle show
                         magento_with_token 10%Q _ _ _ _ 10%Q (10 + 1)%Q _ _
                         eq_refl eq_refl eq_refl eq_refl eq_refl eq_refl
                         eq_refl eq_refl))).
Defined.

Lemma get_new_orders_raises_on_empty_body_witness :
  exists msg,
    fst (fst (MagentoClient.get_new_orders Q ack_handle show
                (magento_with_token, 10%Q))) = Raise (TypeError msg).
Proof.
  exact (proj1 (get_new_orders_raises_on_empty_body Q ack_handle show
                  magento_with_token 10%Q _ _ _ _ 10%Q (10 + 1)%Q _ _
                  eq_refl eq_refl eq_refl eq_refl eq_refl eq_refl
                  eq_refl eq_refl eq_refl eq_refl)).
Defined.

(** After the first connection the client connects no more. *)
Lemma ensure_connection_is_lazy_witness :
  OdooClient.ensure_connection erp_db (erp_handle catalogue)
    (odoo_connected_client, empty_erp)
  = (Ok true, (odoo_connected_client, empty_erp), []).
Proof.
  exact (proj1 (proj2 (proj2 (ensure_connection_is_lazy erp_db
                                (erp_handle catalogue) odoo_client _
                                empty_erp _ _ eq_refl)))
           empty_erp).
Defined.

(** The ERP is offline: the connection fails and is tried again. *)
Lemma failed_connect_is_retried_witness :
  hd_error (snd (OdooClient.ensure_connection unit offline_handle
                   (OdooClient.with_connected odoo_client false, tt)))
  = Some (OdooClient.Event (OdooClient.ODOO "localhost" 8069)
            (Raise (OtherException "connection refused"))).
Proof.
  exact (proj2 (proj2 (proj2 (failed_connect_is_retried unit offline_handle
                                odoo_client _ tt _ _ eq_refl)))
           tt).
Defined.

Lemma unreachable_server_gives_failure_values_witness :
  OdooClient.get_all_products unit offline_handle None (odoo_client, tt)
  = (Ok [], (OdooClient.with_connected odoo_client false, tt),
     [OdooClient.Event (OdooClient.ODOO "localhost" 8069)
        (Raise (OtherException "connection refused"))]).
Proof.
  exact (proj1 (proj2 (unreachable_server_gives_failure_values unit
                         offline_handle upper_ascii odoo_client tt tt
                         (OtherException "connection refused")
                         eq_refl eq_refl))
           None).
Defined.



(** No country code, no search; "eg" is searched as "EG". *)
Lemma get_country_id_cases_witness :
  OdooClient._get_country_id erp_db (erp_handle catalogue) upper_ascii JNull
    (odoo_connected_client, empty_erp)
  = (Ok JNull, (odoo_connected_client, empty_erp), [])
  /\ snd (OdooClient._get_country_id erp_db (erp_handle catalogue)
            upper_ascii (JStr "eg") (odoo_connected_client, empty_erp))
     = [OdooClient.Event
          (OdooClient.search "res.country" [("code", "=", JStr "EG")])
          (Ok [])].
Proof.
  destruct (get_country_id_cases erp_db (erp_handle catalogue) upper_ascii
              odoo_connected_client empty_erp eq_refl eq_refl)
    as [Hnone Hstr].
  split.
  - apply Hnone. intros s H. discriminate H.
  - rewrite (Hstr "eg" _ _ eq_refl). reflexivity.
Defined.

(** A known customer orders one unknown and one known product: the
    order is created for partner 7 with the one line that resolves. *)
Lemma create_sale_order_reuses_partner_witness :
  let run := OdooClient.create_sale_order erp_db (erp_handle catalogue)
               upper_ascii customer_AB mixed_lines (JInt 11)
               (odoo_connected_client, erp_with_partner) in
  fst (fst run) = Ok (Some 50%Z)
  /\ partners (snd (snd (fst run))) = partners erp_with_partner
  /\ map snd (sale_orders (snd (snd (fst run))))
     = [[("partner_id", JInt 7);
         ("client_order_ref", JInt 11);
         ("order_line",
          JArr [JArr [JInt 0; JInt 0;
                      JObj [("product_id", JInt 1);
                            ("product_uom_qty", JInt 1);
                            ("price_unit", JInt 6)]]])]].
Proof.
  intros run.
  pose (vals := [("partner_id", JInt 7); ("client_order_ref", JInt 11);
                 ("order_line",
                  JArr (OdooClient.found_lines catalogue_found mixed_lines))]).
  pose (answer := erp_handle catalogue Z (OdooClient.create "sale.order" vals)
                    erp_with_partner).
  assert (Hall : forall line, In line mixed_lines ->
            erp_handle catalogue _ (OdooClient.line_search line)
              erp_with_partner
            = (Ok (catalogue_found line), erp_with_partner)).
  { intros line [<-|[<-|[]]]; reflexivity. }
  assert (Hsome : OdooClient.found_lines catalogue_found mixed_lines <> [])
    by discriminate.
  destruct (create_sale_order_reuses_partner erp_db (erp_handle catalogue)
              upper_ascii customer_AB mixed_lines (JInt 11) catalogue_found
              odoo_connected_client erp_with_partner erp_with_partner
              (snd answer) 7%Z [] (fst answer)
              eq_refl eq_refl eq_refl Hall Hsome eq_refl) as (Hrun & _).
  subst run. rewrite Hrun. repeat split.
Defined.

(** A widget on promotion synchronized with success: the three updates
    were made. *)
Lemma sync_product_success_is_backed_witness :
  let s := shop_of [widget (Some 8%Q)] ["W-1"] true true true in
  exists p m special,
    snd (Sync.sync_product shop shop_handle "W-1" s)
      = Sync.update_trace "W-1" p m true true special
    /\ Sync.truthy_dict m = true.
Proof.
  intros s.
  destruct (sync_product_success_is_backed shop shop_handle "W-1" s _ _ _
              eq_refl eq_refl)
    as (p & m & special & Ht & Hm & _).
  exists p, m, special. split; [exact Ht|exact Hm].
Defined.

(** An order the storefront does not have. *)
Lemma sync_order_not_found_witness :
  Sync.sync_order shop shop_handle show (JInt 99)
    (shop_of [] [] true true true)
  = (Ok {| Sync.order_success := false;
           Sync.order_message := "Order with ID 99 not found in Magento";
           Sync.orders_synced := [] |},
     shop_of [] [] true true true,
     [Sync.Event (Sync.magento_get_order_by_id (JInt 99)) (Ok None)]).
Proof.
  exact (proj1 (sync_order_not_found shop shop_handle show (JInt 99)
                  (shop_of [] [] true true true) _ None eq_refl eq_refl)).
Defined.

(** The order of "A", "B": one line for its one item. *)
Lemma order_lines_follow_items_witness :
  Sync.lines_sent
    (snd (Sync.sync_order shop shop_handle show (JInt 11)
            (shop_of [] [] true true true)))
  = [([[("sku", JStr "W-1"); ("quantity", JInt 2);
        ("price_unit", JFloat 10)]], JInt 11)].
Proof.
  refine (proj1 (order_lines_follow_items shop shop_handle show (JInt 11)
                   (shop_of [] [] true true true) _ order_AB _
                   [[("sku", JStr "W-1"); ("qty_ordered", JInt 2);
                     ("price", JFloat 10)]]
                   eq_refl _ eq_refl eq_refl)).
  discriminate.
Defined.

(** The order with the empty street list fails before the ERP is
    called. *)
Lemma empty_street_list_fails_order_witness :
  Sync.sync_order shop shop_handle show (JInt 12) shop_no_street
  = (Ok {| Sync.order_success := false;
           Sync.order_message :=
             "Error synchronizing order 12: list index out of range";
           Sync.orders_synced := [] |},
     shop_no_street,
     [Sync.Event (Sync.magento_get_order_by_id (JInt 12))
        (Ok (Some order_no_street))]).
Proof.
  exact (proj1 (empty_street_list_fails_order shop shop_handle show (JInt 12)
                  shop_no_street _ order_no_street
                  [("firstname", JStr "A"); ("lastname", JStr "B");
                   ("street", JArr [])]
                  eq_refl eq_refl)
           eq_refl).
Defined.

(** Two listed orders, one without an identifier: order 11 is reported
    once. *)
Lemma batch_reports_listed_identifiers_witness :
  let s := shop_of [] [] true true true in
  exists r results,
    fst (fst (Sync.sync_new_orders shop shop_handle show s)) = Ok r
    /\ Sync.new_results r = Some results
    /\ Sync.new_orders_synced r = Sync.synced_orders results
    /\ Permutation
         (Sync.synced_orders results ++ Sync.failed_orders results)%list
         [JInt 11].
Proof.
  intros s.
  exact (proj1 (batch_reports_listed_identifiers shop shop_handle show s s)
           [order_AB; order_anonymous] eq_refl).
Defined.

(** Three products, one without a sku: two pauses. *)
Lemma batch_pauses_after_each_item_witness :
  Sync.sleeps
    (snd (Sync.sync_all_products shop shop_handle
            (shop_of [widget None; unlabelled; gadget] [] true true true)))
  = [0.5%Q; 0.5%Q].
Proof.
  exact (proj1 (batch_pauses_after_each_item shop shop_handle show
                  (shop_of [widget None; unlabelled; gadget] []
                     true true true) _)
           [widget None; unlabelled; gadget] eq_refl).
Defined.



(** The price update of a widget is acknowledged. *)
Lemma update_product_prices_sound_witness :
  MagentoClient.acknowledged
    (snd (MagentoClient.update_product_price Q ack_handle show "W-1" 10%Q
            (magento_with_token, 10%Q)))
  = [("PUT", "https://shop.example/rest/V1/products/W-1",
      JObj [("product", JObj [("price", JFloat 10)])])].
Proof.
  exact (proj1 (update_product_prices_sound Q ack_handle show "W-1" 10%Q
                  None None magento_with_token _ 10%Q _ _)
           eq_refl).
Defined.

(** Two trailing slashes are removed. *)
Lemma init_strips_trailing_slashes_witness :
  MagentoClient.base_url (MagentoClient.init "https://shop.example//" "u" "p")
  = "https://shop.example"
  /\ MagentoClient.token_exchanges
       (snd (MagentoClient._get_token Q ack_handle
               (MagentoClient.init "https://shop.example//" "u" "p", 0%Q)))
     = 1.
Proof.
  split; [reflexivity|].
  exact (proj2 (proj2 (proj2 (init_strips_trailing_slashes Q ack_handle
                                "https://shop.example//" "u" "p")))
           0%Q _ 0%Q eq_refl).
Defined.


(** Order 11 is synchronized to sale order 7. *)
Lemma sync_order_success_iff_id_witness :
  exists r s' t,
    Sync.sync_order shop shop_handle show (JInt 11)
      (shop_of [] [] true true true) = (Ok r, s', t)
    /\ Sync.orders_synced r
       = (if Sync.order_success r then [JInt 11] else []).
Proof.
  destruct (sync_order_success_iff_id shop shop_handle show (JInt 11)
              (shop_of [] [] true true true)) as (r & s' & t & Hr & Hs & _).
  exists r, s', t. split; [exact Hr|exact Hs].
Defined.

(** The route answers 400 for a sku the ERP does not have. *)
Lemma sync_product_route_answer_witness :
  fst (fst (App.sync_product shop shop_handle "W-1"
              (shop_of [] [] true true true)))
  = App.HTTPException 400 "Product with SKU W-1 not found in Odoo".
Proof.
  rewrite (proj2 (sync_product_route_answer shop shop_handle "W-1"
                    (shop_of [] [] true true true))
             _ eq_refl).
  reflexivity.
Defined.

(** A request with neither an order nor the flag. *)
Lemma sync_order_route_dispatch_witness :
  App.sync_order shop shop_handle show (Some "") false
    (shop_of [] [] true true true)
  = (App.HTTPException 400 "Either order_id or sync_all_new must be provided",
     shop_of [] [] true true true, []).
Proof.
  exact (proj2 (proj2 (sync_order_route_dispatch shop shop_handle show
                         (shop_of [] [] true true true)))
           (Some "") (or_intror eq_refl)).
Defined.

(** The dependency against the offline ERP answers 500. *)
Lemma get_odoo_client_is_connected_witness :
  fst (fst (App.get_odoo_client unit offline_handle "localhost" 8069 "odoo"
              "admin" "admin" tt))
  = App.HTTPException 500 "Failed to connect to Odoo".
Proof.
  pose proof (get_odoo_client_is_connected unit offline_handle "localhost"
                8069 "odoo" "admin" "admin" tt) as H.
  destruct (fst (fst (App.get_odoo_client unit offline_handle "localhost"
                        8069 "odoo" "admin" "admin" tt)))
    as [c|code detail|e] eqn:E.
  - discriminate E.
  - destruct H as [-> ->]. reflexivity.
  - destruct H.
Defined.

End MoreExamples.
